(** * Gallery endpoints of the visionary-lab backend

    A shallow embedding of [backend/api/endpoints/gallery.py]: the FastAPI
    handlers of the gallery router, written as state-passing programs over
    the two cloud services they orchestrate (the blob store and the Cosmos
    DB metadata store), followed by the properties of those handlers.

    Conventions.
    - A Python [str] is a [string] whose characters are code points below
      256; [lower] and [strip] follow CPython on that range.
    - A Python [dict] is its list of items in insertion order.
    - The service classes ([AzureBlobStorageService], [CosmosDBService]),
      [settings], the pydantic response models and the standard library
      calls [json.loads], [json.dumps], [str] on containers and exceptions
      are declared outside this file's source: services are records of
      methods over an abstract world [W], library calls are the methods of
      the class [PyLib], response models are the dictionaries of the fields
      the handlers pass to them. *)

From Stdlib Require Import ZArith Ascii String List Bool Lia.
From stdpp Require Import base option list strings pretty sorting.
Import ListNotations.

Set Warnings "-register-all".
Set Default Proof Using "Type".

Open Scope string_scope.
Open Scope list_scope.
Open Scope Z_scope.

(* ===================================================================== *)
(** ** Python strings *)
(* ===================================================================== *)

Module Str.

(** [c.lower()] for one code point below 256: A-Z, and the Latin-1 capitals
    U+00C0..U+00DE without the multiplication sign U+00D7. *)
Definition lower_char (c : ascii) : ascii :=
  let n := N_of_ascii c in
  if (((65 <=? n) && (n <=? 90)) ||
      ((192 <=? n) && (n <=? 222) && negb (n =? 215)))%N
  then ascii_of_N (n + 32) else c.

(** [s.lower()] *)
Fixpoint lower (s : string) : string :=
  match s with
  | EmptyString => EmptyString
  | String c r => String (lower_char c) (lower r)
  end.

(** [s.startswith(p)] *)
Fixpoint startswith (s p : string) : bool :=
  match p, s with
  | EmptyString, _ => true
  | String _ _, EmptyString => false
  | String a p', String b s' => Ascii.eqb a b && startswith s' p'
  end.

(** [s.endswith(suffix)] *)
Definition endswith (s suffix : string) : bool :=
  startswith (String.rev s) (String.rev suffix).

(** [s.split(sep)] for a separator of one character, the only form the
    handlers use.  The result is never empty. *)
Fixpoint split (s : string) (sep : ascii) : list string :=
  match s with
  | EmptyString => [EmptyString]
  | String c r =>
      if Ascii.eqb c sep then EmptyString :: split r sep
      else match split r sep with
           | h :: t => String c h :: t
           | [] => [String c EmptyString]
           end
  end.

(** [l[0]] and [l[-1]] on the result of a split. *)
Definition first (l : list string) : string := hd EmptyString l.
Definition final (l : list string) : string := List.last l EmptyString.

(** [c.isspace()] below 256. *)
Definition isspace (c : ascii) : bool :=
  let n := N_of_ascii c in
  (((9 <=? n) && (n <=? 13)) || ((28 <=? n) && (n <=? 32)) ||
   (n =? 133) || (n =? 160))%N.

Fixpoint lstrip (s : string) : string :=
  match s with
  | EmptyString => EmptyString
  | String c r => if isspace c then lstrip r else s
  end.

(** [s.strip()] *)
Definition strip (s : string) : string :=
  String.rev (lstrip (String.rev (lstrip s))).

(** [sep.join(l)] on a list of strings. *)
Definition join (sep : string) (l : list string) : string :=
  String.concat sep l.

(** [s.capitalize()]: first character upper-cased, the rest lower-cased
    (ASCII letters; the handlers apply it to "image" and "video"). *)
Definition upper_char (c : ascii) : ascii :=
  let n := N_of_ascii c in
  if ((97 <=? n) && (n <=? 122))%N then ascii_of_N (n - 32) else c.

Definition capitalize (s : string) : string :=
  match s with
  | EmptyString => EmptyString
  | String c r => String (upper_char c) (lower r)
  end.

(** Truth value of a string: non-empty. *)
Definition nonempty (s : string) : bool :=
  match s with EmptyString => false | _ => true end.

(** The wording of the specification for the asset identifier: the part of
    a string before the first occurrence of a character, and the part after
    the last one. *)
Fixpoint before_first (c : ascii) (s : string) : string :=
  match s with
  | EmptyString => EmptyString
  | String a r => if Ascii.eqb a c then EmptyString
                  else String a (before_first c r)
  end.

Fixpoint occurs (c : ascii) (s : string) : bool :=
  match s with
  | EmptyString => false
  | String a r => Ascii.eqb a c || occurs c r
  end.

Fixpoint after_last (c : ascii) (s : string) : string :=
  match s with
  | EmptyString => EmptyString
  | String a r =>
      if occurs c r then after_last c r
      else if Ascii.eqb a c then r else s
  end.

End Str.

(* ===================================================================== *)
(** ** Python values and dictionaries *)
(* ===================================================================== *)

(** A binary64 number, kept symbolic: only its truth value is computed
    here, its text is the library's business. *)
Inductive pyfloat : Type :=
| FNan
| FInf (negative : bool)
| FFinite (negative : bool) (mantissa : N) (exponent : Z).

Inductive pyvalue : Type :=
| PNone
| PBool (b : bool)
| PInt (z : Z)
| PFloat (f : pyfloat)
| PStr (s : string)
| PList (l : list pyvalue)
| PDict (items : list (string * pyvalue)).

Definition dict : Type := list (string * pyvalue).

Module Dict.

(** [d.get(k)] as an option; [None] when the key is absent. *)
Fixpoint lookup (d : dict) (k : string) : option pyvalue :=
  match d with
  | [] => None
  | (k', v) :: r => if String.eqb k' k then Some v else lookup r k
  end.

(** [d.get(k, default)] *)
Definition get (d : dict) (k : string) (default : pyvalue) : pyvalue :=
  match lookup d k with Some v => v | None => default end.

(** [d[k] = v]: in place when the key exists, appended otherwise. *)
Fixpoint set (d : dict) (k : string) (v : pyvalue) : dict :=
  match d with
  | [] => [(k, v)]
  | (k', v') :: r =>
      if String.eqb k' k then (k', v) :: r else (k', v') :: set r k v
  end.

(** [del d[k]] *)
Fixpoint del (d : dict) (k : string) : dict :=
  match d with
  | [] => []
  | (k', v') :: r =>
      if String.eqb k' k then del r k else (k', v') :: del r k
  end.

(** [d.update(other)], also the meaning of [**other] inside a dict
    display: the items of [other] are stored one after the other. *)
Definition update (d other : dict) : dict :=
  fold_left (fun acc kv => set acc (fst kv) (snd kv)) other d.

(** A dict display [{k1: v1, ..., **more}] *)
Definition display (entries : list (string * pyvalue)) : dict :=
  update [] entries.

(** [k in d] *)
Definition mem (d : dict) (k : string) : bool :=
  match lookup d k with Some _ => true | None => false end.

End Dict.

(** Truth value of a Python value, as [if v:] tests it. *)
Definition truthy (v : pyvalue) : bool :=
  match v with
  | PNone => false
  | PBool b => b
  | PInt z => negb (z =? 0)
  | PFloat (FFinite _ m _) => negb (m =? 0)%N
  | PFloat _ => true
  | PStr s => Str.nonempty s
  | PList l => match l with [] => false | _ => true end
  | PDict d => match d with [] => false | _ => true end
  end.

(** [isinstance(v, (dict, list))] *)
Definition is_dict_or_list (v : pyvalue) : bool :=
  match v with
  | PList _ | PDict _ => true
  | _ => false
  end.

(* ===================================================================== *)
(** ** Exceptions, library calls, effects *)
(* ===================================================================== *)

(** The exceptions the handlers tell apart.  All three are subclasses of
    [Exception]: [fastapi.HTTPException], [json.JSONDecodeError], and
    [PyError cls msg] for every other class (KeyError, TypeError, the
    errors of the cloud SDKs, ...). *)
Inductive exn : Type :=
| HTTPException (status_code : Z) (detail : string)
| JSONDecodeError (msg : string)
| PyError (cls : string) (msg : string).

Inductive result (A : Type) : Type :=
| Ok (a : A)
| Raise (e : exn).
Arguments Ok {A} a.
Arguments Raise {A} e.

(** Calls into the Python standard library and into CPython protocols whose
    text is not part of the handlers. *)
Class PyLib : Type := {
  (** [json.loads(s)]; [None] stands for [json.JSONDecodeError] *)
  json_loads : string -> option pyvalue;
  (** [json.dumps(v)] *)
  json_dumps : pyvalue -> string;
  (** [str(v)] for floats, lists and dicts *)
  repr_value : pyvalue -> string;
  (** [str(e)] for an exception *)
  str_exn : exn -> string;
  (** [traceback.format_exc()] while [e] is being handled *)
  format_exc : exn -> string;
  (** [d.update(v)] when [v] is not a dict (sequence-of-pairs protocol) *)
  update_from_iterable : dict -> pyvalue -> result dict;
  (** [t.isoformat()] for a time in microseconds since the epoch *)
  isoformat : Z -> string
}.

(** [str(v)] *)
Definition py_str `{PyLib} (v : pyvalue) : string :=
  match v with
  | PNone => "None"
  | PBool true => "True"
  | PBool false => "False"
  | PInt z => pretty z
  | PStr s => s
  | PFloat _ | PList _ | PDict _ => repr_value v
  end.

Inductive MediaType : Type := IMAGE | VIDEO.

(** [media_type.value] *)
Definition value (m : MediaType) : string :=
  match m with IMAGE => "image" | VIDEO => "video" end.

(** [MediaType(s)]: ValueError for any other string. *)
Definition MediaType_of (v : pyvalue) : result MediaType :=
  match v with
  | PStr "image" => Ok IMAGE
  | PStr "video" => Ok VIDEO
  | _ => Raise (PyError "ValueError" "not a valid MediaType")
  end.

Inductive loglevel : Type := WARNING | ERROR.

(** What a handler does to the outside: the calls it places on the two
    services and on the SAS signer, in program order, with their arguments,
    and the lines it logs or prints. *)
Inductive event : Type :=
| EQueryAssets (media_type folder_path : option string)
    (tags : option (list string)) (limit offset : Z)
    (order_by : string) (order_desc : bool)
| ECreateAssetMetadata (doc : dict)
| EDeleteAssetMetadata (asset_id media_type : string)
| ECosmosHealthCheck
| EGenerateBlobSasUrl (blob_name container_name : pyvalue) (expiry_hours : Z)
| EUploadAsset (filename : option string) (media_type : string)
    (metadata : pyvalue) (folder_path : option string)
| EDeleteBlob (blob_name container_name : string)
| EGetAssetContent (blob_name container_name : string)
| EEnsureContainerExists (container_name : string)
| EGenerateContainerSas (container_name : string) (permission : list string)
    (expiry : Z)
| ENow (t : Z)
| ELog (level : loglevel) (msg : string)
| EPrint (msg : string).

(** Calls that can change what the stores hold. *)
Definition is_mutation (e : event) : bool :=
  match e with
  | ECreateAssetMetadata _ | EDeleteAssetMetadata _ _
  | EUploadAsset _ _ _ _ | EDeleteBlob _ _ | EEnsureContainerExists _ => true
  | _ => false
  end.

Section Effects.

Context {W : Type}.

(** The state a request runs in: the world behind the services and the
    trace of events so far. *)
Record state : Type := mkState { world : W; trace : list event }.

Definition M (A : Type) : Type := state -> result A * state.

Definition ret {A} (a : A) : M A := fun s => (Ok a, s).

Definition raise {A} (e : exn) : M A := fun s => (Raise e, s).

Definition bind {A B} (m : M A) (k : A -> M B) : M B :=
  fun s => match m s with
           | (Ok a, s') => k a s'
           | (Raise e, s') => (Raise e, s')
           end.

(** [try: body  except Exception as e: handler(e)] *)
Definition try_except {A} (body : M A) (handler : exn -> M A) : M A :=
  fun s => match body s with
           | (Ok a, s') => (Ok a, s')
           | (Raise e, s') => handler e s'
           end.

Definition lift {A} (r : result A) : M A := fun s => (r, s).

Definition emit (e : event) : M unit :=
  fun s => (Ok tt, mkState (world s) (trace s ++ [e])).

(** A call on a service: the event is recorded, then the method runs on
    the world. *)
Definition call {A} (e : event) (method : W -> result A * W) : M A :=
  fun s => let (r, w) := method (world s) in
           (r, mkState w (trace s ++ [e])).

End Effects.

Arguments state W : clear implicits.
Arguments M W A : clear implicits.

Notation "x <- c1 ;; c2" := (bind c1 (fun x => c2))
  (at level 100, c1 at next level, right associativity).
Notation "c1 ;;; c2" := (bind c1 (fun _ => c2))
  (at level 100, right associativity).

(** [for x in l: acc.append(body(x))] *)
Fixpoint for_each {W A B} (l : list A) (body : A -> M W B) : M W (list B) :=
  match l with
  | [] => ret []
  | x :: r => y <- body x ;; ys <- for_each r body ;; ret (y :: ys)
  end.

(** [logger.warning(msg)], [logger.error(msg)], [print(msg)] *)
Definition logger_warning {W} (msg : string) : M W unit := emit (ELog WARNING msg).
Definition logger_error {W} (msg : string) : M W unit := emit (ELog ERROR msg).
Definition print {W} (msg : string) : M W unit := emit (EPrint msg).

(** The same for computations without effects. *)
Definition rbind {A B} (r : result A) (k : A -> result B) : result B :=
  match r with
  | Ok a => k a
  | Raise e => Raise e
  end.

Notation "x <~ c1 ;; c2" := (rbind c1 (fun x => c2))
  (at level 100, c1 at next level, right associativity).

(** [d[k]]: KeyError when the key is absent. *)
Definition getitem (d : dict) (k : string) : result pyvalue :=
  match Dict.lookup d k with
  | Some v => Ok v
  | None => Raise (PyError "KeyError" k)
  end.

(** The characters of a string, as [for c in s] yields them. *)
Fixpoint chars (s : string) : list string :=
  match s with
  | EmptyString => []
  | String c r => String c EmptyString :: chars r
  end.

(** All elements of a list as strings, or nothing if one is not a [str]. *)
Fixpoint all_str (l : list pyvalue) : option (list string) :=
  match l with
  | [] => Some []
  | PStr s :: r => match all_str r with
                   | Some ss => Some (s :: ss)
                   | None => None
                   end
  | _ :: _ => None
  end.

(** [sep.join(v)] on a value: a list of strings, the characters of a
    string, or the keys of a dict; TypeError otherwise. *)
Definition join_value (sep : string) (v : pyvalue) : result string :=
  match v with
  | PList l =>
      match all_str l with
      | Some ss => Ok (Str.join sep ss)
      | None => Raise (PyError "TypeError" "sequence item: expected str instance")
      end
  | PStr s => Ok (Str.join sep (chars s))
  | PDict d => Ok (Str.join sep (List.map fst d))
  | _ => Raise (PyError "TypeError" "can only join an iterable")
  end.

(** [**v] inside a dict display: [v] must be a mapping. *)
Definition mapping (v : pyvalue) : result dict :=
  match v with
  | PDict d => Ok d
  | _ => Raise (PyError "TypeError" "object is not a mapping")
  end.

(** [d.update(v)] on a value. *)
Definition update_value `{PyLib} (d : dict) (v : pyvalue) : result dict :=
  match v with
  | PDict other => Ok (Dict.update d other)
  | _ => update_from_iterable d v
  end.

(** [v == s] for a string literal [s]. *)
Definition eq_str (v : pyvalue) (s : string) : bool :=
  match v with
  | PStr s' => String.eqb s' s
  | _ => false
  end.

(** Truth value of an [Optional[str]]. *)
Definition truthy_opt (o : option string) : bool :=
  match o with
  | Some s => Str.nonempty s
  | None => false
  end.

(* ===================================================================== *)
(** ** Settings, services, models *)
(* ===================================================================== *)

(** [backend.core.config.settings], the attributes the router reads. *)
Record Settings : Type := {
  AZURE_COSMOS_DB_ENDPOINT : option string;
  AZURE_COSMOS_DB_KEY : option string;
  USE_MANAGED_IDENTITY : bool;
  AZURE_BLOB_IMAGE_CONTAINER : string;
  AZURE_BLOB_VIDEO_CONTAINER : string;
  AZURE_STORAGE_ACCOUNT_NAME : string;
  AZURE_STORAGE_ACCOUNT_KEY : string
}.

(** [fastapi.UploadFile] *)
Record UploadFile : Type := {
  filename : option string;
  content : string
}.

(** [backend.core.cosmos_client.CosmosDBService], the methods called. *)
Module CosmosDBService.

Record query_result : Type := { items : list dict; total : pyvalue }.

Record t (W : Type) : Type := {
  query_assets :
    option string -> option string -> option (list string) -> Z -> Z ->
    string -> bool -> W -> result query_result * W;
  create_asset_metadata : dict -> W -> result unit * W;
  delete_asset_metadata : string -> string -> W -> result unit * W;
  health_check : W -> result dict * W
}.
Arguments query_assets {W}.
Arguments create_asset_metadata {W}.
Arguments delete_asset_metadata {W}.
Arguments health_check {W}.

End CosmosDBService.

(** [backend.core.azure_storage.AzureBlobStorageService], the methods
    called. *)
Module AzureBlobStorageService.

Record t (W : Type) : Type := {
  generate_blob_sas_url : pyvalue -> pyvalue -> Z -> W -> result string * W;
  upload_asset :
    UploadFile -> string -> pyvalue -> option string -> W -> result dict * W;
  delete_asset : string -> string -> W -> result bool * W;
  get_asset_content :
    string -> string -> W -> result (option string * string) * W;
  _ensure_container_exists : string -> W -> result unit * W
}.
Arguments generate_blob_sas_url {W}.
Arguments upload_asset {W}.
Arguments delete_asset {W}.
Arguments get_asset_content {W}.
Arguments _ensure_container_exists {W}.

End AzureBlobStorageService.

(** What the process provides besides the two service objects: the
    settings, the outcome of the two constructors, the clock, the SAS
    signer of the Azure SDK, the import of the AI clients of
    [backend.core] (the truth value of each), and the validation done by
    the request model [AssetMetadataCreateRequest]. *)
Record Env (W : Type) : Type := {
  settings : Settings;
  new_AzureBlobStorageService : result (AzureBlobStorageService.t W);
  new_CosmosDBService : result (CosmosDBService.t W);
  datetime_now : W -> Z * W;
  generate_container_sas :
    string -> string -> string -> list string -> Z -> result string;
  import_ai_clients : result (bool * bool * bool);
  AssetMetadataCreateRequest : dict -> result dict
}.
Arguments settings {W}.
Arguments new_AzureBlobStorageService {W}.
Arguments new_CosmosDBService {W}.
Arguments datetime_now {W}.
Arguments generate_container_sas {W}.
Arguments import_ai_clients {W}.
Arguments AssetMetadataCreateRequest {W}.

(** [backend.models.gallery.GalleryItem], the fields the handlers pass. *)
Module GalleryItem.
Record t : Type := {
  id : pyvalue;
  name : pyvalue;
  media_type : MediaType;
  url : string;
  container : pyvalue;
  size : pyvalue;
  content_type : pyvalue;
  creation_time : pyvalue;
  last_modified : pyvalue;
  metadata : dict;
  folder_path : pyvalue
}.
End GalleryItem.

(** [backend.models.gallery.GalleryResponse]; [continuation_token] and
    [folders] are always [None]. *)
Module GalleryResponse.
Record t : Type := {
  success : bool;
  message : string;
  total : pyvalue;
  limit : Z;
  offset : Z;
  items : list GalleryItem.t
}.
End GalleryResponse.

(** [backend.models.gallery.AssetDeleteResponse] *)
Module AssetDeleteResponse.
Record t : Type := {
  success : bool;
  message : string;
  blob_name : string;
  container : string
}.
End AssetDeleteResponse.

(** [fastapi.responses.StreamingResponse] *)
Module StreamingResponse.
Record t : Type := {
  content : string;
  media_type : string;
  headers : list (string * string)
}.
End StreamingResponse.

(** The dictionary returned by [get_sas_tokens]. *)
Module SasTokenResponse.
Record t : Type := {
  success : bool;
  message : string;
  video_sas_token : string;
  image_sas_token : string;
  video_container_url : string;
  image_container_url : string;
  expiry : Z
}.
End SasTokenResponse.

(** The dictionary returned by [health_check]. *)
Module HealthStatus.
Record t : Type := {
  timestamp : string;
  services : dict;
  overall_status : string
}.
End HealthStatus.

(** What the client receives: the body of a handler that returned, the
    status and detail of an [HTTPException], or the framework's 500 for any
    other exception that left the handler or a dependency. *)
Inductive response (A : Type) : Type :=
| Returned (body : A)
| HTTPError (status_code : Z) (detail : string)
| InternalServerError (e : exn).
Arguments Returned {A} body.
Arguments HTTPError {A} status_code detail.
Arguments InternalServerError {A} e.

Definition status {A} (r : response A) : Z :=
  match r with
  | Returned _ => 200
  | HTTPError c _ => c
  | InternalServerError _ => 500
  end.

Definition respond {A} (r : result A) : response A :=
  match r with
  | Ok a => Returned a
  | Raise (HTTPException c d) => HTTPError c d
  | Raise e => InternalServerError e
  end.

(** One hour and one microsecond-resolution clock: [timedelta(hours=1)]. *)
Definition hours (n : Z) : Z := n * 3600 * 1000000.

(* ===================================================================== *)
(** ** The router *)
(* ===================================================================== *)

Section Router.

Context {W : Type} `{PyLib} (env : Env W).

Abbreviation Cosmos := (CosmosDBService.t W).
Abbreviation Azure := (AzureBlobStorageService.t W).

(** [datetime.now(timezone.utc)] and [datetime.utcnow()] *)
Definition now : M W Z :=
  fun s => let (t, w) := datetime_now env (world s) in
           (Ok t, mkState w (trace s ++ [ENow t])).

(** [except HTTPException: raise] in front of [except Exception as e] *)
Definition reraise_http {A} (handler : exn -> M W A) (e : exn) : M W A :=
  match e with
  | HTTPException _ _ => raise e
  | _ => handler e
  end.

(** Dependency to get Cosmos DB service instance (required) *)
Definition get_cosmos_service : M W Cosmos :=
  try_except
    (if truthy_opt (AZURE_COSMOS_DB_ENDPOINT (settings env)) then
       if truthy_opt (AZURE_COSMOS_DB_KEY (settings env))
          || USE_MANAGED_IDENTITY (settings env)
       then lift (new_CosmosDBService env)
       else raise (HTTPException 503
         "Cosmos DB endpoint configured but no API key or managed identity enabled")
     else raise (HTTPException 503
         "Cosmos DB not configured. Please set AZURE_COSMOS_DB_ENDPOINT and AZURE_COSMOS_DB_KEY"))
    (reraise_http (fun e =>
       logger_error ("Cosmos DB service initialization failed: " +:+ str_exn e) ;;;
       raise (HTTPException 503
         ("Failed to initialize Cosmos DB service: " +:+ str_exn e)))).

(** [Depends(lambda: AzureBlobStorageService())] *)
Definition get_azure_service : M W Azure :=
  lift (new_AzureBlobStorageService env).

(** [[tag.strip() for tag in tags.split(",") if tag.strip()]] under
    [if tags:] *)
Definition parse_tags (tags : option string) : option (list string) :=
  match tags with
  | Some t =>
      if Str.nonempty t
      then Some (List.map Str.strip
                   (List.filter (fun tag => Str.nonempty (Str.strip tag))
                      (Str.split t ",")))
      else None
  | None => None
  end.

(** The access URL of one record: [generate_blob_sas_url] with a 24 hour
    expiry for gallery viewing. *)
Definition sas_url_of (azure : Azure) (metadata : dict) : M W string :=
  blob_name <- lift (getitem metadata "blob_name") ;;
  container_name <- lift (getitem metadata "container") ;;
  call (EGenerateBlobSasUrl blob_name container_name 24)
       (AzureBlobStorageService.generate_blob_sas_url azure
          blob_name container_name 24).

(** The keys every listing computes from the record. *)
Definition common_entries (metadata : dict) (tags : string)
  : list (string * pyvalue) :=
  [ ("prompt", Dict.get metadata "prompt" (PStr ""));
    ("model", Dict.get metadata "model" (PStr ""));
    ("summary", Dict.get metadata "summary" (PStr ""));
    ("description", Dict.get metadata "description" (PStr ""));
    ("products", Dict.get metadata "products" (PStr ""));
    ("tags", PStr tags) ].

Definition image_entries (metadata : dict) : list (string * pyvalue) :=
  [ ("quality", Dict.get metadata "quality" (PStr ""));
    ("background", Dict.get metadata "background" (PStr ""));
    ("output_format", Dict.get metadata "output_format" (PStr ""));
    ("has_transparency",
      PStr (py_str (Dict.get metadata "has_transparency" (PBool false)))) ].

Definition video_entries (metadata : dict) : list (string * pyvalue) :=
  [ ("duration", PStr (py_str (Dict.get metadata "duration" (PStr ""))));
    ("resolution", Dict.get metadata "resolution" (PStr ""));
    ("fps", PStr (py_str (Dict.get metadata "fps" (PStr "")))) ].

Definition generation_id_entry (metadata : dict) : list (string * pyvalue) :=
  [ ("generation_id", Dict.get metadata "generation_id" (PStr "")) ].

(** The [metadata={...}] display of [get_gallery_images] *)
Definition image_metadata (metadata : dict) : result dict :=
  tags <~ join_value "," (Dict.get metadata "tags" (PList [])) ;;
  custom <~ mapping (Dict.get metadata "custom_metadata" (PDict [])) ;;
  Ok (Dict.display (common_entries metadata tags ++ image_entries metadata
                    ++ generation_id_entry metadata ++ custom)).

(** The [metadata={...}] display of [get_gallery_videos] *)
Definition video_metadata (metadata : dict) : result dict :=
  tags <~ join_value "," (Dict.get metadata "tags" (PList [])) ;;
  custom <~ mapping (Dict.get metadata "custom_metadata" (PDict [])) ;;
  Ok (Dict.display (common_entries metadata tags
                    ++ generation_id_entry metadata
                    ++ video_entries metadata ++ custom)).

(** [item_metadata] of [get_gallery_items]: the common display, then
    [update] with the keys of the record's media type, then [update] with
    the custom metadata. *)
Definition item_metadata (metadata : dict) : result dict :=
  tags <~ join_value "," (Dict.get metadata "tags" (PList [])) ;;
  let d0 := Dict.display (common_entries metadata tags
                          ++ generation_id_entry metadata) in
  media_type <~ getitem metadata "media_type" ;;
  let d1 := if eq_str media_type "image"
            then Dict.update d0 (Dict.display (image_entries metadata))
            else Dict.update d0 (Dict.display (video_entries metadata)) in
  update_value d1 (Dict.get metadata "custom_metadata" (PDict [])).

(** [GalleryItem(id=..., ..., folder_path=...)] of the two typed
    listings; the keyword arguments are evaluated in the order written. *)
Definition typed_item (media_type : MediaType)
    (item_meta : dict -> result dict) (metadata : dict) (sas_url : string)
  : result GalleryItem.t :=
  id <~ getitem metadata "id" ;;
  name <~ getitem metadata "blob_name" ;;
  container <~ getitem metadata "container" ;;
  size <~ getitem metadata "size" ;;
  created_at <~ getitem metadata "created_at" ;;
  updated_at <~ getitem metadata "updated_at" ;;
  meta <~ item_meta metadata ;;
  Ok {| GalleryItem.id := id;
        GalleryItem.name := name;
        GalleryItem.media_type := media_type;
        GalleryItem.url := sas_url;
        GalleryItem.container := container;
        GalleryItem.size := size;
        GalleryItem.content_type := Dict.get metadata "content_type" PNone;
        GalleryItem.creation_time := created_at;
        GalleryItem.last_modified := updated_at;
        GalleryItem.metadata := meta;
        GalleryItem.folder_path := Dict.get metadata "folder_path" (PStr "") |}.

(** The same for [get_gallery_items]: [item_metadata] is built before the
    constructor call, the media type comes from the record. *)
Definition mixed_item (metadata : dict) (sas_url : string)
  : result GalleryItem.t :=
  meta <~ item_metadata metadata ;;
  id <~ getitem metadata "id" ;;
  name <~ getitem metadata "blob_name" ;;
  mt <~ getitem metadata "media_type" ;;
  media_type <~ MediaType_of mt ;;
  container <~ getitem metadata "container" ;;
  size <~ getitem metadata "size" ;;
  created_at <~ getitem metadata "created_at" ;;
  updated_at <~ getitem metadata "updated_at" ;;
  Ok {| GalleryItem.id := id;
        GalleryItem.name := name;
        GalleryItem.media_type := media_type;
        GalleryItem.url := sas_url;
        GalleryItem.container := container;
        GalleryItem.size := size;
        GalleryItem.content_type := Dict.get metadata "content_type" PNone;
        GalleryItem.creation_time := created_at;
        GalleryItem.last_modified := updated_at;
        GalleryItem.metadata := meta;
        GalleryItem.folder_path := Dict.get metadata "folder_path" (PStr "") |}.

(** The body of the [for metadata in result["items"]] loop. *)
Definition project (azure : Azure)
    (item : dict -> string -> result GalleryItem.t) (metadata : dict)
  : M W GalleryItem.t :=
  sas_url <- sas_url_of azure metadata ;;
  lift (item metadata sas_url).

(** What the three listings share: query, projection of every record in
    the order of the query, envelope.  [noun] is the word of the message,
    [on_error] the detail of the 500. *)
Definition listing (media_type : option string)
    (item : dict -> string -> result GalleryItem.t)
    (noun : string) (log_prefix : string) (on_error : exn -> string)
    (limit offset : Z) (folder_path tags : option string)
    (cosmos_service : Cosmos) (azure_storage_service : Azure)
  : M W GalleryResponse.t :=
  try_except
    (let tag_list := parse_tags tags in
     result <- call (EQueryAssets media_type folder_path tag_list limit offset
                       "created_at" true)
                    (CosmosDBService.query_assets cosmos_service media_type
                       folder_path tag_list limit offset "created_at" true) ;;
     gallery_items <- for_each (CosmosDBService.items result)
                        (project azure_storage_service item) ;;
     ret {| GalleryResponse.success := true;
            GalleryResponse.message :=
              "Retrieved " +:+ pretty (Z.of_nat (length gallery_items))
              +:+ " " +:+ noun +:+ " from Cosmos DB";
            GalleryResponse.total := CosmosDBService.total result;
            GalleryResponse.limit := limit;
            GalleryResponse.offset := offset;
            GalleryResponse.items := gallery_items |})
    (fun e =>
       logger_error (log_prefix +:+ str_exn e) ;;;
       raise (HTTPException 500 (on_error e))).

(** [GET /images] *)
Definition get_gallery_images :=
  listing (Some "image") (typed_item IMAGE image_metadata) "images"
    "Error retrieving images: "
    (fun e => "Failed to retrieve images: " +:+ str_exn e).

(** [GET /videos] *)
Definition get_gallery_videos :=
  listing (Some "video") (typed_item VIDEO video_metadata) "videos"
    "Error retrieving videos: "
    (fun e => "Failed to retrieve videos: " +:+ str_exn e).

(** [GET /] *)
Definition get_gallery_items (limit offset : Z)
    (folder_path tags media_type : option string) :=
  listing media_type mixed_item "items"
    "Error retrieving gallery items: " str_exn
    limit offset folder_path tags.

(** The extensions [upload_asset] accepts for each media type. *)
Definition valid_types (media_type : MediaType) : list string :=
  match media_type with
  | IMAGE => [".jpg"; ".jpeg"; ".png"; ".gif"; ".webp"; ".svg"; ".bmp"]
  | VIDEO => [".mp4"; ".mov"; ".avi"; ".wmv"; ".webm"; ".mkv"]
  end.

(** [any(filename.endswith(ext) for ext in valid_types)] *)
Definition has_valid_extension (media_type : MediaType) (filename : string)
  : bool :=
  existsb (Str.endswith filename) (valid_types media_type).

(** The loop over [list(metadata_dict.items())]: the snapshot is walked,
    the dict is changed in place. *)
Definition sanitize_step (acc : dict) (kv : string * pyvalue) : dict :=
  let (key, value) := kv in
  match value with
  | PNone => Dict.del acc key
  | PList _ | PDict _ => Dict.set acc key (PStr (json_dumps value))
  | _ => acc
  end.

Definition sanitize (metadata_dict : dict) : dict :=
  fold_left sanitize_step metadata_dict metadata_dict.

(** The [if metadata:] block of [upload_asset]: [json.loads], then the
    loop when the value is true.  Only [json.JSONDecodeError] is turned
    into the 400; [.items()] on a value that is not a dict raises
    AttributeError. *)
Definition parse_metadata (metadata : option string) : result pyvalue :=
  if truthy_opt metadata then
    match json_loads (default "" metadata) with
    | None => Raise (HTTPException 400 "Invalid JSON format for metadata")
    | Some metadata_dict =>
        if truthy metadata_dict then
          match metadata_dict with
          | PDict d => Ok (PDict (sanitize d))
          | _ => Raise (PyError "AttributeError" "object has no attribute 'items'")
          end
        else Ok metadata_dict
    end
  else Ok PNone.

(** The keyword arguments of [AssetMetadataCreateRequest(...)]; a missing
    key of [result] is a KeyError. *)
Definition cosmos_metadata_fields (media_type : MediaType) (res : dict)
    (metadata_dict : pyvalue) : result dict :=
  blob_name <~ getitem res "blob_name" ;;
  container <~ getitem res "container" ;;
  url <~ getitem res "url" ;;
  filename <~ getitem res "original_filename" ;;
  size <~ getitem res "size" ;;
  content_type <~ getitem res "content_type" ;;
  folder_path <~ getitem res "folder_path" ;;
  Ok [ ("media_type", PStr (value media_type));
       ("blob_name", blob_name);
       ("container", container);
       ("url", url);
       ("filename", filename);
       ("size", size);
       ("content_type", content_type);
       ("folder_path", folder_path);
       ("custom_metadata", metadata_dict) ].

(** [AssetUploadResponse(success=True, message=..., **result)]: a key of
    [result] that repeats a keyword is a TypeError. *)
Definition AssetUploadResponse (media_type : MediaType) (res : dict)
  : result dict :=
  if Dict.mem res "success" || Dict.mem res "message"
  then Raise (PyError "TypeError" "got multiple values for keyword argument")
  else Ok (Dict.display
             ([ ("success", PBool true);
                ("message", PStr (Str.capitalize (value media_type)
                                  +:+ " uploaded successfully")) ] ++ res)).

(** The body of the [try] under [if cosmos_service:] in [upload_asset]:
    the request model is built and validated, its dictionary is handed to
    [create_asset_metadata]. *)
Definition create_record (cosmos : Cosmos) (media_type : MediaType)
    (res : dict) (metadata_dict : pyvalue) : M W unit :=
  fields <- lift (cosmos_metadata_fields media_type res metadata_dict) ;;
  doc <- lift (AssetMetadataCreateRequest env fields) ;;
  call (ECreateAssetMetadata doc)
       (CosmosDBService.create_asset_metadata cosmos doc).

(** [POST /upload], the handler.

    Upload an asset (image or video) to Azure Blob Storage with optional
    metadata.  Also creates metadata record in Cosmos DB if available. *)
Definition upload_asset (file : UploadFile) (media_type : MediaType)
    (metadata folder_path : option string)
    (azure_storage_service : Azure) (cosmos_service : option Cosmos)
  : M W dict :=
  try_except
    (name <- match filename file with
             | Some f => ret (Str.lower f)
             | None => raise (PyError "AttributeError"
                                "'NoneType' object has no attribute 'lower'")
             end ;;
     (if negb (has_valid_extension media_type name)
      then raise (HTTPException 400
                    ("Invalid file type. Must be one of "
                     +:+ Str.join ", " (valid_types media_type)))
      else ret tt) ;;;
     metadata_dict <- lift (parse_metadata metadata) ;;
     res <- call (EUploadAsset (filename file) (value media_type)
                    metadata_dict folder_path)
                 (AzureBlobStorageService.upload_asset azure_storage_service
                    file (value media_type) metadata_dict folder_path) ;;
     match cosmos_service with
     | Some cosmos =>
         try_except
           (create_record cosmos media_type res metadata_dict)
           (fun cosmos_error =>
              logger_warning ("Failed to create Cosmos DB metadata: "
                              +:+ str_exn cosmos_error))
     | None => ret tt
     end ;;;
     lift (AssetUploadResponse media_type res))
    (fun e =>
       print ("Upload error: " +:+ str_exn e) ;;;
       print ("Error trace: " +:+ format_exc e) ;;;
       raise (HTTPException 500 (str_exn e))).

(** The container of a media type. *)
Definition container_of (media_type : MediaType) : string :=
  match media_type with
  | IMAGE => AZURE_BLOB_IMAGE_CONTAINER (settings env)
  | VIDEO => AZURE_BLOB_VIDEO_CONTAINER (settings env)
  end.

(** The container a delete request names: [container] when it is given
    and not empty, else the container of [media_type], else the 400. *)
Definition resolve_container (container : option string)
    (media_type : option MediaType) : result string :=
  if truthy_opt container then Ok (default "" container)
  else match media_type with
       | None => Raise (HTTPException 400
                    "Either media_type or container must be specified")
       | Some mt => Ok (container_of mt)
       end.

(** [blob_name.split(".")[0].split("/")[-1]] *)
Definition asset_id_of (blob_name : string) : string :=
  Str.final (Str.split (Str.first (Str.split blob_name ".")) "/").

(** ["image" if container_name == settings.AZURE_BLOB_IMAGE_CONTAINER
     else "video"] *)
Definition media_type_str_of (container_name : string) : string :=
  if String.eqb container_name (AZURE_BLOB_IMAGE_CONTAINER (settings env))
  then "image" else "video".

(** [DELETE /delete], the handler.

    Delete an asset from Azure Blob Storage and Cosmos DB metadata. *)
Definition delete_asset (blob_name : string) (media_type : option MediaType)
    (container : option string)
    (azure_storage_service : Azure) (cosmos_service : option Cosmos)
  : M W AssetDeleteResponse.t :=
  try_except
    (container_name <- lift (resolve_container container media_type) ;;
     let asset_id := asset_id_of blob_name in
     let media_type_str := media_type_str_of container_name in
     match cosmos_service with
     | Some cosmos =>
         try_except
           (call (EDeleteAssetMetadata asset_id media_type_str)
                 (CosmosDBService.delete_asset_metadata cosmos
                    asset_id media_type_str))
           (fun cosmos_error =>
              logger_warning ("Failed to delete Cosmos DB metadata: "
                              +:+ str_exn cosmos_error))
     | None => ret tt
     end ;;;
     success <- call (EDeleteBlob blob_name container_name)
                     (AzureBlobStorageService.delete_asset
                        azure_storage_service blob_name container_name) ;;
     if negb success
     then raise (HTTPException 404 "Asset not found")
     else ret {| AssetDeleteResponse.success := true;
                 AssetDeleteResponse.message := "Asset deleted successfully";
                 AssetDeleteResponse.blob_name := blob_name;
                 AssetDeleteResponse.container := container_name |})
    (reraise_http (fun e => raise (HTTPException 500 (str_exn e)))).

(** [GET /asset/{media_type}/{blob_name:path}], the handler.

    Stream asset content directly from Azure Blob Storage. *)
Definition get_asset_content (media_type : MediaType) (blob_name : string)
    (azure_storage_service : Azure) : M W StreamingResponse.t :=
  try_except
    (let container_name := container_of media_type in
     p <- call (EGetAssetContent blob_name container_name)
               (AzureBlobStorageService.get_asset_content
                  azure_storage_service blob_name container_name) ;;
     let (content, content_type) := (p : option string * string) in
     if negb (truthy_opt content)
     then raise (HTTPException 404 ("Asset not found: " +:+ blob_name))
     else
       let name := if Str.occurs "/" blob_name
                   then Str.final (Str.split blob_name "/")
                   else blob_name in
       ret {| StreamingResponse.content := default "" content;
              StreamingResponse.media_type := content_type;
              StreamingResponse.headers :=
                [("Content-Disposition", "inline; filename=" +:+ name)] |})
    (fun e => raise (HTTPException 500 (str_exn e))).

(** One [generate_container_sas(..., permission=
    ContainerSasPermissions(read=True), expiry=now + timedelta(hours=1))] *)
Definition container_token (container_name : string) : M W string :=
  t <- now ;;
  let expiry := t + hours 1 in
  call (EGenerateContainerSas container_name ["read"] expiry)
       (fun w => (generate_container_sas env
                    (AZURE_STORAGE_ACCOUNT_NAME (settings env))
                    container_name
                    (AZURE_STORAGE_ACCOUNT_KEY (settings env))
                    ["read"] expiry, w)).

Definition container_url (container_name : string) : string :=
  "https://" +:+ AZURE_STORAGE_ACCOUNT_NAME (settings env)
  +:+ ".blob.core.windows.net/" +:+ container_name.

(** [GET /sas-tokens]

    Generate and return SAS tokens for frontend direct access to blob
    storage. *)
Definition get_sas_tokens : M W SasTokenResponse.t :=
  try_except
    (video_token <- container_token (AZURE_BLOB_VIDEO_CONTAINER (settings env)) ;;
     image_token <- container_token (AZURE_BLOB_IMAGE_CONTAINER (settings env)) ;;
     t <- now ;;
     let expiry_time := t + hours 1 in
     ret {| SasTokenResponse.success := true;
            SasTokenResponse.message := "SAS tokens generated successfully";
            SasTokenResponse.video_sas_token := video_token;
            SasTokenResponse.image_sas_token := image_token;
            SasTokenResponse.video_container_url :=
              container_url (AZURE_BLOB_VIDEO_CONTAINER (settings env));
            SasTokenResponse.image_container_url :=
              container_url (AZURE_BLOB_IMAGE_CONTAINER (settings env));
            SasTokenResponse.expiry := expiry_time |})
    (fun e => raise (HTTPException 500 (str_exn e))).

(** The three blocks of [health_check].  Each takes the [services]
    dictionary and the [overall_status] built so far and returns them
    updated. *)
Definition check_blob_storage (azure_storage_service : Azure)
    (services : dict) (overall_status : string) : M W (dict * string) :=
  try_except
    (let containers := [ AZURE_BLOB_IMAGE_CONTAINER (settings env);
                         AZURE_BLOB_VIDEO_CONTAINER (settings env) ] in
     for_each containers
       (fun container =>
          call (EEnsureContainerExists container)
               (AzureBlobStorageService._ensure_container_exists
                  azure_storage_service container)) ;;;
     ret (Dict.set services "azure_blob_storage"
            (PDict [ ("status", PStr "healthy");
                     ("message", PStr "Successfully connected to Azure Blob Storage");
                     ("containers", PList (List.map PStr containers)) ]),
          overall_status))
    (fun e =>
       ret (Dict.set services "azure_blob_storage"
              (PDict [ ("status", PStr "unhealthy");
                       ("error", PStr (str_exn e)) ]),
            "degraded")).

(** In the metadata block the entry is stored before its status is read;
    when that read raises, the handler stores its own entry under the same
    key, so the entry of the [try] never shows. *)
Definition check_cosmos_db (cosmos_service : option Cosmos)
    (services : dict) (overall_status : string) : M W (dict * string) :=
  match cosmos_service with
  | Some cosmos =>
      try_except
        (cosmos_health <- call ECosmosHealthCheck
                            (CosmosDBService.health_check cosmos) ;;
         let services' := Dict.set services "cosmos_db" (PDict cosmos_health) in
         st <- lift (getitem cosmos_health "status") ;;
         ret (services',
              if negb (eq_str st "healthy") then "degraded"
              else overall_status))
        (fun e =>
           ret (Dict.set services "cosmos_db"
                  (PDict [ ("status", PStr "unhealthy");
                           ("error", PStr (str_exn e));
                           ("message", PStr "Cosmos DB metadata service unavailable - falling back to blob storage") ]),
                "degraded"))
  | None =>
      ret (Dict.set services "cosmos_db"
             (PDict [ ("status", PStr "unavailable");
                      ("message", PStr "Cosmos DB not configured - using blob storage only") ]),
           "degraded")
  end.

(** The [ai_services] dictionary: one key per client that is true. *)
Definition available_ai_services (clients : bool * bool * bool) : dict :=
  let '(sora_client, dalle_client, llm_client) := clients in
  let d0 : dict := [] in
  let d1 := if sora_client then Dict.set d0 "sora" (PStr "available") else d0 in
  let d2 := if dalle_client
            then Dict.set d1 "dalle/gpt_image" (PStr "available") else d1 in
  if llm_client then Dict.set d2 "llm" (PStr "available") else d2.

Definition check_ai_services (services : dict) (overall_status : string)
  : M W (dict * string) :=
  try_except
    (clients <- lift (import_ai_clients env) ;;
     let ai_services := available_ai_services clients in
     ret (Dict.set services "ai_services"
            (PDict [ ("status", PStr (if truthy (PDict ai_services)
                                      then "healthy" else "unhealthy"));
                     ("available_services", PDict ai_services);
                     ("message", PStr (pretty (Z.of_nat (length ai_services))
                                       +:+ " AI services available")) ]),
          overall_status))
    (fun e =>
       ret (Dict.set services "ai_services"
              (PDict [ ("status", PStr "unhealthy");
                       ("error", PStr (str_exn e)) ]),
            "degraded")).

(** [GET /health], the handler.

    Health check endpoint to verify all services are working. *)
Definition health_check (cosmos_service : option Cosmos)
    (azure_storage_service : Azure) : M W HealthStatus.t :=
  t <- now ;;
  p1 <- check_blob_storage azure_storage_service [] "healthy" ;;
  p2 <- check_cosmos_db cosmos_service (fst p1) (snd p1) ;;
  p3 <- check_ai_services (fst p2) (snd p2) ;;
  ret {| HealthStatus.timestamp := isoformat t;
         HealthStatus.services := fst p3;
         HealthStatus.overall_status := snd p3 |}.

(** *** The routes

    FastAPI resolves the dependencies of a route in the order of the
    handler's parameters, then checks the bounds of the query parameters,
    calls the handler with the values, and turns what comes out into the
    response.  A dependency that raises ends the request before the
    parameters are checked and before the handler starts. *)
Definition route {A} (m : M W A) (s : state W) : response A * state W :=
  let (r, s') := m s in (respond r, s').

(** [limit: int = Query(50, ..., ge=1, le=100)] *)
Definition limit_in_bounds (limit : Z) : bool :=
  (1 <=? limit) && (limit <=? 100).

(** A query parameter out of its bounds: FastAPI answers 422 and the
    handler is not called.  The detail names the parameter. *)
Definition checked {A} (in_bounds : bool) (parameter : string) (m : M W A)
  : M W A :=
  if in_bounds then m
  else raise (HTTPException 422 ("query." +:+ parameter)).

Definition GET_images (limit offset : Z) (folder_path tags : option string) :=
  route (cosmos <- get_cosmos_service ;;
         azure <- get_azure_service ;;
         checked (limit_in_bounds limit) "limit"
           (get_gallery_images limit offset folder_path tags cosmos azure)).

Definition GET_videos (limit offset : Z) (folder_path tags : option string) :=
  route (cosmos <- get_cosmos_service ;;
         azure <- get_azure_service ;;
         checked (limit_in_bounds limit) "limit"
           (get_gallery_videos limit offset folder_path tags cosmos azure)).

Definition GET_items (limit offset : Z)
    (folder_path tags media_type : option string) :=
  route (cosmos <- get_cosmos_service ;;
         azure <- get_azure_service ;;
         checked (limit_in_bounds limit) "limit"
           (get_gallery_items limit offset folder_path tags media_type
              cosmos azure)).

Definition POST_upload (file : UploadFile) (media_type : MediaType)
    (metadata folder_path : option string) :=
  route (azure <- get_azure_service ;;
         cosmos <- get_cosmos_service ;;
         upload_asset file media_type metadata folder_path azure (Some cosmos)).

Definition DELETE_delete (blob_name : string) (media_type : option MediaType)
    (container : option string) :=
  route (azure <- get_azure_service ;;
         cosmos <- get_cosmos_service ;;
         delete_asset blob_name media_type container azure (Some cosmos)).

Definition GET_asset (media_type : MediaType) (blob_name : string) :=
  route (azure <- get_azure_service ;;
         get_asset_content media_type blob_name azure).

Definition GET_sas_tokens := route get_sas_tokens.

Definition GET_health :=
  route (cosmos <- get_cosmos_service ;;
         azure <- get_azure_service ;;
         health_check (Some cosmos) azure).

End Router.

(* ===================================================================== *)
(** ** An in-memory instance

    A small implementation of the interfaces above, on which the handlers
    run to concrete answers: a world made of a blob table, a document
    table and a clock.  *)
(* ===================================================================== *)

Module Memory.

Record world : Type := {
  blobs : list (string * string * string);   (* container, name, bytes *)
  docs : list dict;
  clock : Z
}.

Definition same_blob (container name : string) (b : string * string * string)
  : bool :=
  String.eqb (fst (fst b)) container && String.eqb (snd (fst b)) name.

Definition has_id (asset_id media_type : string) (doc : dict) : bool :=
  eq_str (Dict.get doc "id" PNone) asset_id
  && eq_str (Dict.get doc "media_type" PNone) media_type.

Definition of_type (media_type : option string) (doc : dict) : bool :=
  match media_type with
  | Some m => eq_str (Dict.get doc "media_type" PNone) m
  | None => true
  end.

Definition unavailable {A} : result A :=
  Raise (PyError "ServiceRequestError" "connection refused").

(** Modelled from the spec: the Metadata Store client of section 4.1
    ([CosmosDBService] is not part of the router's file).  [query] filters
    by media type and pages with [limit] and [offset]; [create] stores the
    record; [delete] fails with NotFoundError if absent; [healthCheck]
    reports healthy.  With [down] every call fails. *)
Definition cosmos (down : bool) : CosmosDBService.t world :=
  {| CosmosDBService.query_assets :=
       fun media_type _ _ limit offset _ _ w =>
         if down then (unavailable, w) else
         let hits := List.filter (of_type media_type) (docs w) in
         (Ok {| CosmosDBService.items :=
                  firstn (Z.to_nat limit) (skipn (Z.to_nat offset) hits);
                CosmosDBService.total := PInt (Z.of_nat (length hits)) |}, w);
     CosmosDBService.create_asset_metadata :=
       fun doc w =>
         if down then (unavailable, w) else
         (Ok tt, {| blobs := blobs w; docs := docs w ++ [doc];
                    clock := clock w |});
     CosmosDBService.delete_asset_metadata :=
       fun asset_id media_type w =>
         if down then (unavailable, w) else
         if existsb (has_id asset_id media_type) (docs w)
         then (Ok tt,
               {| blobs := blobs w;
                  docs := List.filter
                            (fun d => negb (has_id asset_id media_type d))
                            (docs w);
                  clock := clock w |})
         else (Raise (PyError "NotFoundError" asset_id), w);
     CosmosDBService.health_check :=
       fun w =>
         if down then (unavailable, w)
         else (Ok [("status", PStr "healthy")], w) |}.

(** Modelled from the spec: the Blob Access client of section 4.2
    ([AzureBlobStorageService] is not part of the router's file).
    [upload] stores the bytes under the file name and returns the summary;
    [delete] is true if removed, false if not found; [generateAccessUrl]
    names the blob and the expiry, and fails for the blob names in
    [unsignable]. *)
Definition azure (unsignable : list string) : AzureBlobStorageService.t world :=
  {| AzureBlobStorageService.generate_blob_sas_url :=
       fun blob_name container_name expiry_hours w =>
         match blob_name, container_name with
         | PStr b, PStr c =>
             if existsb (String.eqb b) unsignable
             then (Raise (PyError "ValueError" "cannot sign"), w)
             else (Ok ("https://store/" +:+ c +:+ "/" +:+ b +:+ "?se="
                       +:+ pretty expiry_hours +:+ "h"), w)
         | _, _ => (Raise (PyError "TypeError" "blob name must be str"), w)
         end;
     AzureBlobStorageService.upload_asset :=
       fun file media_type metadata folder_path w =>
         let name := default "" (filename file) in
         let container := media_type +:+ "s" in
         (Ok [ ("blob_name", PStr name);
               ("container", PStr container);
               ("url", PStr ("https://store/" +:+ container +:+ "/" +:+ name));
               ("original_filename", PStr name);
               ("size", PInt (Z.of_nat (String.length (content file))));
               ("content_type", PStr "application/octet-stream");
               ("folder_path", PStr (default "" folder_path)) ],
          {| blobs := blobs w ++ [(container, name, content file)];
             docs := docs w; clock := clock w |});
     AzureBlobStorageService.delete_asset :=
       fun blob_name container_name w =>
         if existsb (same_blob container_name blob_name) (blobs w)
         then (Ok true,
               {| blobs := List.filter
                             (fun b => negb (same_blob container_name blob_name b))
                             (blobs w);
                  docs := docs w; clock := clock w |})
         else (Ok false, w);
     AzureBlobStorageService.get_asset_content :=
       fun blob_name container_name w =>
         match List.find (same_blob container_name blob_name) (blobs w) with
         | Some b => (Ok (Some (snd b), "application/octet-stream"), w)
         | None => (Ok (None, ""), w)
         end;
     AzureBlobStorageService._ensure_container_exists :=
       fun _ w => (Ok tt, w) |}.

(** The library calls.  [json_loads] reads the documents of the examples
    below and rejects every other text; the texts of values and exceptions
    are short forms. *)
Definition quoted (s : string) : string :=
  String (ascii_of_nat 34) (s +:+ String (ascii_of_nat 34) EmptyString).

(** The text [{"note": null, "crop": [1, 2], "by": "ann"}] *)
Definition sample_json : string :=
  "{" +:+ quoted "note" +:+ ": null, " +:+ quoted "crop" +:+ ": [1, 2], "
  +:+ quoted "by" +:+ ": " +:+ quoted "ann" +:+ "}".

Definition loads (s : string) : option pyvalue :=
  if String.eqb s "{}" then Some (PDict [])
  else if String.eqb s sample_json
  then Some (PDict [ ("note", PNone);
                     ("crop", PList [PInt 1; PInt 2]);
                     ("by", PStr "ann") ])
  else None.

Definition text_of_exn (e : exn) : string :=
  match e with
  | HTTPException c d => pretty c +:+ ": " +:+ d
  | JSONDecodeError m => m
  | PyError _ m => m
  end.

#[global] Instance lib : PyLib :=
  {| json_loads := loads;
     json_dumps := fun _ => "<json>";
     repr_value := fun _ => "<repr>";
     str_exn := text_of_exn;
     format_exc := fun e => "Traceback: " +:+ text_of_exn e;
     update_from_iterable :=
       fun _ _ => Raise (PyError "TypeError" "cannot convert dictionary update sequence");
     isoformat := pretty |}.

Definition configured : Settings :=
  {| AZURE_COSMOS_DB_ENDPOINT := Some "https://db.example";
     AZURE_COSMOS_DB_KEY := Some "key";
     USE_MANAGED_IDENTITY := false;
     AZURE_BLOB_IMAGE_CONTAINER := "images";
     AZURE_BLOB_VIDEO_CONTAINER := "videos";
     AZURE_STORAGE_ACCOUNT_NAME := "acct";
     AZURE_STORAGE_ACCOUNT_KEY := "secret" |}.

Definition unconfigured : Settings :=
  {| AZURE_COSMOS_DB_ENDPOINT := None;
     AZURE_COSMOS_DB_KEY := None;
     USE_MANAGED_IDENTITY := false;
     AZURE_BLOB_IMAGE_CONTAINER := "images";
     AZURE_BLOB_VIDEO_CONTAINER := "videos";
     AZURE_STORAGE_ACCOUNT_NAME := "acct";
     AZURE_STORAGE_ACCOUNT_KEY := "secret" |}.

Definition tick (w : world) : Z * world :=
  (clock w, {| blobs := blobs w; docs := docs w; clock := clock w + 1 |}).

Definition sign (account container key : string) (permission : list string)
    (expiry : Z) : result string :=
  Ok ("sv=1&sr=c&sp=" +:+ Str.join "" permission +:+ "&se=" +:+ pretty expiry
      +:+ "&c=" +:+ container).

(** An environment: the settings, whether the metadata store answers, the
    blob names that cannot be signed, the AI clients. *)
Definition env (st : Settings) (down : bool) (unsignable : list string)
    (ai : bool * bool * bool) : Env world :=
  {| settings := st;
     new_AzureBlobStorageService := Ok (azure unsignable);
     new_CosmosDBService := Ok (cosmos down);
     datetime_now := tick;
     generate_container_sas := sign;
     import_ai_clients := Ok ai;
     AssetMetadataCreateRequest := fun fields => Ok fields |}.

Definition image_doc (asset_id blob : string) : dict :=
  [ ("id", PStr asset_id); ("media_type", PStr "image");
    ("blob_name", PStr blob); ("container", PStr "images");
    ("size", PInt 10); ("created_at", PStr "2025-01-01");
    ("updated_at", PStr "2025-01-01") ].

Definition start (bs : list (string * string * string)) (ds : list dict)
  : state world :=
  mkState {| blobs := bs; docs := ds; clock := 1000 |} [].

End Memory.

(* ===================================================================== *)
(** ** Vocabulary of the properties *)
(* ===================================================================== *)

Section Vocabulary.

Context {W : Type} `{PyLib}.

(** The state after the blob store accepted an upload. *)
Definition uploaded (file : UploadFile) (media_type : MediaType)
    (metadata_dict : pyvalue) (folder_path : option string)
    (w1 : W) (s : state W) : state W :=
  mkState w1 (trace s ++ [EUploadAsset (filename file) (value media_type)
                            metadata_dict folder_path]).

(** The metadata store counts as configured when the endpoint is set and
    a key or the managed identity is. *)
Definition cosmos_configured (st : Settings) : bool :=
  truthy_opt (AZURE_COSMOS_DB_ENDPOINT st)
  && (truthy_opt (AZURE_COSMOS_DB_KEY st) || USE_MANAGED_IDENTITY st).

(** The keys all three listings compute. *)
Definition common_keys : list string :=
  [ "prompt"; "model"; "summary"; "description"; "products"; "tags";
    "generation_id" ].

(** The keys computed for an image only, and for a video only. *)
Definition image_keys : list string :=
  [ "quality"; "background"; "output_format"; "has_transparency" ].

Definition video_keys : list string := [ "duration"; "resolution"; "fps" ].

(** The keys [get_gallery_items] computes for a record besides the common
    ones: those of an image when the record's media type is the text
    image, those of a video otherwise. *)
Definition typed_keys (metadata : dict) : list string :=
  if eq_str (Dict.get metadata "media_type" PNone) "image"
  then image_keys else video_keys.

(** The default a built-in key takes when the record does not hold it. *)
Definition builtin_default (k : string) : pyvalue :=
  PStr (if String.eqb k "has_transparency" then "False" else EmptyString).

(** A listing's URL request event asks for 24 hours. *)
Definition asks_24_hours (ev : event) : Prop :=
  match ev with
  | EGenerateBlobSasUrl _ _ expiry_hours => expiry_hours = 24
  | _ => True
  end.

(** The URL of an item was minted by [generate_blob_sas_url] called with
    24 hours. *)
Definition minted_for_24_hours (azure : AzureBlobStorageService.t W)
    (it : GalleryItem.t) : Prop :=
  exists blob_name container_name w w',
    AzureBlobStorageService.generate_blob_sas_url azure blob_name
      container_name 24 w = (Ok (GalleryItem.url it), w').

(** The status a health answer reports for one service. *)
Definition service_status (hs : HealthStatus.t) (name : string)
  : option pyvalue :=
  match Dict.lookup (HealthStatus.services hs) name with
  | Some (PDict entry) => Dict.lookup entry "status"
  | _ => None
  end.

Definition healthy : option pyvalue := Some (PStr "healthy").

End Vocabulary.

(* ===================================================================== *)
(** ** The remaining routes: folders and metadata status *)
(* ===================================================================== *)

(** The other methods of [CosmosDBService] the router calls, beside the
    object of the first part: the folder statistics, the text search, and
    the values [query_assets] takes for the parameters a call leaves out.
    A folder statistic is the record of the two fields the handler reads;
    its path is a string or [None]. *)
Module CosmosDBCatalog.

Record folder_stat : Type := { folder_path : option string; count : pyvalue }.

Record folder_stats_result : Type := {
  folder_stats : list folder_stat;
  total_folders : pyvalue
}.

Record t (W : Type) : Type := {
  service : CosmosDBService.t W;
  get_folder_stats : option string -> W -> result folder_stats_result * W;
  search_assets : string -> Z -> W -> result (list dict) * W;
  default_media_type : option string;
  default_folder_path : option string;
  default_tags : option (list string);
  default_order_by : string;
  default_order_desc : bool
}.
Arguments service {W}.
Arguments get_folder_stats {W}.
Arguments search_assets {W}.
Arguments default_media_type {W}.
Arguments default_folder_path {W}.
Arguments default_tags {W}.
Arguments default_order_by {W}.
Arguments default_order_desc {W}.

End CosmosDBCatalog.

(** One entry of the [folders] list of [get_folders]. *)
Module Folder.
Record t : Type := { path : string; count : pyvalue }.
End Folder.

(** The dictionary returned by [get_folders]. *)
Module FoldersResponse.
Record t : Type := {
  success : bool;
  message : string;
  folders : list Folder.t;
  total_folders : pyvalue;
  source : string
}.
End FoldersResponse.

(** The dictionary returned by [metadata_service_status]. *)
Module MetadataStatus.
Record t : Type := {
  timestamp : string;
  metadata_service : dict;
  capabilities : dict
}.
End MetadataStatus.

Section MoreRoutes.

Context {W : Type} `{PyLib} (env : Env W).

(** A call on a method the trace has no event for: the method runs on the
    world, the trace is left as it is. *)
Definition consult {A} (method : W -> result A * W) : M W A :=
  fun s => let (r, w) := method (world s) in (r, mkState w (trace s)).

(** The loop of [get_folders]: the statistics whose path is true, as
    [{"path": ..., "count": ...}] entries, in the order given. *)
Fixpoint folder_entries (stats : list CosmosDBCatalog.folder_stat)
  : list Folder.t :=
  match stats with
  | [] => []
  | stat :: rest =>
      if truthy_opt (CosmosDBCatalog.folder_path stat)
      then {| Folder.path := default EmptyString
                               (CosmosDBCatalog.folder_path stat);
              Folder.count := CosmosDBCatalog.count stat |}
           :: folder_entries rest
      else folder_entries rest
  end.

(** [folder_list.sort(key=lambda x: x["path"])]: the stable sort by path,
    strings compared code point by code point. *)
Fixpoint insert_folder (x : Folder.t) (l : list Folder.t) : list Folder.t :=
  match l with
  | [] => [x]
  | y :: r =>
      if String.leb (Folder.path x) (Folder.path y) then x :: y :: r
      else y :: insert_folder x r
  end.

Fixpoint sort_folders (l : list Folder.t) : list Folder.t :=
  match l with
  | [] => []
  | x :: r => insert_folder x (sort_folders r)
  end.

(** [GET /folders], the handler.

    Get all folders for a given media type from Cosmos DB. *)
Definition get_folders (media_type : option string)
    (cosmos_service : CosmosDBCatalog.t W) : M W FoldersResponse.t :=
  try_except
    (folder_stats <- consult (CosmosDBCatalog.get_folder_stats cosmos_service
                                media_type) ;;
     let folder_list :=
       sort_folders
         (folder_entries (CosmosDBCatalog.folder_stats folder_stats)) in
     ret {| FoldersResponse.success := true;
            FoldersResponse.message :=
              "Retrieved " +:+ pretty (Z.of_nat (length folder_list))
              +:+ " folders from Cosmos DB";
            FoldersResponse.folders := folder_list;
            FoldersResponse.total_folders :=
              CosmosDBCatalog.total_folders folder_stats;
            FoldersResponse.source := "cosmos_db" |})
    (fun e =>
       logger_error ("Error getting folders from Cosmos DB: " +:+ str_exn e) ;;;
       raise (HTTPException 500
                ("Failed to retrieve folders: " +:+ str_exn e))).

(** The [capabilities] dictionary of [metadata_service_status]. *)
Definition capabilities_of (fast_pagination advanced_search
    metadata_filtering tag_based_search folder_statistics recent_assets
    ai_metadata_enrichment : bool) : dict :=
  [ ("fast_pagination", PBool fast_pagination);
    ("advanced_search", PBool advanced_search);
    ("metadata_filtering", PBool metadata_filtering);
    ("tag_based_search", PBool tag_based_search);
    ("folder_statistics", PBool folder_statistics);
    ("recent_assets", PBool recent_assets);
    ("ai_metadata_enrichment", PBool ai_metadata_enrichment) ].

(** [cosmos_service.query_assets(limit=1, offset=0)]: the parameters left
    out take the values the class declares. *)
Definition test_query (cosmos : CosmosDBCatalog.t W)
  : M W CosmosDBService.query_result :=
  call (EQueryAssets (CosmosDBCatalog.default_media_type cosmos)
          (CosmosDBCatalog.default_folder_path cosmos)
          (CosmosDBCatalog.default_tags cosmos) 1 0
          (CosmosDBCatalog.default_order_by cosmos)
          (CosmosDBCatalog.default_order_desc cosmos))
       (CosmosDBService.query_assets (CosmosDBCatalog.service cosmos)
          (CosmosDBCatalog.default_media_type cosmos)
          (CosmosDBCatalog.default_folder_path cosmos)
          (CosmosDBCatalog.default_tags cosmos) 1 0
          (CosmosDBCatalog.default_order_by cosmos)
          (CosmosDBCatalog.default_order_desc cosmos)).

(** The inner [try] of [metadata_service_status]: the search is tried, a
    bare [except] turns any failure into [False]. *)
Definition search_probe (cosmos : CosmosDBCatalog.t W) : M W bool :=
  try_except
    (consult (CosmosDBCatalog.search_assets cosmos "test" 1) ;;; ret true)
    (fun _ => ret false).

(** [GET /metadata/status], the handler.

    Detailed status of metadata service capabilities. *)
Definition metadata_service_status
    (cosmos_service : option (CosmosDBCatalog.t W)) : M W MetadataStatus.t :=
  t <- now env ;;
  p <- match cosmos_service with
       | Some cosmos =>
           try_except
             (cosmos_health <- call ECosmosHealthCheck
                                 (CosmosDBService.health_check
                                    (CosmosDBCatalog.service cosmos)) ;;
              test_query_result <- test_query cosmos ;;
              search_available <- search_probe cosmos ;;
              ret ([ ("status", PStr "available");
                     ("type", PStr "cosmos_db");
                     ("health", PDict cosmos_health);
                     ("total_assets",
                       CosmosDBService.total test_query_result);
                     ("performance_mode", PStr "fast_metadata_queries") ],
                   capabilities_of true search_available true true true
                     true true))
             (fun e =>
                ret ([ ("status", PStr "error");
                       ("type", PStr "cosmos_db");
                       ("error", PStr (str_exn e));
                       ("performance_mode",
                         PStr "fallback_to_blob_storage") ],
                     capabilities_of false false false false false false
                       false))
       | None =>
           ret ([ ("status", PStr "unavailable");
                  ("type", PStr "blob_storage_only");
                  ("performance_mode", PStr "blob_storage_fallback") ],
                capabilities_of false false true false false false false)
       end ;;
  ret {| MetadataStatus.timestamp := isoformat t;
         MetadataStatus.metadata_service := fst p;
         MetadataStatus.capabilities := snd p |}.

End MoreRoutes.

(** Modelled from the spec: [folderStats] and [search] of the Metadata
    Store client of section 4.1.  The statistics are the ones given, the
    search answers the empty list or is unsupported when [searchable] is
    off, and every call fails when [down]. *)
Definition memory_catalog (down searchable : bool)
    (stats : list CosmosDBCatalog.folder_stat)
  : CosmosDBCatalog.t Memory.world :=
  {| CosmosDBCatalog.service := Memory.cosmos down;
     CosmosDBCatalog.get_folder_stats :=
       fun _ w =>
         if down then (Memory.unavailable, w)
         else (Ok {| CosmosDBCatalog.folder_stats := stats;
                     CosmosDBCatalog.total_folders :=
                       PInt (Z.of_nat (length stats)) |}, w);
     CosmosDBCatalog.search_assets :=
       fun _ _ w =>
         if down || negb searchable
         then (Raise (PyError "SearchUnsupportedError" "no search"), w)
         else (Ok [], w);
     CosmosDBCatalog.default_media_type := None;
     CosmosDBCatalog.default_folder_path := None;
     CosmosDBCatalog.default_tags := None;
     CosmosDBCatalog.default_order_by := "created_at";
     CosmosDBCatalog.default_order_desc := true |}.

(** A blob service that refuses every call. *)
Definition memory_azure_down : AzureBlobStorageService.t Memory.world :=
  {| AzureBlobStorageService.generate_blob_sas_url :=
       fun _ _ _ w => (Memory.unavailable, w);
     AzureBlobStorageService.upload_asset :=
       fun _ _ _ _ w => (Memory.unavailable, w);
     AzureBlobStorageService.delete_asset :=
       fun _ _ w => (Memory.unavailable, w);
     AzureBlobStorageService.get_asset_content :=
       fun _ _ w => (Memory.unavailable, w);
     AzureBlobStorageService._ensure_container_exists :=
       fun _ w => (Memory.unavailable, w) |}.

(** The library calls of the in-memory instance, with a [json_loads] that
    also reads the two arrays [[1, 2]] and [[]]. *)
Definition memory_lib_arrays : PyLib :=
  {| json_loads :=
       fun s =>
         if String.eqb s "[1, 2]" then Some (PList [PInt 1; PInt 2])
         else if String.eqb s "[]" then Some (PList [])
         else Memory.loads s;
     json_dumps := @json_dumps Memory.lib;
     repr_value := @repr_value Memory.lib;
     str_exn := Memory.text_of_exn;
     format_exc := @format_exc Memory.lib;
     update_from_iterable := @update_from_iterable Memory.lib;
     isoformat := @isoformat Memory.lib |}.

(** Vocabulary of the properties of the remaining code. *)
Section MoreVocabulary.

Context `{PyLib}.

(** Two folder entries in the order of their paths. *)
Definition by_path (a b : Folder.t) : Prop :=
  String.leb (Folder.path a) (Folder.path b) = true.

(** An entry the metadata loop keeps, and what it keeps of it. *)
Definition kept (kv : string * pyvalue) : bool :=
  match snd kv with
  | PNone => false
  | _ => true
  end.

Definition stored (kv : string * pyvalue) : string * pyvalue :=
  (fst kv,
   if is_dict_or_list (snd kv) then PStr (json_dumps (snd kv)) else snd kv).

(** A call that returned. *)
Definition returned {A} (r : result A) : bool :=
  match r with
  | Ok _ => true
  | Raise _ => false
  end.

(** The events that ask the blob store or the signer for something. *)
Definition is_blob_call (ev : event) : bool :=
  match ev with
  | EGenerateBlobSasUrl _ _ _ | EUploadAsset _ _ _ _ | EDeleteBlob _ _
  | EGetAssetContent _ _ | EEnsureContainerExists _ => true
  | _ => false
  end.

(** The events that ask the metadata store for something. *)
Definition is_metadata_call (ev : event) : bool :=
  match ev with
  | EQueryAssets _ _ _ _ _ _ _ | ECreateAssetMetadata _
  | EDeleteAssetMetadata _ _ | ECosmosHealthCheck => true
  | _ => false
  end.

End MoreVocabulary.

(* ===================================================================== *)
(** ** Facts about dictionaries *)
(* ===================================================================== *)

Module DictFacts.

(** The invariant of a Python dict: no key twice. *)
Definition wf (d : dict) : Prop := NoDup (List.map fst d).

Lemma lookup_set_eq (d : dict) k v : Dict.lookup (Dict.set d k v) k = Some v.
Proof.
  induction d as [|[k' v'] r IH]; simpl.
  - now rewrite String.eqb_refl.
  - destruct (String.eqb k' k) eqn:E; simpl; rewrite E; auto.
Qed.

Lemma lookup_set_ne (d : dict) k k' v :
  k <> k' -> Dict.lookup (Dict.set d k v) k' = Dict.lookup d k'.
Proof.
  intros Hne. induction d as [|[k0 v0] r IH]; simpl.
  - apply String.eqb_neq in Hne. now rewrite Hne.
  - destruct (String.eqb k0 k) eqn:E; simpl.
    + apply String.eqb_eq in E. subst k0.
      apply String.eqb_neq in Hne. now rewrite Hne.
    + destruct (String.eqb k0 k'); auto.
Qed.

Lemma lookup_del_eq (d : dict) k : Dict.lookup (Dict.del d k) k = None.
Proof.
  induction d as [|[k' v'] r IH]; simpl; auto.
  destruct (String.eqb k' k) eqn:E; simpl; auto. now rewrite E.
Qed.

Lemma lookup_del_ne (d : dict) k k' :
  k <> k' -> Dict.lookup (Dict.del d k) k' = Dict.lookup d k'.
Proof.
  intros Hne. induction d as [|[k0 v0] r IH]; simpl; auto.
  destruct (String.eqb k0 k) eqn:E; simpl.
  - apply String.eqb_eq in E. subst k0.
    apply String.eqb_neq in Hne. now rewrite Hne.
  - destruct (String.eqb k0 k'); auto.
Qed.

Lemma lookup_None_notin (d : dict) k :
  k ∉ List.map fst d -> Dict.lookup d k = None.
Proof.
  induction d as [|[k' v'] r IH]; simpl; auto.
  intros Hn. apply not_elem_of_cons in Hn as [Hne Hn].
  destruct (String.eqb k' k) eqn:E; auto.
  apply String.eqb_eq in E. congruence.
Qed.

(** [update] lets the second dictionary win, key by key. *)
Lemma lookup_update (d other : dict) k :
  wf other ->
  Dict.lookup (Dict.update d other) k =
  match Dict.lookup other k with
  | Some v => Some v
  | None => Dict.lookup d k
  end.
Proof.
  unfold Dict.update, wf. revert d.
  induction other as [|[k0 v0] r IH]; intros d Hwf; simpl; auto.
  inversion Hwf as [|? ? Hnotin Hr]; subst.
  rewrite IH by assumption.
  destruct (String.eqb k0 k) eqn:E.
  - apply String.eqb_eq in E. subst k0.
    rewrite (lookup_None_notin r k Hnotin). apply lookup_set_eq.
  - apply String.eqb_neq in E.
    destruct (Dict.lookup r k); auto. now apply lookup_set_ne.
Qed.

Lemma lookup_update_absent (d other : dict) k :
  Dict.lookup other k = None ->
  Dict.lookup (Dict.update d other) k = Dict.lookup d k.
Proof.
  unfold Dict.update. revert d.
  induction other as [|[k0 v0] r IH]; intros d Hk; simpl in *; auto.
  destruct (String.eqb k0 k) eqn:E; [discriminate|].
  rewrite IH by assumption.
  apply lookup_set_ne. now apply String.eqb_neq.
Qed.

Lemma display_app (a b : list (string * pyvalue)) :
  Dict.display (a ++ b) = Dict.update (Dict.display a) b.
Proof. unfold Dict.display, Dict.update. apply fold_left_app. Qed.

Lemma set_fresh (d : dict) k v :
  Dict.lookup d k = None -> Dict.set d k v = d ++ [(k, v)].
Proof.
  induction d as [|[k' v'] r IH]; simpl; auto.
  destruct (String.eqb k' k); [discriminate|].
  intros Hk. now rewrite IH.
Qed.

(** A display whose keys are distinct is the list as written. *)
Lemma update_fresh (d entries : dict) :
  wf (d ++ entries) -> Dict.update d entries = d ++ entries.
Proof.
  unfold Dict.update, wf. revert d.
  induction entries as [|[k v] r IH]; intros d Hwf; simpl.
  - now rewrite app_nil_r.
  - assert (Hk : Dict.lookup d k = None).
    { apply lookup_None_notin. rewrite map_app in Hwf. simpl in Hwf.
      apply NoDup_app in Hwf as (_ & Hdis & _).
      intros Hin. apply (Hdis k Hin). apply elem_of_cons. now left. }
    rewrite (set_fresh d k v Hk).
    rewrite IH; rewrite <- app_assoc; [reflexivity | exact Hwf].
Qed.

Lemma display_distinct (entries : dict) :
  wf entries -> Dict.display entries = entries.
Proof. intros Hwf. unfold Dict.display. now apply update_fresh. Qed.

Lemma get_absent (d : dict) k default :
  Dict.lookup d k = None -> Dict.get d k default = default.
Proof. unfold Dict.get. now intros ->. Qed.

End DictFacts.

(* ===================================================================== *)
(** ** Facts about the string methods *)
(* ===================================================================== *)

Module StrFacts.

Lemma split_nonempty s sep : Str.split s sep <> [].
Proof.
  destruct s as [|c r]; simpl; [discriminate|].
  destruct (Ascii.eqb c sep); [discriminate|].
  destruct (Str.split r sep); discriminate.
Qed.

(** [s.split(sep)[0]] is the part of [s] before the first [sep]. *)
Lemma first_split s sep :
  Str.first (Str.split s sep) = Str.before_first sep s.
Proof.
  induction s as [|c r IH]; simpl; auto.
  destruct (Ascii.eqb c sep) eqn:E; simpl; auto.
  destruct (Str.split r sep) as [|h t] eqn:Es.
  - now apply split_nonempty in Es.
  - simpl in *. now rewrite IH.
Qed.

Lemma split_single s sep :
  Str.occurs sep s = false -> Str.split s sep = [s].
Proof.
  induction s as [|c r IH]; simpl; auto.
  intros Ho. apply orb_false_iff in Ho as [E Ho].
  rewrite E, (IH Ho). reflexivity.
Qed.

Lemma last_cons_nonempty (x : string) (l : list string) :
  l <> [] -> List.last (x :: l) EmptyString = List.last l EmptyString.
Proof. destruct l; [congruence | reflexivity]. Qed.

Lemma after_last_absent s sep :
  Str.occurs sep s = false -> Str.after_last sep s = s.
Proof.
  destruct s as [|c r]; simpl; auto.
  intros Ho. apply orb_false_iff in Ho as [E Ho]. now rewrite Ho, E.
Qed.

Lemma split_several s sep :
  Str.occurs sep s = true ->
  exists h t, Str.split s sep = h :: t /\ t <> [].
Proof.
  induction s as [|c r IH]; simpl; [discriminate|].
  destruct (Ascii.eqb c sep) eqn:E; simpl.
  - intros _. exists EmptyString, (Str.split r sep).
    split; [reflexivity | apply split_nonempty].
  - intros Ho. destruct (IH Ho) as (h & t & -> & Ht).
    exists (String c h), t. now split.
Qed.

(** [s.split(sep)[-1]] is the part of [s] after the last [sep]. *)
Lemma final_split s sep :
  Str.final (Str.split s sep) = Str.after_last sep s.
Proof.
  unfold Str.final.
  induction s as [|c r IH]; simpl; auto.
  destruct (Ascii.eqb c sep) eqn:E.
  - rewrite last_cons_nonempty by apply split_nonempty.
    rewrite IH. destruct (Str.occurs sep r) eqn:Ho; auto.
    now apply after_last_absent.
  - destruct (Str.occurs sep r) eqn:Ho.
    + destruct (split_several r sep Ho) as (h & t & Es & Ht).
      rewrite Es in *. rewrite <- IH.
      now rewrite !last_cons_nonempty.
    + now rewrite (split_single r sep Ho).
Qed.

End StrFacts.

(* ===================================================================== *)
(** ** Properties of the handlers *)
(* ===================================================================== *)

(** The keys of a dictionary written out are distinct. *)
Ltac distinct_keys :=
  unfold DictFacts.wf; simpl;
  repeat (apply NoDup_cons; split;
          [rewrite ?elem_of_cons, ?elem_of_nil; intuition discriminate|]);
  apply NoDup_nil; exact I.

(** Unfolding of the effect combinators. *)
Ltac run :=
  unfold bind, try_except, reraise_http, lift, call, ret, raise, emit,
    logger_warning, logger_error, print, emit in *;
  simpl in *.

Section UploadMetadata.

Context `{PyLib}.

Lemma sanitize_step_same (acc : dict) (k : string) (v : pyvalue) :
  Dict.lookup (sanitize_step acc (k, v)) k =
  match v with
  | PNone => None
  | _ => if is_dict_or_list v then Some (PStr (json_dumps v))
         else Dict.lookup acc k
  end.
Proof.
  destruct v; simpl;
    auto using DictFacts.lookup_del_eq, DictFacts.lookup_set_eq.
Qed.

Lemma sanitize_step_other (acc : dict) (k0 k : string) (v : pyvalue) :
  k0 <> k ->
  Dict.lookup (sanitize_step acc (k0, v)) k = Dict.lookup acc k.
Proof.
  intros Hne. destruct v; simpl;
    auto using DictFacts.lookup_del_ne, DictFacts.lookup_set_ne.
Qed.

(** One pass of the loop over a snapshot whose keys are distinct: what key
    [k] holds afterwards depends on the snapshot's entry for [k] alone. *)
Lemma sanitize_fold (snapshot acc : dict) (k : string) :
  DictFacts.wf snapshot ->
  Dict.lookup (fold_left sanitize_step snapshot acc) k =
  match Dict.lookup snapshot k with
  | Some PNone => None
  | Some v => if is_dict_or_list v then Some (PStr (json_dumps v))
              else Dict.lookup acc k
  | None => Dict.lookup acc k
  end.
Proof.
  unfold DictFacts.wf. revert acc.
  induction snapshot as [|[k0 v0] r IH]; intros acc Hwf; auto.
  inversion Hwf as [|? ? Hnotin Hr]; subst.
  cbn [fold_left Dict.lookup].
  rewrite IH by assumption.
  destruct (String.eqb k0 k) eqn:E.
  - apply String.eqb_eq in E. subst k0.
    rewrite (DictFacts.lookup_None_notin r k Hnotin).
    rewrite sanitize_step_same. destruct v0; reflexivity.
  - apply String.eqb_neq in E.
    rewrite (sanitize_step_other acc k0 k v0 E). reflexivity.
Qed.

Lemma sanitize_lookup (d : dict) (k : string) :
  DictFacts.wf d ->
  Dict.lookup (sanitize d) k =
  match Dict.lookup d k with
  | None | Some PNone => None
  | Some v => if is_dict_or_list v then Some (PStr (json_dumps v))
              else Some v
  end.
Proof.
  intros Hwf. unfold sanitize. rewrite sanitize_fold by assumption.
  destruct (Dict.lookup d k) as [v|] eqn:E; reflexivity.
Qed.

(** C10. During upload metadata parsing, when the metadata text is a JSON
    object, the dictionary handed on for storage holds no key whose value
    was null, holds the JSON text [json.dumps(v)] for every entry whose
    value [v] was a dict or a list, and holds every other entry
    unchanged. *)
Theorem upload_metadata_null_dropped_containers_serialized
    (text : string) (d : dict) :
  text <> EmptyString ->
  json_loads text = Some (PDict d) ->
  DictFacts.wf d ->
  exists d',
    parse_metadata (Some text) = Ok (PDict d') /\
    forall k,
      Dict.lookup d' k =
      match Dict.lookup d k with
      | None => None
      | Some PNone => None
      | Some (PList l) => Some (PStr (json_dumps (PList l)))
      | Some (PDict o) => Some (PStr (json_dumps (PDict o)))
      | Some v => Some v
      end.
Proof.
  intros Htext Hloads Hwf.
  assert (Ht : truthy_opt (Some text) = true)
    by (destruct text; [congruence | reflexivity]).
  unfold parse_metadata. rewrite Ht. simpl. rewrite Hloads.
  destruct d as [|kv r] eqn:Ed.
  - exists []. split; [reflexivity | intros k; reflexivity].
  - rewrite <- Ed in *. exists (sanitize d). split.
    + subst d. reflexivity.
    + intros k. rewrite sanitize_lookup by assumption.
      destruct (Dict.lookup d k) as [v|]; auto. destruct v; reflexivity.
Qed.

End UploadMetadata.

(** The text of the in-memory instance parses to three entries: the null
    one goes, the list is serialized, the string stays. *)
Lemma upload_metadata_sample :
  exists d',
    parse_metadata (Some Memory.sample_json) = Ok (PDict d') /\
    forall k,
      Dict.lookup d' k =
      match Dict.lookup [ ("note", PNone);
                          ("crop", PList [PInt 1; PInt 2]);
                          ("by", PStr "ann") ] k with
      | None => None
      | Some PNone => None
      | Some (PList l) => Some (PStr (json_dumps (PList l)))
      | Some (PDict o) => Some (PStr (json_dumps (PDict o)))
      | Some v => Some v
      end.
Proof.
  apply (upload_metadata_null_dropped_containers_serialized
           Memory.sample_json
           [ ("note", PNone); ("crop", PList [PInt 1; PInt 2]);
             ("by", PStr "ann") ]).
  - discriminate.
  - reflexivity.
  - distinct_keys.
Defined.

Section DeleteProperties.

Context {W : Type} `{PyLib} (env : Env W).

(** What [delete_asset] does once the container is resolved, read off its
    text: the metadata call with its two arguments, the warning if that
    call raised, then the blob call, whose answer decides the result. *)
Lemma delete_asset_run blob_name media_type container
    (azure : AzureBlobStorageService.t W) (cosmos : CosmosDBService.t W)
    (s : state W) (cn : string) :
  resolve_container env container media_type = Ok cn ->
  let asset_id := asset_id_of blob_name in
  let mt := media_type_str_of env cn in
  let (r1, w1) := CosmosDBService.delete_asset_metadata cosmos asset_id mt
                    (world s) in
  let logged := match r1 with
                | Ok _ => []
                | Raise e => [ELog WARNING
                                ("Failed to delete Cosmos DB metadata: "
                                 +:+ str_exn e)]
                end in
  let (r2, w2) := AzureBlobStorageService.delete_asset azure blob_name cn w1 in
  delete_asset env blob_name media_type container azure (Some cosmos) s =
  (match r2 with
   | Ok true => Ok {| AssetDeleteResponse.success := true;
                      AssetDeleteResponse.message := "Asset deleted successfully";
                      AssetDeleteResponse.blob_name := blob_name;
                      AssetDeleteResponse.container := cn |}
   | Ok false => Raise (HTTPException 404 "Asset not found")
   | Raise (HTTPException c d) => Raise (HTTPException c d)
   | Raise e => Raise (HTTPException 500 (str_exn e))
   end,
   mkState w2 (trace s ++ EDeleteAssetMetadata asset_id mt :: logged
                       ++ [EDeleteBlob blob_name cn])).
Proof.
  intros Hcn. unfold delete_asset. run. rewrite Hcn.
  destruct (CosmosDBService.delete_asset_metadata cosmos _ _ (world s))
    as [r1 w1].
  destruct r1 as [[]|e1]; simpl;
    destruct (AzureBlobStorageService.delete_asset azure blob_name cn w1)
      as [r2 w2];
    (destruct r2 as [[|]|e2]; [| | destruct e2]); simpl;
    rewrite <- ?app_assoc; reflexivity.
Qed.

(** C9. For every DELETE /delete request that reaches the metadata store,
    the identifier passed to it is the last slash-separated segment of the
    part of [blob_name] before its first dot (so folder/name.png gives
    name, and a dot in the folder path gives a piece of the folder), and
    the media type passed is image exactly when the resolved container is
    the configured image container, video otherwise.  The metadata store
    is called once. *)
Theorem delete_metadata_identifier_and_type blob_name media_type container
    (azure : AzureBlobStorageService.t W) (cosmos : CosmosDBService.t W)
    (s : state W) (cn : string) :
  resolve_container env container media_type = Ok cn ->
  exists rest,
    trace (snd (delete_asset env blob_name media_type container azure
                  (Some cosmos) s))
    = trace s
      ++ EDeleteAssetMetadata
           (Str.after_last "/" (Str.before_first "." blob_name))
           (if decide (cn = AZURE_BLOB_IMAGE_CONTAINER (settings env))
            then "image" else "video")
         :: rest
    /\ (forall i m, EDeleteAssetMetadata i m ∉ rest)
    /\ asset_id_of "folder/name.png" = "name"
    /\ asset_id_of "fol.der/name.png" = "fol".
Proof.
  intros Hcn.
  pose proof (delete_asset_run blob_name media_type container azure cosmos
                s cn Hcn) as Hrun.
  simpl in Hrun.
  destruct (CosmosDBService.delete_asset_metadata cosmos _ _ (world s))
    as [r1 w1].
  destruct (AzureBlobStorageService.delete_asset azure blob_name cn w1)
    as [r2 w2].
  rewrite Hrun. simpl.
  assert (Hid : asset_id_of blob_name
                = Str.after_last "/" (Str.before_first "." blob_name)).
  { unfold asset_id_of.
    now rewrite StrFacts.final_split, StrFacts.first_split. }
  assert (Hmt : media_type_str_of env cn
                = if decide (cn = AZURE_BLOB_IMAGE_CONTAINER (settings env))
                  then "image" else "video").
  { unfold media_type_str_of.
    destruct (String.eqb_spec cn (AZURE_BLOB_IMAGE_CONTAINER (settings env)));
      case_decide; congruence. }
  rewrite Hid, Hmt. eexists. split; [reflexivity|].
  split; [|split; reflexivity].
  intros i m Hin. apply elem_of_app in Hin as [Hin|Hin].
  - destruct r1; [inversion Hin|].
    apply list_elem_of_singleton in Hin. discriminate.
  - apply list_elem_of_singleton in Hin. discriminate.
Qed.

End DeleteProperties.

(** A delete of a blob that is not there, on a store that holds its
    record: the record is the metadata call's to remove. *)
Lemma delete_metadata_identifier_sample :
  exists rest,
    trace (snd (delete_asset
                  (Memory.env Memory.configured false [] (true, true, true))
                  "fol.der/name.png" (Some IMAGE) None (Memory.azure [])
                  (Some (Memory.cosmos false))
                  (Memory.start [] [Memory.image_doc "fol" "fol.der/name.png"])))
    = [] ++ EDeleteAssetMetadata
              (Str.after_last "/" (Str.before_first "." "fol.der/name.png"))
              (if decide ("images" = "images") then "image" else "video")
            :: rest
    /\ (forall i m, EDeleteAssetMetadata i m ∉ rest)
    /\ asset_id_of "folder/name.png" = "name"
    /\ asset_id_of "fol.der/name.png" = "fol".
Proof.
  apply (delete_metadata_identifier_and_type
           (Memory.env Memory.configured false [] (true, true, true))
           "fol.der/name.png" (Some IMAGE) None (Memory.azure [])
           (Memory.cosmos false)
           (Memory.start [] [Memory.image_doc "fol" "fol.der/name.png"])
           "images").
  reflexivity.
Defined.

Section UploadProperties.

Context {W : Type} `{PyLib} (env : Env W).

(** What [upload_asset] does once the request is accepted and the blob
    store has stored the file: the record is created, or the failure to do
    so is logged, and the response is built from the blob store's
    answer. *)
Lemma upload_asset_run file media_type metadata folder_path
    (azure : AzureBlobStorageService.t W) (cosmos : CosmosDBService.t W)
    (s : state W) name metadata_dict res w1 :
  filename file = Some name ->
  has_valid_extension media_type (Str.lower name) = true ->
  parse_metadata metadata = Ok metadata_dict ->
  AzureBlobStorageService.upload_asset azure file (value media_type)
    metadata_dict folder_path (world s) = (Ok res, w1) ->
  let (r, s2) := create_record env cosmos media_type res metadata_dict
                   (uploaded file media_type metadata_dict folder_path w1 s) in
  let s3 := match r with
            | Ok _ => s2
            | Raise e =>
                mkState (world s2)
                  (trace s2 ++ [ELog WARNING
                                  ("Failed to create Cosmos DB metadata: "
                                   +:+ str_exn e)])
            end in
  upload_asset env file media_type metadata folder_path azure (Some cosmos) s
  = match AssetUploadResponse media_type res with
    | Ok body => (Ok body, s3)
    | Raise e =>
        (Raise (HTTPException 500 (str_exn e)),
         mkState (world s3)
           (trace s3 ++ [EPrint ("Upload error: " +:+ str_exn e);
                         EPrint ("Error trace: " +:+ format_exc e)]))
    end.
Proof.
  intros Hname Hext Hparse Hup.
  unfold upload_asset, uploaded.
  destruct (create_record env cosmos media_type res metadata_dict _)
    as [r s2] eqn:Hcreate.
  run. rewrite Hname in *. simpl. rewrite Hext. simpl. rewrite Hparse.
  rewrite Hup. rewrite Hcreate.
  destruct r as [[]|e]; simpl;
    destruct (AssetUploadResponse media_type res); simpl;
    rewrite <- ?app_assoc; reflexivity.
Qed.

End UploadProperties.

Section MetadataFailures.

Context {W : Type} `{PyLib} (env : Env W).

Lemma AssetUploadResponse_success media_type res body :
  AssetUploadResponse media_type res = Ok body ->
  Dict.lookup body "success" = Some (PBool true).
Proof.
  unfold AssetUploadResponse, Dict.mem.
  destruct (Dict.lookup res "success") eqn:Hs; cbn [orb]; [discriminate|].
  destruct (Dict.lookup res "message"); [discriminate|].
  intros [= <-].
  match goal with
  | |- Dict.lookup (Dict.display (?a :: ?b :: res)) _ = _ =>
      change (Dict.display (a :: b :: res))
        with (Dict.display ([a; b] ++ res))
  end.
  rewrite DictFacts.display_app.
  rewrite DictFacts.lookup_update_absent by assumption.
  reflexivity.
Qed.

(** C4. For every upload and every delete where the metadata store is
    there but its create or delete call raises, the exception is caught in
    the handler and logged as a warning, and the response is decided by the
    blob store alone: the upload answers with the success body built from
    the blob store's summary, the delete answers success when the blob was
    removed and 404 when it was not there. *)
Theorem metadata_store_failure_is_logged_not_fatal :
  (forall file media_type metadata folder_path
          (azure : AzureBlobStorageService.t W) (cosmos : CosmosDBService.t W)
          (s : state W) name metadata_dict res w1 e s2 body,
     filename file = Some name ->
     has_valid_extension media_type (Str.lower name) = true ->
     parse_metadata metadata = Ok metadata_dict ->
     AzureBlobStorageService.upload_asset azure file (value media_type)
       metadata_dict folder_path (world s) = (Ok res, w1) ->
     create_record env cosmos media_type res metadata_dict
       (uploaded file media_type metadata_dict folder_path w1 s)
     = (Raise e, s2) ->
     AssetUploadResponse media_type res = Ok body ->
     upload_asset env file media_type metadata folder_path azure
       (Some cosmos) s
     = (Ok body,
        mkState (world s2)
          (trace s2 ++ [ELog WARNING ("Failed to create Cosmos DB metadata: "
                                      +:+ str_exn e)]))
     /\ Dict.lookup body "success" = Some (PBool true))
  /\
  (forall blob_name media_type container
          (azure : AzureBlobStorageService.t W) (cosmos : CosmosDBService.t W)
          (s : state W) cn e w1 (removed : bool) w2,
     resolve_container env container media_type = Ok cn ->
     CosmosDBService.delete_asset_metadata cosmos (asset_id_of blob_name)
       (media_type_str_of env cn) (world s) = (Raise e, w1) ->
     AzureBlobStorageService.delete_asset azure blob_name cn w1
     = (Ok removed, w2) ->
     delete_asset env blob_name media_type container azure (Some cosmos) s
     = (if removed
        then Ok {| AssetDeleteResponse.success := true;
                   AssetDeleteResponse.message := "Asset deleted successfully";
                   AssetDeleteResponse.blob_name := blob_name;
                   AssetDeleteResponse.container := cn |}
        else Raise (HTTPException 404 "Asset not found"),
        mkState w2
          (trace s ++ [ EDeleteAssetMetadata (asset_id_of blob_name)
                          (media_type_str_of env cn);
                        ELog WARNING ("Failed to delete Cosmos DB metadata: "
                                      +:+ str_exn e);
                        EDeleteBlob blob_name cn ]))).
Proof.
  split.
  - intros file media_type metadata folder_path azure cosmos s name
      metadata_dict res w1 e s2 body Hname Hext Hparse Hup Hcreate Hbody.
    pose proof (upload_asset_run env file media_type metadata folder_path
                  azure cosmos s name metadata_dict res w1
                  Hname Hext Hparse Hup) as Hrun.
    rewrite Hcreate, Hbody in Hrun. simpl in Hrun.
    split; [exact Hrun|].
    eapply AssetUploadResponse_success; eassumption.
  - intros blob_name media_type container azure cosmos s cn e w1 removed w2
      Hcn Hmeta Hblob.
    pose proof (delete_asset_run env blob_name media_type container azure
                  cosmos s cn Hcn) as Hrun.
    simpl in Hrun. rewrite Hmeta, Hblob in Hrun.
    rewrite Hrun. destruct removed; reflexivity.
Qed.

(** C8. DELETE /delete is not atomic on the not-found path: the metadata
    deletion is placed first, on the world as the request found it, and
    the blob deletion runs on the world the metadata deletion left; when
    the blob is absent the answer is 404 and the world is the one after
    both calls, so the metadata record may already be gone. *)
Theorem delete_answers_404_after_metadata_deletion
    blob_name media_type container
    (azure : AzureBlobStorageService.t W) (cosmos : CosmosDBService.t W)
    (s : state W) cn r1 w1 w2 :
  resolve_container env container media_type = Ok cn ->
  CosmosDBService.delete_asset_metadata cosmos (asset_id_of blob_name)
    (media_type_str_of env cn) (world s) = (r1, w1) ->
  AzureBlobStorageService.delete_asset azure blob_name cn w1
  = (Ok false, w2) ->
  exists logged,
    delete_asset env blob_name media_type container azure (Some cosmos) s
    = (Raise (HTTPException 404 "Asset not found"),
       mkState w2
         (trace s ++ EDeleteAssetMetadata (asset_id_of blob_name)
                       (media_type_str_of env cn)
                  :: logged ++ [EDeleteBlob blob_name cn]))
    /\ (r1 = Ok tt -> logged = [])
    /\ Forall (fun ev => is_mutation ev = false) logged.
Proof.
  intros Hcn Hmeta Hblob.
  pose proof (delete_asset_run env blob_name media_type container azure
                cosmos s cn Hcn) as Hrun.
  simpl in Hrun. rewrite Hmeta, Hblob in Hrun.
  eexists. split; [exact Hrun|]. split.
  - now intros ->.
  - destruct r1; repeat constructor.
Qed.

End MetadataFailures.

(** An upload and a delete against a metadata store that refuses every
    call: both succeed on the blob store's answer, each with its warning. *)
Lemma metadata_store_failure_sample :
  (exists body st,
     upload_asset (Memory.env Memory.configured true [] (true, true, true))
       {| filename := Some "Cat.PNG"; content := "abc" |} IMAGE None None
       (Memory.azure []) (Some (Memory.cosmos true)) (Memory.start [] [])
     = (Ok body, st)
     /\ Dict.lookup body "success" = Some (PBool true))
  /\
  (exists st,
     delete_asset (Memory.env Memory.configured true [] (true, true, true))
       "cat.png" (Some IMAGE) None
       (Memory.azure []) (Some (Memory.cosmos true))
       (Memory.start [("images", "cat.png", "abc")] [])
     = (Ok {| AssetDeleteResponse.success := true;
              AssetDeleteResponse.message := "Asset deleted successfully";
              AssetDeleteResponse.blob_name := "cat.png";
              AssetDeleteResponse.container := "images" |}, st)).
Proof.
  destruct (metadata_store_failure_is_logged_not_fatal
              (Memory.env Memory.configured true [] (true, true, true)))
    as [Hupload Hdelete].
  split.
  - eexists. eexists.
    eapply (Hupload {| filename := Some "Cat.PNG"; content := "abc" |}
              IMAGE None None (Memory.azure []) (Memory.cosmos true)
              (Memory.start [] []));
      reflexivity.
  - eexists.
    eapply (Hdelete "cat.png" (Some IMAGE) None (Memory.azure [])
              (Memory.cosmos true)
              (Memory.start [("images", "cat.png", "abc")] [])
              "images" _ _ true);
      reflexivity.
Defined.

(** A delete of a blob that is not there while its record is: the answer
    is 404 and the record is gone. *)
Lemma delete_answers_404_sample :
  (exists logged,
     delete_asset (Memory.env Memory.configured false [] (true, true, true))
       "folder/name.png" (Some IMAGE) None
       (Memory.azure []) (Some (Memory.cosmos false))
       (Memory.start [] [Memory.image_doc "name" "folder/name.png"])
     = (Raise (HTTPException 404 "Asset not found"),
        mkState {| Memory.blobs := []; Memory.docs := [];
                   Memory.clock := 1000 |}
          ([] ++ EDeleteAssetMetadata (asset_id_of "folder/name.png")
                   (media_type_str_of
                      (Memory.env Memory.configured false []
                         (true, true, true)) "images")
               :: logged ++ [EDeleteBlob "folder/name.png" "images"]))
     /\ (Ok tt = Ok tt -> logged = [])
     /\ Forall (fun ev => is_mutation ev = false) logged)
  /\ Memory.docs
       (world (Memory.start [] [Memory.image_doc "name" "folder/name.png"]))
     <> [].
Proof.
  split.
  - apply (delete_answers_404_after_metadata_deletion
             (Memory.env Memory.configured false [] (true, true, true))
             "folder/name.png" (Some IMAGE) None
             (Memory.azure []) (Memory.cosmos false)
             (Memory.start [] [Memory.image_doc "name" "folder/name.png"])
             "images" (Ok tt)
             {| Memory.blobs := []; Memory.docs := []; Memory.clock := 1000 |}
             {| Memory.blobs := []; Memory.docs := []; Memory.clock := 1000 |});
      reflexivity.
  - discriminate.
Defined.

Section Dependencies.

Context {W : Type} `{PyLib} (env : Env W).

Lemma get_cosmos_service_configured (s : state W) cosmos :
  cosmos_configured (settings env) = true ->
  new_CosmosDBService env = Ok cosmos ->
  get_cosmos_service env s = (Ok cosmos, s).
Proof.
  unfold cosmos_configured, get_cosmos_service. intros Hc Hnew.
  apply andb_true_iff in Hc as [He Hk]. run.
  rewrite He, Hk, Hnew. reflexivity.
Qed.

Lemma get_cosmos_service_unconfigured (s : state W) :
  cosmos_configured (settings env) = false ->
  exists detail,
    get_cosmos_service env s = (Raise (HTTPException 503 detail), s).
Proof.
  unfold cosmos_configured, get_cosmos_service. intros Hc. run.
  destruct (truthy_opt (AZURE_COSMOS_DB_ENDPOINT (settings env)));
    simpl in Hc.
  - rewrite Hc. eexists. reflexivity.
  - eexists. reflexivity.
Qed.

Lemma get_cosmos_service_not_constructed (s : state W) cls msg :
  cosmos_configured (settings env) = true ->
  new_CosmosDBService env = Raise (PyError cls msg) ->
  exists detail logged,
    get_cosmos_service env s
    = (Raise (HTTPException 503 detail),
       mkState (world s) (trace s ++ [ELog ERROR logged])).
Proof.
  unfold cosmos_configured, get_cosmos_service. intros Hc Hnew.
  apply andb_true_iff in Hc as [He Hk]. run.
  rewrite He, Hk, Hnew. simpl. eexists. eexists. reflexivity.
Qed.

(** A rejected upload: the file name has no accepted extension, or the
    metadata text does not parse.  The 400 raised for it is caught by the
    handler's own [except Exception] and leaves it as a 500; nothing was
    asked of either store. *)
Lemma upload_asset_rejection file media_type metadata folder_path
    (azure : AzureBlobStorageService.t W)
    (cosmos_service : option (CosmosDBService.t W)) (s : state W) name :
  filename file = Some name ->
  has_valid_extension media_type (Str.lower name) = false
  \/ (truthy_opt metadata = true
      /\ json_loads (default EmptyString metadata) = None) ->
  exists detail,
    upload_asset env file media_type metadata folder_path azure
      cosmos_service s
    = (Raise (HTTPException 500 (str_exn (HTTPException 400 detail))),
       mkState (world s)
         (trace s ++ [ EPrint ("Upload error: "
                               +:+ str_exn (HTTPException 400 detail));
                       EPrint ("Error trace: "
                               +:+ format_exc (HTTPException 400 detail)) ])).
Proof.
  intros Hname Hbad. unfold upload_asset. run. rewrite Hname. simpl.
  destruct (has_valid_extension media_type (Str.lower name)) eqn:Hext; simpl.
  - destruct Hbad as [Hbad|[Ht Hl]]; [discriminate|].
    unfold parse_metadata. rewrite Ht, Hl. simpl.
    eexists. rewrite <- app_assoc. reflexivity.
  - eexists. rewrite <- app_assoc. reflexivity.
Qed.

(** The same through the route, when both services are there. *)
Lemma POST_upload_rejection file media_type metadata folder_path
    azure cosmos (s : state W) name :
  new_AzureBlobStorageService env = Ok azure ->
  cosmos_configured (settings env) = true ->
  new_CosmosDBService env = Ok cosmos ->
  filename file = Some name ->
  has_valid_extension media_type (Str.lower name) = false
  \/ (truthy_opt metadata = true
      /\ json_loads (default EmptyString metadata) = None) ->
  exists detail evs,
    POST_upload env file media_type metadata folder_path s
    = (HTTPError 500 detail, mkState (world s) (trace s ++ evs))
    /\ Forall (fun ev => is_mutation ev = false) evs.
Proof.
  intros Hazure Hconf Hcosmos Hname Hbad.
  destruct (upload_asset_rejection file media_type metadata folder_path
              azure (Some cosmos) s name Hname Hbad) as [detail Hrun].
  unfold POST_upload, route, get_azure_service, bind, lift.
  rewrite Hazure.
  rewrite (get_cosmos_service_configured s cosmos Hconf Hcosmos).
  rewrite Hrun. simpl.
  eexists. eexists. split; [reflexivity|]. repeat constructor.
Qed.

End Dependencies.

(** C1, at the request that shows the defect.  POST /upload of notes.txt
    as an image, and of Cat.PNG with a metadata text that is not JSON, with
    both stores configured: the claim promises 400 before any store
    mutation; the handler answers 500, its own [except Exception] having
    caught the 400 it raised.  Nothing was asked of either store. *)
Theorem upload_rejection_answers_500_not_400 :
  let env := Memory.env Memory.configured false [] (true, true, true) in
  let s := Memory.start [] [] in
  let bad_name :=
    POST_upload env {| filename := Some "notes.txt"; content := "abc" |}
      IMAGE None None s in
  let bad_json :=
    POST_upload env {| filename := Some "Cat.PNG"; content := "abc" |}
      IMAGE (Some "{oops") None s in
  (status (fst bad_name) = 500 /\ world (snd bad_name) = world s
   /\ Forall (fun ev => is_mutation ev = false) (trace (snd bad_name)))
  /\
  (status (fst bad_json) = 500 /\ world (snd bad_json) = world s
   /\ Forall (fun ev => is_mutation ev = false) (trace (snd bad_json))).
Proof.
  intros env s bad_name bad_json.
  destruct (POST_upload_rejection env
              {| filename := Some "notes.txt"; content := "abc" |}
              IMAGE None None (Memory.azure []) (Memory.cosmos false) s
              "notes.txt" eq_refl eq_refl eq_refl eq_refl
              (or_introl eq_refl))
    as (d1 & evs1 & Hrun1 & Hevs1).
  assert (Hjson : has_valid_extension IMAGE (Str.lower "Cat.PNG") = false
                  \/ (truthy_opt (Some "{oops") = true
                      /\ json_loads (default EmptyString (Some "{oops"))
                         = None))
    by (right; split; reflexivity).
  destruct (POST_upload_rejection env
              {| filename := Some "Cat.PNG"; content := "abc" |}
              IMAGE (Some "{oops") None (Memory.azure [])
              (Memory.cosmos false) s
              "Cat.PNG" eq_refl eq_refl eq_refl eq_refl Hjson)
    as (d2 & evs2 & Hrun2 & Hevs2).
  subst bad_name bad_json. rewrite Hrun1, Hrun2. simpl.
  repeat split; assumption.
Qed.

Section BlobOnly.

Context {W : Type} `{PyLib} (env : Env W).

(** The answer of an upload is the same with and without a metadata
    store: the record is written after the blob store has answered, and no
    failure of that step leaves its [try]. *)
Lemma upload_answer_blob_only file media_type metadata folder_path
    (azure : AzureBlobStorageService.t W) (cosmos : CosmosDBService.t W)
    (s : state W) :
  fst (upload_asset env file media_type metadata folder_path azure
         (Some cosmos) s)
  = fst (upload_asset env file media_type metadata folder_path azure None s).
Proof.
  unfold upload_asset, try_except, bind, ret, raise, lift, call, print, emit.
  destruct (filename file) as [name|]; [|reflexivity].
  destruct (has_valid_extension media_type (Str.lower name));
    [|reflexivity].
  cbn [negb].
  destruct (parse_metadata metadata) as [metadata_dict|e]; [|reflexivity].
  destruct (AzureBlobStorageService.upload_asset azure file _ _ _ (world s))
    as [[res|e] w1]; [|reflexivity].
  destruct (create_record env cosmos media_type res metadata_dict _)
    as [[[]|e] s2];
    destruct (AssetUploadResponse media_type res); reflexivity.
Qed.

(** The answer of a delete is the same with and without a metadata store
    whenever the metadata call of this request leaves the world as it
    found it. *)
Lemma delete_answer_blob_only blob_name media_type container
    (azure : AzureBlobStorageService.t W) (cosmos : CosmosDBService.t W)
    (s : state W) :
  (forall cn,
     resolve_container env container media_type = Ok cn ->
     snd (CosmosDBService.delete_asset_metadata cosmos
            (asset_id_of blob_name) (media_type_str_of env cn) (world s))
     = world s) ->
  fst (delete_asset env blob_name media_type container azure (Some cosmos) s)
  = fst (delete_asset env blob_name media_type container azure None s).
Proof.
  intros Hsame.
  unfold delete_asset, try_except, reraise_http, bind, ret, raise, lift,
    call, logger_warning, emit.
  destruct (resolve_container env container media_type) as [cn|e];
    [|reflexivity].
  specialize (Hsame cn eq_refl).
  destruct (CosmosDBService.delete_asset_metadata cosmos _ _ (world s))
    as [r1 w1].
  simpl in Hsame. subst w1.
  destruct r1 as [[]|e1]; cbn [world trace];
    destruct (AzureBlobStorageService.delete_asset azure blob_name cn
                (world s)) as [[[|]|e2] w2];
    try reflexivity; destruct e2; reflexivity.
Qed.

(** With the metadata store not configured, upload and delete end at
    their dependencies, with the state as it was: at the 503 of
    [get_cosmos_service] when the blob service was constructed, at the
    failure of its constructor otherwise. *)
Lemma upload_delete_unconfigured file media_type metadata folder_path
    blob_name mt container (s : state W) :
  cosmos_configured (settings env) = false ->
  match new_AzureBlobStorageService env with
  | Ok _ =>
      (exists detail,
         POST_upload env file media_type metadata folder_path s
         = (HTTPError 503 detail, s))
      /\ (exists detail,
            DELETE_delete env blob_name mt container s
            = (HTTPError 503 detail, s))
  | Raise e =>
      POST_upload env file media_type metadata folder_path s
      = (respond (Raise e), s)
      /\ DELETE_delete env blob_name mt container s = (respond (Raise e), s)
  end.
Proof.
  intros Hconf.
  destruct (get_cosmos_service_unconfigured env s Hconf) as [detail Hdep].
  unfold POST_upload, DELETE_delete, route, get_azure_service, bind, lift.
  destruct (new_AzureBlobStorageService env) as [azure|e].
  - rewrite Hdep. split; exists detail; reflexivity.
  - split; reflexivity.
Qed.

(** C2, amended.  The raw blob read never consults the metadata store:
    its answer is the same under any two environments that agree on the
    blob service and the two container names.  Upload and delete stand
    behind the metadata-store dependency: when the store is not configured
    the request ends before the handler starts, with the state as it was
    and nothing asked of either store; the answer is 503 when the blob
    service was constructed, and the failure of its constructor (resolved
    first) otherwise.  Once the service object exists the metadata store
    cannot fail them: the upload answers as in blob-store-only operation,
    and so does the delete whenever the metadata call of the request
    leaves the world as it found it. *)
Theorem blob_paths_stand_behind_metadata_dependency :
  (forall (env' : Env W) media_type blob_name (s : state W),
     new_AzureBlobStorageService env' = new_AzureBlobStorageService env ->
     AZURE_BLOB_IMAGE_CONTAINER (settings env')
       = AZURE_BLOB_IMAGE_CONTAINER (settings env) ->
     AZURE_BLOB_VIDEO_CONTAINER (settings env')
       = AZURE_BLOB_VIDEO_CONTAINER (settings env) ->
     GET_asset env' media_type blob_name s
     = GET_asset env media_type blob_name s)
  /\
  (forall file media_type metadata folder_path blob_name mt container
          (s : state W),
     cosmos_configured (settings env) = false ->
     match new_AzureBlobStorageService env with
     | Ok _ =>
         (exists detail,
            POST_upload env file media_type metadata folder_path s
            = (HTTPError 503 detail, s))
         /\ (exists detail,
               DELETE_delete env blob_name mt container s
               = (HTTPError 503 detail, s))
     | Raise e =>
         POST_upload env file media_type metadata folder_path s
         = (respond (Raise e), s)
         /\ DELETE_delete env blob_name mt container s
            = (respond (Raise e), s)
     end)
  /\
  (forall file media_type metadata folder_path azure cosmos (s : state W),
     fst (upload_asset env file media_type metadata folder_path azure
            (Some cosmos) s)
     = fst (upload_asset env file media_type metadata folder_path azure
              None s))
  /\
  (forall blob_name media_type container azure cosmos (s : state W),
     (forall cn,
        resolve_container env container media_type = Ok cn ->
        snd (CosmosDBService.delete_asset_metadata cosmos
               (asset_id_of blob_name) (media_type_str_of env cn) (world s))
        = world s) ->
     fst (delete_asset env blob_name media_type container azure
            (Some cosmos) s)
     = fst (delete_asset env blob_name media_type container azure None s)).
Proof.
  split; [|split; [|split]].
  - intros env' media_type blob_name s Hazure Himg Hvid.
    unfold GET_asset, route, get_azure_service, get_asset_content,
      container_of, bind, lift, try_except.
    rewrite Hazure. destruct media_type; rewrite ?Himg, ?Hvid; reflexivity.
  - intros. now apply upload_delete_unconfigured.
  - apply upload_answer_blob_only.
  - apply delete_answer_blob_only.
Qed.

End BlobOnly.

(** The four parts on the in-memory instance: the raw read is the same with
    and without a configured metadata store; without one, upload and
    delete answer 503 and leave the state alone; with a metadata store that
    refuses every call, the upload answers as without one; the delete of
    old.png answers as without one where the metadata store answers and
    holds a record of another asset, zzz, but none of old; and where the
    blob service cannot be constructed either, upload and delete end at
    that failure. *)
Lemma blob_paths_sample :
  let off := Memory.env Memory.unconfigured false [] (true, true, true) in
  let on := Memory.env Memory.configured true [] (true, true, true) in
  let s := Memory.start [("images", "old.png", "xyz")]
             [Memory.image_doc "zzz" "zzz.png"] in
  let file := {| filename := Some "cat.png"; content := "abc" |} in
  GET_asset off IMAGE "old.png" s = GET_asset on IMAGE "old.png" s
  /\ ((exists detail,
         POST_upload off file IMAGE None None s = (HTTPError 503 detail, s))
      /\ (exists detail,
            DELETE_delete off "old.png" (Some IMAGE) None s
            = (HTTPError 503 detail, s)))
  /\ fst (upload_asset on file IMAGE None None (Memory.azure [])
            (Some (Memory.cosmos true)) s)
     = fst (upload_asset on file IMAGE None None (Memory.azure []) None s)
  /\ (snd (CosmosDBService.delete_asset_metadata (Memory.cosmos false)
             "zzz" "image" (world s)) <> world s
      /\ fst (delete_asset on "old.png" (Some IMAGE) None (Memory.azure [])
                (Some (Memory.cosmos false)) s)
         = fst (delete_asset on "old.png" (Some IMAGE) None (Memory.azure [])
                  None s))
  /\ (let neither :=
         {| settings := Memory.unconfigured;
            new_AzureBlobStorageService := Memory.unavailable;
            new_CosmosDBService := Ok (Memory.cosmos false);
            datetime_now := Memory.tick;
            generate_container_sas := Memory.sign;
            import_ai_clients := Ok (true, true, true);
            AssetMetadataCreateRequest := fun fields => Ok fields |} in
       POST_upload neither file IMAGE None None s
       = (InternalServerError
            (PyError "ServiceRequestError" "connection refused"), s)
       /\ DELETE_delete neither "old.png" (Some IMAGE) None s
          = (InternalServerError
               (PyError "ServiceRequestError" "connection refused"), s)).
Proof.
  intros off on s file.
  destruct (blob_paths_stand_behind_metadata_dependency on)
    as (Hread & _ & Hupload & Hdelete).
  destruct (blob_paths_stand_behind_metadata_dependency off)
    as (_ & Hgate & _ & _).
  split; [|split; [|split; [|split; [split|]]]].
  - apply Hread; reflexivity.
  - apply (Hgate file IMAGE None None "old.png" (Some IMAGE) None s).
    reflexivity.
  - apply Hupload.
  - discriminate.
  - apply Hdelete. intros cn [= <-]. reflexivity.
  - intros neither.
    destruct (blob_paths_stand_behind_metadata_dependency neither)
      as (_ & Hends & _ & _).
    apply (Hends file IMAGE None None "old.png" (Some IMAGE) None s).
    reflexivity.
Defined.

(** C2 as stated fails: with the metadata store not configured, an upload
    the blob store would accept, and a delete of a blob that is there, are
    both answered 503, and the blob store is never asked. *)
Lemma unconfigured_metadata_store_fails_upload_and_delete :
  let env := Memory.env Memory.unconfigured false [] (true, true, true) in
  let s := Memory.start [("images", "old.png", "xyz")] [] in
  let file := {| filename := Some "cat.png"; content := "abc" |} in
  status (fst (POST_upload env file IMAGE None None s)) = 503
  /\ snd (POST_upload env file IMAGE None None s) = s
  /\ (exists summary w,
        AzureBlobStorageService.upload_asset (Memory.azure []) file "image"
          PNone None (world s) = (Ok summary, w))
  /\ status (fst (DELETE_delete env "old.png" (Some IMAGE) None s)) = 503
  /\ snd (DELETE_delete env "old.png" (Some IMAGE) None s) = s
  /\ (exists w,
        AzureBlobStorageService.delete_asset (Memory.azure []) "old.png"
          "images" (world s) = (Ok true, w)).
Proof.
  intros env s file.
  repeat split; try reflexivity.
  - eexists. eexists. reflexivity.
  - eexists. reflexivity.
Qed.

Section Listings.

Context {W : Type} `{PyLib} (env : Env W).

(** The loop stops at the first record whose body raises: the records
    before it have been projected, the ones after it are not reached. *)
Lemma for_each_stops {A B} (body : A -> M W B) (pre post : list A) (x : A) :
  forall (st st1 st2 : state W) ys e,
    for_each pre body st = (Ok ys, st1) ->
    body x st1 = (Raise e, st2) ->
    for_each (pre ++ x :: post) body st = (Raise e, st2).
Proof.
  induction pre as [|y r IH]; intros st st1 st2 ys e Hpre Hx.
  - cbn [for_each] in Hpre. unfold ret in Hpre.
    injection Hpre as <- <-.
    cbn [app for_each]. unfold bind at 1. now rewrite Hx.
  - cbn [app for_each] in *. unfold bind at 1 in Hpre. unfold bind at 1.
    destruct (body y st) as [[b|e0] st0]; [|discriminate].
    unfold bind at 1 in Hpre. unfold bind at 1.
    destruct (for_each r body st0) as [[ys0|e0] st3] eqn:Hr;
      [|discriminate].
    unfold ret in Hpre. injection Hpre as <- <-.
    now rewrite (IH st0 st3 st2 ys0 e Hr Hx).
Qed.

(** When the loop ends, it has produced one item per record, in order,
    each the projection of its record. *)
Lemma for_each_project azure item (l : list dict) :
  forall (st st' : state W) ys,
    for_each l (project azure item) st = (Ok ys, st') ->
    Forall2 (fun y metadata => exists sas_url, item metadata sas_url = Ok y)
      ys l.
Proof.
  induction l as [|m r IH]; intros st st' ys; cbn [for_each].
  - unfold ret. intros [= <- <-]. constructor.
  - unfold bind at 1.
    destruct (project azure item m st) as [[y|e] st1] eqn:Hy;
      [|discriminate].
    unfold bind at 1.
    destruct (for_each r (project azure item) st1) as [[ys'|e] st2] eqn:Hr;
      [|discriminate].
    unfold ret. intros [= <- <-]. constructor; [|eapply IH; eassumption].
    unfold project, bind, lift in Hy.
    destruct (sas_url_of azure m st) as [[sas_url|e] st0]; [|discriminate].
    exists sas_url. now inversion Hy.
Qed.

(** C3, amended.  The three listings are [listing] at their media type
    and projection.  On a page the metadata store answered, when the loop
    has projected the records before one and the URL generation for that
    one raises, the whole request fails: the exception leaves the loop,
    the handler logs it as an error, that being the last thing it does,
    and raises the 500 made of it; no item is returned.  When a listing
    answers, every record of the page is in the answer, in the order of
    the query, each item the projection of its record: none is skipped.
    Whatever happens, the listing either answers with as many items as the
    page has records, or raises a logged 500: there is no partial page. *)
Theorem url_failure_fails_whole_page
    media_type item noun log_prefix on_error limit offset folder_path tags
    (cosmos : CosmosDBService.t W) (azure : AzureBlobStorageService.t W)
    (s : state W) page w1 :
  CosmosDBService.query_assets cosmos media_type folder_path
    (parse_tags tags) limit offset "created_at" true (world s)
  = (Ok page, w1) ->
  let queried :=
    mkState w1 (trace s ++ [EQueryAssets media_type folder_path
                              (parse_tags tags) limit offset
                              "created_at" true]) in
  (forall pre metadata post ys st blob_name container_name e w2,
     CosmosDBService.items page = pre ++ metadata :: post ->
     for_each pre (project azure item) queried = (Ok ys, st) ->
     getitem metadata "blob_name" = Ok blob_name ->
     getitem metadata "container" = Ok container_name ->
     AzureBlobStorageService.generate_blob_sas_url azure blob_name
       container_name 24 (world st) = (Raise e, w2) ->
     listing media_type item noun log_prefix on_error limit offset
       folder_path tags cosmos azure s
     = (Raise (HTTPException 500 (on_error e)),
        mkState w2
          (trace st ++ [ EGenerateBlobSasUrl blob_name container_name 24;
                         ELog ERROR (log_prefix +:+ str_exn e) ])))
  /\
  (forall resp s',
     listing media_type item noun log_prefix on_error limit offset
       folder_path tags cosmos azure s = (Ok resp, s') ->
     Forall2 (fun y metadata => exists sas_url, item metadata sas_url = Ok y)
       (GalleryResponse.items resp) (CosmosDBService.items page))
  /\
  (forall r s',
     listing media_type item noun log_prefix on_error limit offset
       folder_path tags cosmos azure s = (r, s') ->
     match r with
     | Ok resp =>
         length (GalleryResponse.items resp)
         = length (CosmosDBService.items page)
     | Raise e' =>
         exists e evs,
           e' = HTTPException 500 (on_error e)
           /\ trace s' = evs ++ [ELog ERROR (log_prefix +:+ str_exn e)]
     end).
Proof.
  intros Hquery queried.
  assert (Hall : forall resp s',
            listing media_type item noun log_prefix on_error limit offset
              folder_path tags cosmos azure s = (Ok resp, s') ->
            Forall2 (fun y metadata =>
                       exists sas_url, item metadata sas_url = Ok y)
              (GalleryResponse.items resp) (CosmosDBService.items page)).
  { intros resp s'.
    unfold listing, try_except, bind at 1, call. rewrite Hquery.
    unfold bind at 1.
    destruct (for_each _ _ _) as [[ys|e] st1] eqn:Hloop.
    + unfold ret. intros [= <- <-]. cbn [GalleryResponse.items].
      eapply for_each_project. eassumption.
    + unfold logger_error, emit, bind, raise. discriminate. }
  split; [|split; [exact Hall|]].
  - intros pre metadata post ys st blob_name container_name e w2
      Hpage Hpre Hbn Hcn Hgen.
    assert (Hx : project azure item metadata st
                 = (Raise e,
                    mkState w2 (trace st ++ [EGenerateBlobSasUrl blob_name
                                               container_name 24]))).
    { unfold project, sas_url_of, bind, lift, call.
      rewrite Hbn, Hcn, Hgen. reflexivity. }
    unfold listing, try_except, bind at 1, call. rewrite Hquery.
    unfold bind at 1. rewrite Hpage.
    fold queried.
    rewrite (for_each_stops (project azure item) pre post metadata
               queried st _ ys e Hpre Hx).
    unfold logger_error, emit, bind, raise. cbn [world trace].
    now rewrite <- app_assoc.
  - intros r s' Hrun. destruct r as [resp|e'].
    + apply Hall in Hrun. apply Forall2_length in Hrun. exact Hrun.
    + revert Hrun.
      unfold listing, try_except, bind at 1, call. rewrite Hquery.
      unfold bind at 1.
      destruct (for_each _ _ _) as [[ys|e] st1] eqn:Hloop.
      * unfold ret. discriminate.
      * unfold logger_error, emit, bind, raise. cbn [world trace].
        intros [= <- <-]. exists e. eexists. split; reflexivity.
Qed.

End Listings.

(** A page of two images of which the second cannot be signed, although
    the first can: the image listing has projected the first, raises the
    500 made of the signer's exception, and the log entry is the last
    event, after the query and the two URL requests.  With both images
    signable the listing answers with both, in the order of the query. *)
Lemma url_failure_sample :
  let s := Memory.start [] [ Memory.image_doc "a" "a.png";
                             Memory.image_doc "b" "b.png" ] in
  get_gallery_images 50 0 None None (Memory.cosmos false)
    (Memory.azure ["b.png"]) s
  = (Raise (HTTPException 500 "Failed to retrieve images: cannot sign"),
     mkState (world s)
       [ EQueryAssets (Some "image") None None 50 0 "created_at" true;
         EGenerateBlobSasUrl (PStr "a.png") (PStr "images") 24;
         EGenerateBlobSasUrl (PStr "b.png") (PStr "images") 24;
         ELog ERROR "Error retrieving images: cannot sign" ])
  /\
  (exists resp s',
     get_gallery_images 50 0 None None (Memory.cosmos false)
       (Memory.azure []) s = (Ok resp, s')
     /\ List.map GalleryItem.id (GalleryResponse.items resp)
        = [PStr "a"; PStr "b"]
     /\ Forall2 (fun y metadata =>
                   exists sas_url,
                     typed_item IMAGE image_metadata metadata sas_url = Ok y)
          (GalleryResponse.items resp)
          [ Memory.image_doc "a" "a.png"; Memory.image_doc "b" "b.png" ]).
Proof.
  intros s.
  pose (page := {| CosmosDBService.items := [ Memory.image_doc "a" "a.png";
                                              Memory.image_doc "b" "b.png" ];
                   CosmosDBService.total := PInt 2 |}).
  split.
  - destruct (url_failure_fails_whole_page
                (Some "image") (typed_item IMAGE image_metadata) "images"
                "Error retrieving images: "
                (fun e => "Failed to retrieve images: " +:+ str_exn e)
                50 0 None None (Memory.cosmos false) (Memory.azure ["b.png"])
                s page (world s) eq_refl)
      as (Hfails & _ & _).
    unfold get_gallery_images.
    erewrite (Hfails [Memory.image_doc "a" "a.png"]
                (Memory.image_doc "b" "b.png") []
                _ _ (PStr "b.png") (PStr "images")
                (PyError "ValueError" "cannot sign") (world s));
      cycle 1.
    + reflexivity.
    + reflexivity.
    + reflexivity.
    + reflexivity.
    + reflexivity.
    + reflexivity.
  - destruct (url_failure_fails_whole_page
                (Some "image") (typed_item IMAGE image_metadata) "images"
                "Error retrieving images: "
                (fun e => "Failed to retrieve images: " +:+ str_exn e)
                50 0 None None (Memory.cosmos false) (Memory.azure [])
                s page (world s) eq_refl)
      as (_ & Hall & _).
    eexists. eexists. split; [reflexivity|]. split; [reflexivity|].
    apply (Hall _ (snd (get_gallery_images 50 0 None None
                          (Memory.cosmos false) (Memory.azure []) s))).
    reflexivity.
Defined.

(** C3 as stated fails: with two images on the page, the first of which
    cannot be signed while the second can, GET /images answers 500 and
    returns no page at all; the second image is not returned. *)
Lemma url_failure_item_is_not_skipped :
  let env := Memory.env Memory.configured false ["a.png"] (true, true, true) in
  let s := Memory.start [] [ Memory.image_doc "a" "a.png";
                             Memory.image_doc "b" "b.png" ] in
  status (fst (GET_images env 50 0 None None s)) = 500
  /\ (exists sas_url w,
        AzureBlobStorageService.generate_blob_sas_url (Memory.azure ["a.png"])
          (PStr "b.png") (PStr "images") 24 (world s) = (Ok sas_url, w))
  /\ (forall page, fst (GET_images env 50 0 None None s) <> Returned page).
Proof.
  intros env s. split; [reflexivity|]. split.
  - eexists. eexists. reflexivity.
  - intros page. discriminate.
Qed.

Section Projection.

Context `{PyLib}.

(** With no tags in the record the joined text is empty. *)
Lemma tags_absent metadata tags :
  Dict.lookup metadata "tags" = None ->
  join_value "," (Dict.get metadata "tags" (PList [])) = Ok tags ->
  tags = EmptyString.
Proof.
  intros Habs. rewrite (DictFacts.get_absent _ _ _ Habs).
  simpl. now intros [= <-].
Qed.

(** One case per key of a list written out. *)
Ltac each_key Hk :=
  unfold common_keys, image_keys, video_keys in Hk; cbn [app] in Hk;
  repeat (apply elem_of_cons in Hk as [->|Hk]);
  [..|now apply elem_of_nil in Hk].

(** A key outside a list written out differs from each of its keys. *)
Ltac other_key Hk :=
  apply DictFacts.lookup_None_notin;
  unfold common_entries, generation_id_entry, image_entries, video_entries;
  cbn [app List.map fst];
  let Hin := fresh "Hin" in
  intros Hin; apply Hk;
  unfold common_keys, image_keys, video_keys; cbn [app];
  repeat (apply elem_of_cons in Hin as [->|Hin];
          [rewrite !elem_of_cons; tauto|]);
  now apply elem_of_nil in Hin.

(** The built-in entries of an image: each key is there, with its default
    when the record does not hold it, and no other key is. *)
Lemma image_builtin metadata tags :
  join_value "," (Dict.get metadata "tags" (PList [])) = Ok tags ->
  let base := common_entries metadata tags ++ image_entries metadata
              ++ generation_id_entry metadata in
  (forall k, k ∈ common_keys ++ image_keys ->
     is_Some (Dict.lookup base k)
     /\ (Dict.lookup metadata k = None ->
         Dict.lookup base k = Some (builtin_default k)))
  /\ (forall k, k ∉ common_keys ++ image_keys -> Dict.lookup base k = None).
Proof.
  intros Htags base. split.
  - intros k Hk. each_key Hk;
      (split; [eexists; reflexivity|]); intros Habs;
      cbn [base common_entries image_entries generation_id_entry app
           Dict.lookup String.eqb Ascii.eqb Bool.eqb];
      rewrite ?(DictFacts.get_absent _ _ _ Habs);
      rewrite ?(tags_absent _ _ Habs Htags); reflexivity.
  - intros k Hk. subst base. other_key Hk.
Qed.

(** The same for a video. *)
Lemma video_builtin metadata tags :
  join_value "," (Dict.get metadata "tags" (PList [])) = Ok tags ->
  let base := common_entries metadata tags ++ generation_id_entry metadata
              ++ video_entries metadata in
  (forall k, k ∈ common_keys ++ video_keys ->
     is_Some (Dict.lookup base k)
     /\ (Dict.lookup metadata k = None ->
         Dict.lookup base k = Some (builtin_default k)))
  /\ (forall k, k ∉ common_keys ++ video_keys -> Dict.lookup base k = None).
Proof.
  intros Htags base. split.
  - intros k Hk. each_key Hk;
      (split; [eexists; reflexivity|]); intros Habs;
      cbn [base common_entries video_entries generation_id_entry app
           Dict.lookup String.eqb Ascii.eqb Bool.eqb];
      rewrite ?(DictFacts.get_absent _ _ _ Habs);
      rewrite ?(tags_absent _ _ Habs Htags); reflexivity.
  - intros k Hk. subst base. other_key Hk.
Qed.

(** The mixed listing writes the common entries first and the typed ones
    after them; for an image the order differs from the image listing's,
    the keys and values do not. *)
Lemma mixed_image_builtin metadata tags :
  join_value "," (Dict.get metadata "tags" (PList [])) = Ok tags ->
  let base := (common_entries metadata tags ++ generation_id_entry metadata)
              ++ image_entries metadata in
  (forall k, k ∈ common_keys ++ image_keys ->
     is_Some (Dict.lookup base k)
     /\ (Dict.lookup metadata k = None ->
         Dict.lookup base k = Some (builtin_default k)))
  /\ (forall k, k ∉ common_keys ++ image_keys -> Dict.lookup base k = None).
Proof.
  intros Htags base. split.
  - intros k Hk. each_key Hk;
      (split; [eexists; reflexivity|]); intros Habs;
      cbn [base common_entries image_entries generation_id_entry app
           Dict.lookup String.eqb Ascii.eqb Bool.eqb];
      rewrite ?(DictFacts.get_absent _ _ _ Habs);
      rewrite ?(tags_absent _ _ Habs Htags); reflexivity.
  - intros k Hk. subst base. other_key Hk.
Qed.

End Projection.

Section Precedence.

Context `{PyLib}.

(** A dictionary of built-in entries [base] updated with the custom
    metadata: the custom entries win, the built-in keys stay, and nothing
    else comes in. *)
Lemma merged_last metadata (base custom : dict) (keys : list string) :
  DictFacts.wf custom ->
  (forall k, k ∈ keys ->
     is_Some (Dict.lookup base k)
     /\ (Dict.lookup metadata k = None ->
         Dict.lookup base k = Some (builtin_default k)))
  /\ (forall k, k ∉ keys -> Dict.lookup base k = None) ->
  (forall k v, Dict.lookup custom k = Some v ->
               Dict.lookup (Dict.update base custom) k = Some v)
  /\ (forall k, k ∈ keys ->
        Dict.lookup custom k = None ->
        Dict.lookup metadata k = None ->
        Dict.lookup (Dict.update base custom) k = Some (builtin_default k))
  /\ (forall k, k ∈ keys ->
        is_Some (Dict.lookup (Dict.update base custom) k))
  /\ (forall k, k ∉ keys ->
        Dict.lookup custom k = None ->
        Dict.lookup (Dict.update base custom) k = None).
Proof.
  intros Hwf [Hin Hout]. repeat split.
  - intros k v Hk. rewrite DictFacts.lookup_update by assumption.
    now rewrite Hk.
  - intros k Hk Hnone Habs. rewrite DictFacts.lookup_update by assumption.
    rewrite Hnone. now apply Hin.
  - intros k Hk. rewrite DictFacts.lookup_update by assumption.
    destruct (Dict.lookup custom k); [eauto | now apply Hin].
  - intros k Hk Hnone. rewrite DictFacts.lookup_update by assumption.
    rewrite Hnone. now apply Hout.
Qed.

Lemma Ok_inj {A} (a b : A) : Ok a = Ok b -> a = b.
Proof. now intros [= ->]. Qed.

Ltac written_keys :=
  unfold common_entries, generation_id_entry, image_entries, video_entries;
  cbn [app]; distinct_keys.

(** C6, amended.  For every record a listing projects, whose custom
    metadata is a dictionary (or absent), the custom metadata is merged
    last: every key it holds has its value in the item's metadata, over
    any built-in value.  The built-in keys of the listing are the common
    ones and those of its media type (for the mixed listing, of the
    record's media type).  A built-in key that neither the custom metadata
    nor the record holds is in the item's metadata with the empty string,
    except has_transparency, which is there with the text of [False].
    Every built-in key is present, and the item's metadata holds no key
    besides the built-in and the custom ones. *)
Theorem custom_metadata_merged_last metadata custom meta keys :
  Dict.get metadata "custom_metadata" (PDict []) = PDict custom ->
  DictFacts.wf custom ->
  (image_metadata metadata = Ok meta /\ keys = common_keys ++ image_keys)
  \/ (video_metadata metadata = Ok meta /\ keys = common_keys ++ video_keys)
  \/ (item_metadata metadata = Ok meta
      /\ keys = common_keys ++ typed_keys metadata) ->
  (forall k v, Dict.lookup custom k = Some v -> Dict.lookup meta k = Some v)
  /\ (forall k, k ∈ keys ->
        Dict.lookup custom k = None ->
        Dict.lookup metadata k = None ->
        Dict.lookup meta k
        = Some (PStr (if String.eqb k "has_transparency" then "False"
                      else EmptyString)))
  /\ (forall k, k ∈ keys -> is_Some (Dict.lookup meta k))
  /\ (forall k, k ∉ keys ->
        Dict.lookup custom k = None -> Dict.lookup meta k = None).
Proof.
  intros Hcustom Hwf Hmeta.
  change (forall k, k ∈ keys ->
            Dict.lookup custom k = None ->
            Dict.lookup metadata k = None ->
            Dict.lookup meta k
            = Some (PStr (if String.eqb k "has_transparency" then "False"
                          else EmptyString)))
    with (forall k, k ∈ keys ->
            Dict.lookup custom k = None ->
            Dict.lookup metadata k = None ->
            Dict.lookup meta k = Some (builtin_default k)).
  destruct Hmeta as [[Hmeta ->]|[[Hmeta ->]|[Hmeta ->]]].
  - (* get_gallery_images *)
    unfold image_metadata, rbind in Hmeta.
    destruct (join_value "," _) as [tags|e] eqn:Htags; [|discriminate].
    rewrite Hcustom in Hmeta. cbn [mapping] in Hmeta.
    apply Ok_inj in Hmeta. subst meta.
    rewrite !app_assoc, DictFacts.display_app, <- !app_assoc.
    rewrite DictFacts.display_distinct by written_keys.
    apply (merged_last metadata); [assumption|].
    exact (image_builtin metadata tags Htags).
  - (* get_gallery_videos *)
    unfold video_metadata, rbind in Hmeta.
    destruct (join_value "," _) as [tags|e] eqn:Htags; [|discriminate].
    rewrite Hcustom in Hmeta. cbn [mapping] in Hmeta.
    apply Ok_inj in Hmeta. subst meta.
    rewrite !app_assoc, DictFacts.display_app, <- !app_assoc.
    rewrite DictFacts.display_distinct by written_keys.
    apply (merged_last metadata); [assumption|].
    exact (video_builtin metadata tags Htags).
  - (* get_gallery_items *)
    unfold item_metadata, rbind in Hmeta.
    destruct (join_value "," _) as [tags|e] eqn:Htags; [|discriminate].
    unfold getitem in Hmeta.
    destruct (Dict.lookup metadata "media_type") as [mt|] eqn:Hmt;
      [|discriminate].
    assert (Hget : Dict.get metadata "media_type" PNone = mt)
      by (unfold Dict.get; now rewrite Hmt).
    unfold typed_keys. rewrite Hget.
    rewrite Hcustom in Hmeta. cbn [update_value] in Hmeta.
    apply Ok_inj in Hmeta. subst meta.
    rewrite (DictFacts.display_distinct
               (common_entries metadata tags ++ generation_id_entry metadata))
      by written_keys.
    rewrite (DictFacts.display_distinct (image_entries metadata))
      by written_keys.
    rewrite (DictFacts.display_distinct (video_entries metadata))
      by written_keys.
    destruct (eq_str mt "image").
    + rewrite (DictFacts.update_fresh _ (image_entries metadata))
        by written_keys.
      apply (merged_last metadata); [assumption|].
      exact (mixed_image_builtin metadata tags Htags).
    + rewrite (DictFacts.update_fresh _ (video_entries metadata))
        by written_keys.
      apply (merged_last metadata); [assumption|].
      rewrite <- app_assoc.
      exact (video_builtin metadata tags Htags).
Qed.

End Precedence.

(** An image record with a prompt of its own, a custom prompt and a custom
    key, and no has_transparency: the item carries the custom prompt and
    the custom key, has_transparency with the text of [False], quality with
    the empty string, and no video key. *)
Lemma custom_metadata_sample :
  let custom := [("prompt", PStr "override"); ("campaign", PStr "spring")] in
  let metadata := Memory.image_doc "a" "a.png"
                  ++ [ ("prompt", PStr "original");
                       ("custom_metadata", PDict custom) ] in
  exists meta,
    image_metadata metadata = Ok meta
    /\ Dict.lookup meta "prompt" = Some (PStr "override")
    /\ Dict.lookup meta "campaign" = Some (PStr "spring")
    /\ Dict.lookup meta "has_transparency" = Some (PStr "False")
    /\ Dict.lookup meta "quality" = Some (PStr EmptyString)
    /\ is_Some (Dict.lookup meta "model")
    /\ Dict.lookup meta "duration" = None.
Proof.
  intros custom metadata. eexists.
  split; [reflexivity|].
  destruct (custom_metadata_merged_last metadata custom _
              (common_keys ++ image_keys) eq_refl
              ltac:(subst custom; distinct_keys)
              (or_introl (conj eq_refl eq_refl)))
    as (Hcustom & Hdefault & Hpresent & Hother).
  split; [now apply Hcustom|]. split; [now apply Hcustom|].
  split; [apply (Hdefault "has_transparency"); [|reflexivity..]|].
  { unfold common_keys, image_keys. cbn [app]. rewrite !elem_of_cons. tauto. }
  split; [apply (Hdefault "quality"); [|reflexivity..]|].
  { unfold common_keys, image_keys. cbn [app]. rewrite !elem_of_cons. tauto. }
  split; [apply (Hpresent "model")|].
  { unfold common_keys, image_keys. cbn [app]. rewrite !elem_of_cons. tauto. }
  apply (Hother "duration"); [|reflexivity].
  unfold common_keys, image_keys. cbn [app].
  rewrite !elem_of_cons, elem_of_nil. intuition discriminate.
Defined.

(** C6 as stated fails: an image record with no has_transparency key and
    no custom metadata is projected with has_transparency set to the text
    of [False], not to the empty string. *)
Lemma has_transparency_default_is_not_empty :
  let metadata := Memory.image_doc "a" "a.png" in
  Dict.lookup metadata "has_transparency" = None
  /\ Dict.lookup metadata "custom_metadata" = None
  /\ exists meta,
       image_metadata metadata = Ok meta
       /\ Dict.lookup meta "has_transparency" = Some (PStr "False")
       /\ Dict.lookup meta "has_transparency" <> Some (PStr EmptyString).
Proof.
  intros metadata. split; [reflexivity|]. split; [reflexivity|].
  eexists. split; [reflexivity|]. split; [reflexivity|]. discriminate.
Qed.

Section Expiry.

Context {W : Type} `{PyLib} (env : Env W).

Lemma sas_url_of_24 azure metadata (st st' : state W) r :
  sas_url_of azure metadata st = (r, st') ->
  (exists evs, trace st' = trace st ++ evs /\ Forall asks_24_hours evs)
  /\ (forall sas_url, r = Ok sas_url ->
        exists blob_name container_name w w',
          AzureBlobStorageService.generate_blob_sas_url azure blob_name
            container_name 24 w = (Ok sas_url, w')).
Proof.
  unfold sas_url_of, bind, lift, call.
  destruct (getitem metadata "blob_name") as [bn|e].
  - destruct (getitem metadata "container") as [c|e].
    + destruct (AzureBlobStorageService.generate_blob_sas_url azure bn c 24
                  (world st)) as [r0 w0] eqn:Hgen.
      intros [= <- <-]. split.
      * eexists. split; [reflexivity|]. repeat constructor.
      * intros sas_url ->. eauto.
    + intros [= <- <-]. split.
      * exists []. now rewrite app_nil_r.
      * discriminate.
  - intros [= <- <-]. split.
    + exists []. now rewrite app_nil_r.
    + discriminate.
Qed.

Lemma for_each_project_24 azure item
    (Hurl : forall m u y, item m u = Ok y -> GalleryItem.url y = u)
    (l : list dict) :
  forall (st st' : state W) r,
    for_each l (project azure item) st = (r, st') ->
    (exists evs, trace st' = trace st ++ evs /\ Forall asks_24_hours evs)
    /\ (forall ys, r = Ok ys -> Forall (minted_for_24_hours azure) ys).
Proof.
  induction l as [|m rest IH]; intros st st' r; cbn [for_each].
  - unfold ret. intros [= <- <-]. split.
    + exists []. now rewrite app_nil_r.
    + intros ys [= <-]. constructor.
  - unfold bind at 1. unfold project at 1. unfold bind at 1.
    destruct (sas_url_of azure m st) as [r0 st0] eqn:Hsas.
    destruct (sas_url_of_24 azure m st st0 r0 Hsas)
      as [(evs0 & Htr0 & Hev0) Hminted].
    destruct r0 as [sas_url|e].
    + unfold lift.
      destruct (item m sas_url) as [y|e] eqn:Hitem.
      * unfold bind at 1.
        destruct (for_each rest (project azure item) st0) as [r1 st1] eqn:Hr.
        destruct (IH st0 st1 r1 Hr) as [(evs1 & Htr1 & Hev1) Hys].
        destruct r1 as [ys|e]; unfold ret; intros [= <- <-].
        -- split.
           ++ exists (evs0 ++ evs1). rewrite Htr1, Htr0, app_assoc.
              split; [reflexivity | now apply Forall_app].
           ++ intros ? [= <-]. constructor; [|now apply Hys].
              destruct (Hminted sas_url eq_refl) as (bn & c & w & w' & Hgen).
              exists bn, c, w, w'.
              now rewrite (Hurl m sas_url y Hitem).
        -- split; [|discriminate].
           exists (evs0 ++ evs1). rewrite Htr1, Htr0, app_assoc.
           split; [reflexivity | now apply Forall_app].
      * intros [= <- <-]. split; [eauto | discriminate].
    + intros [= <- <-]. split; [eauto | discriminate].
Qed.

Lemma typed_item_url media_type item_meta m u y :
  typed_item media_type item_meta m u = Ok y -> GalleryItem.url y = u.
Proof.
  unfold typed_item, rbind.
  repeat match goal with
    | |- context [match ?x with Ok _ => _ | Raise _ => _ end] =>
        destruct x; [|discriminate]
    end.
  now intros [= <-].
Qed.

Lemma mixed_item_url m u y :
  mixed_item m u = Ok y -> GalleryItem.url y = u.
Proof.
  unfold mixed_item, rbind.
  repeat match goal with
    | |- context [match ?x with Ok _ => _ | Raise _ => _ end] =>
        destruct x; [|discriminate]
    end.
  now intros [= <-].
Qed.

Lemma listing_24 media_type item noun log_prefix on_error limit offset
    folder_path tags (cosmos : CosmosDBService.t W)
    (azure : AzureBlobStorageService.t W) (s s' : state W) r
    (Hurl : forall m u y, item m u = Ok y -> GalleryItem.url y = u) :
  listing media_type item noun log_prefix on_error limit offset folder_path
    tags cosmos azure s = (r, s') ->
  (exists evs, trace s' = trace s ++ evs /\ Forall asks_24_hours evs)
  /\ (forall resp, r = Ok resp ->
        Forall (minted_for_24_hours azure) (GalleryResponse.items resp)).
Proof.
  unfold listing, try_except, bind at 1, call.
  destruct (CosmosDBService.query_assets cosmos _ _ _ _ _ _ _ (world s))
    as [[page|e] w1].
  - unfold bind at 1.
    destruct (for_each _ _ _) as [r1 st1] eqn:Hloop.
    destruct (for_each_project_24 azure item Hurl _ _ _ _ Hloop)
      as [(evs & Htr & Hev) Hys].
    cbn [trace] in Htr.
    destruct r1 as [ys|e]; unfold ret, logger_error, emit, bind, raise.
    + intros [= <- <-]. split.
      * eexists. rewrite Htr, <- app_assoc. split; [reflexivity|].
        constructor; [exact I | assumption].
      * intros resp [= <-]. cbn [GalleryResponse.items]. now apply Hys.
    + intros [= <- <-]. split; [|discriminate]. cbn [trace].
      eexists. rewrite Htr, <- !app_assoc. split; [reflexivity|].
      constructor; [exact I|]. apply Forall_app. split; [assumption|].
      repeat constructor.
  - unfold logger_error, emit, bind, raise. intros [= <- <-].
    split; [|discriminate]. cbn [trace].
    eexists. rewrite <- app_assoc. split; [reflexivity|].
    repeat constructor.
Qed.

End Expiry.

Section Tokens.

Context {W : Type} `{PyLib} (env : Env W).

(** C7.  Every access URL of an item a listing returns was requested from
    [generate_blob_sas_url] with 24 hours, and every such request a
    listing places asks for 24 hours.  When GET /sas-tokens answers, it
    has asked the signer for exactly two tokens, one for the video and one
    for the image container, each with the read permission alone and an
    expiry one hour after the clock reading taken for it, and these are
    the two tokens of the answer. *)
Theorem gallery_urls_24_hours_tokens_1_hour :
  (forall limit offset folder_path tags media_type
          (cosmos : CosmosDBService.t W) (azure : AzureBlobStorageService.t W)
          (s s' : state W) r,
     get_gallery_images limit offset folder_path tags cosmos azure s = (r, s')
     \/ get_gallery_videos limit offset folder_path tags cosmos azure s
        = (r, s')
     \/ get_gallery_items limit offset folder_path tags media_type
          cosmos azure s = (r, s') ->
     (exists evs, trace s' = trace s ++ evs /\ Forall asks_24_hours evs)
     /\ (forall resp, r = Ok resp ->
           Forall (minted_for_24_hours azure) (GalleryResponse.items resp)))
  /\
  (forall (s s' : state W) resp,
     get_sas_tokens env s = (Ok resp, s') ->
     exists t1 t2 t3,
       trace s'
       = trace s
         ++ [ ENow t1;
              EGenerateContainerSas
                (AZURE_BLOB_VIDEO_CONTAINER (settings env)) ["read"]
                (t1 + 3600 * 1000000);
              ENow t2;
              EGenerateContainerSas
                (AZURE_BLOB_IMAGE_CONTAINER (settings env)) ["read"]
                (t2 + 3600 * 1000000);
              ENow t3 ]
       /\ generate_container_sas env
            (AZURE_STORAGE_ACCOUNT_NAME (settings env))
            (AZURE_BLOB_VIDEO_CONTAINER (settings env))
            (AZURE_STORAGE_ACCOUNT_KEY (settings env)) ["read"]
            (t1 + 3600 * 1000000)
          = Ok (SasTokenResponse.video_sas_token resp)
       /\ generate_container_sas env
            (AZURE_STORAGE_ACCOUNT_NAME (settings env))
            (AZURE_BLOB_IMAGE_CONTAINER (settings env))
            (AZURE_STORAGE_ACCOUNT_KEY (settings env)) ["read"]
            (t2 + 3600 * 1000000)
          = Ok (SasTokenResponse.image_sas_token resp)
       /\ SasTokenResponse.expiry resp = t3 + 3600 * 1000000).
Proof.
  split.
  - intros limit offset folder_path tags media_type cosmos azure s s' r
      [Hrun|[Hrun|Hrun]].
    + eapply listing_24; [|exact Hrun]. apply typed_item_url.
    + eapply listing_24; [|exact Hrun]. apply typed_item_url.
    + eapply listing_24; [|exact Hrun]. apply mixed_item_url.
  - intros s s' resp.
    unfold get_sas_tokens, container_token, now, try_except, bind, call,
      ret, raise, hours.
    destruct (datetime_now env (world s)) as [t1 w1]. cbn [world trace].
    destruct (generate_container_sas env _
                (AZURE_BLOB_VIDEO_CONTAINER (settings env)) _ _ _)
      as [video_token|e] eqn:Hvideo; [|discriminate].
    destruct (datetime_now env w1) as [t2 w2]. cbn [world trace].
    destruct (generate_container_sas env _
                (AZURE_BLOB_IMAGE_CONTAINER (settings env)) _ _ _)
      as [image_token|e] eqn:Himage; [|discriminate].
    destruct (datetime_now env w2) as [t3 w3]. cbn [world trace].
    intros [= <- <-]. exists t1, t2, t3. cbn.
    rewrite <- !app_assoc. replace (1 * 3600 * 1000000) with 3600000000
      in * by reflexivity.
    repeat split; assumption || reflexivity.
Qed.

End Tokens.

(** The token endpoint on the in-memory instance, with the clock at 1000:
    two tokens, expiring at 1000 and 1001 plus one hour. *)
Lemma sas_tokens_sample :
  let env := Memory.env Memory.configured false [] (true, true, true) in
  exists t1 t2 t3,
    trace (snd (get_sas_tokens env (Memory.start [] [])))
    = [] ++ [ ENow t1;
              EGenerateContainerSas "videos" ["read"] (t1 + 3600 * 1000000);
              ENow t2;
              EGenerateContainerSas "images" ["read"] (t2 + 3600 * 1000000);
              ENow t3 ]
    /\ Memory.sign "acct" "videos" "secret" ["read"] (t1 + 3600 * 1000000)
       = Ok "sv=1&sr=c&sp=read&se=3600001000&c=videos"
    /\ Memory.sign "acct" "images" "secret" ["read"] (t2 + 3600 * 1000000)
       = Ok "sv=1&sr=c&sp=read&se=3600001001&c=images"
    /\ 1002 + 3600 * 1000000 = t3 + 3600 * 1000000.
Proof.
  intros env.
  destruct (gallery_urls_24_hours_tokens_1_hour env) as [_ Htokens].
  apply (Htokens (Memory.start [] [])
           (snd (get_sas_tokens env (Memory.start [] [])))
           {| SasTokenResponse.success := true;
              SasTokenResponse.message := "SAS tokens generated successfully";
              SasTokenResponse.video_sas_token :=
                "sv=1&sr=c&sp=read&se=3600001000&c=videos";
              SasTokenResponse.image_sas_token :=
                "sv=1&sr=c&sp=read&se=3600001001&c=images";
              SasTokenResponse.video_container_url :=
                "https://acct.blob.core.windows.net/videos";
              SasTokenResponse.image_container_url :=
                "https://acct.blob.core.windows.net/images";
              SasTokenResponse.expiry := 3600001002 |}).
  reflexivity.
Defined.

Section Health.

Context {W : Type} `{PyLib} (env : Env W).

Lemma check_blob_storage_spec azure services overall (s : state W) :
  exists entry overall' s',
    check_blob_storage env azure services overall s
    = (Ok (Dict.set services "azure_blob_storage" (PDict entry), overall'), s')
    /\ ((Dict.lookup entry "status" = healthy /\ overall' = overall)
        \/ (Dict.lookup entry "status" <> healthy /\ overall' = "degraded")).
Proof.
  unfold check_blob_storage, try_except, bind. cbn [for_each].
  unfold bind, call, ret.
  destruct (AzureBlobStorageService._ensure_container_exists azure
              (AZURE_BLOB_IMAGE_CONTAINER (settings env)) (world s))
    as [[[]|e1] w1]; cbn [world trace].
  - destruct (AzureBlobStorageService._ensure_container_exists azure
                (AZURE_BLOB_VIDEO_CONTAINER (settings env)) w1)
      as [[[]|e2] w2].
    + do 3 eexists. split; [reflexivity|]. left. split; reflexivity.
    + do 3 eexists. split; [reflexivity|]. right.
      split; [discriminate | reflexivity].
  - do 3 eexists. split; [reflexivity|]. right.
    split; [discriminate | reflexivity].
Qed.

Lemma eq_str_true v s0 : eq_str v s0 = true -> v = PStr s0.
Proof.
  destruct v; simpl; try discriminate.
  intros E. apply String.eqb_eq in E. now subst.
Qed.

Lemma eq_str_false v s0 : eq_str v s0 = false -> v <> PStr s0.
Proof.
  destruct v; simpl; try discriminate.
  intros E [= ->]. now rewrite String.eqb_refl in E.
Qed.

Lemma check_cosmos_db_spec cosmos_service services overall (s : state W) :
  exists entry overall' s',
    check_cosmos_db cosmos_service services overall s
    = (Ok (Dict.set services "cosmos_db" (PDict entry), overall'), s')
    /\ ((Dict.lookup entry "status" = healthy /\ overall' = overall)
        \/ (Dict.lookup entry "status" <> healthy /\ overall' = "degraded")).
Proof.
  unfold check_cosmos_db.
  destruct cosmos_service as [cosmos|].
  - unfold try_except, bind, call, lift, ret.
    destruct (CosmosDBService.health_check cosmos (world s))
      as [[cosmos_health|e] w1].
    + unfold getitem.
      destruct (Dict.lookup cosmos_health "status") as [st|] eqn:Hst.
      * destruct (eq_str st "healthy") eqn:Heq; cbn [negb].
        -- apply eq_str_true in Heq. subst st.
           do 3 eexists. split; [reflexivity|]. left. now split.
        -- apply eq_str_false in Heq.
           do 3 eexists. split; [reflexivity|]. right.
           split; [|reflexivity]. rewrite Hst. unfold healthy. congruence.
      * do 3 eexists. split; [reflexivity|]. right.
        split; [discriminate | reflexivity].
    + do 3 eexists. split; [reflexivity|]. right.
      split; [discriminate | reflexivity].
  - unfold ret. do 3 eexists. split; [reflexivity|]. right.
    split; [discriminate | reflexivity].
Qed.

Lemma check_ai_services_spec services overall (s : state W) :
  exists entry overall' s',
    check_ai_services env services overall s
    = (Ok (Dict.set services "ai_services" (PDict entry), overall'), s')
    /\ ((exists clients, import_ai_clients env = Ok clients)
          /\ overall' = overall
        \/ (exists e, import_ai_clients env = Raise e)
          /\ Dict.lookup entry "status" <> healthy
          /\ overall' = "degraded").
Proof.
  unfold check_ai_services, try_except, bind, lift, ret.
  destruct (import_ai_clients env) as [clients|e].
  - do 3 eexists. split; [reflexivity|]. left. eauto.
  - do 3 eexists. split; [reflexivity|]. right.
    split; [eauto|]. split; [discriminate | reflexivity].
Qed.

(** C5, amended.  A GET /health request reaches the handler only when
    the metadata store is configured; otherwise the dependency answers 503
    and there is no overall status.  The handler always answers, with an
    overall status that is healthy or degraded: degraded whenever the blob
    store or the metadata store reports a status other than healthy, or
    the AI clients cannot be imported; healthy when all three services
    report healthy. *)
Theorem health_overall_status :
  (forall cosmos_service azure (s : state W),
     exists hs s',
       health_check env cosmos_service azure s = (Ok hs, s')
       /\ (HealthStatus.overall_status hs = "healthy"
           \/ HealthStatus.overall_status hs = "degraded")
       /\ (service_status hs "azure_blob_storage" <> healthy ->
           HealthStatus.overall_status hs = "degraded")
       /\ (service_status hs "cosmos_db" <> healthy ->
           HealthStatus.overall_status hs = "degraded")
       /\ ((exists e, import_ai_clients env = Raise e) ->
           HealthStatus.overall_status hs = "degraded")
       /\ (service_status hs "azure_blob_storage" = healthy ->
           service_status hs "cosmos_db" = healthy ->
           service_status hs "ai_services" = healthy ->
           HealthStatus.overall_status hs = "healthy"))
  /\
  (forall s : state W,
     cosmos_configured (settings env) = false ->
     exists detail, GET_health env s = (HTTPError 503 detail, s)).
Proof.
  split.
  - intros cosmos_service azure s.
    unfold health_check, bind at 1, now.
    destruct (datetime_now env (world s)) as [t w0].
    unfold bind at 1.
    destruct (check_blob_storage_spec azure [] "healthy"
                (mkState w0 (trace s ++ [ENow t])))
      as (e1 & o1 & s1 & -> & H1).
    unfold bind at 1. cbn [fst snd].
    destruct (check_cosmos_db_spec cosmos_service
                (Dict.set [] "azure_blob_storage" (PDict e1)) o1 s1)
      as (e2 & o2 & s2 & -> & H2).
    unfold bind at 1. cbn [fst snd].
    destruct (check_ai_services_spec
                (Dict.set (Dict.set [] "azure_blob_storage" (PDict e1))
                   "cosmos_db" (PDict e2)) o2 s2)
      as (e3 & o3 & s3 & -> & H3).
    unfold ret. do 2 eexists. split; [reflexivity|].
    unfold service_status. cbn.
    destruct H1 as [[Hs1 ->]|[Hs1 ->]];
      destruct H2 as [[Hs2 ->]|[Hs2 ->]];
      destruct H3 as [[[c Hc] ->]|[[e He] [Hs3 ->]]];
      repeat split; auto; try tauto;
      try (intros [e' He']; congruence).
  - intros s Hconf.
    destruct (get_cosmos_service_unconfigured env s Hconf) as [detail Hdep].
    exists detail. unfold GET_health, route, bind. now rewrite Hdep.
Qed.

End Health.

(** The health route with everything in place, and with the metadata
    store not configured. *)
Lemma health_sample :
  let env := Memory.env Memory.configured false [] (true, false, false) in
  let off := Memory.env Memory.unconfigured false [] (true, false, false) in
  (exists hs s',
     health_check env (Some (Memory.cosmos false)) (Memory.azure [])
       (Memory.start [] []) = (Ok hs, s')
     /\ HealthStatus.overall_status hs = "healthy")
  /\ (exists detail,
        GET_health off (Memory.start [] [])
        = (HTTPError 503 detail, Memory.start [] [])).
Proof.
  intros env off. split.
  - destruct (health_overall_status env) as [Hhandler _].
    destruct (Hhandler (Some (Memory.cosmos false)) (Memory.azure [])
                (Memory.start [] []))
      as (hs & s' & Hrun & _ & _ & _ & _ & Hhealthy).
    exists hs, s'. split; [exact Hrun|].
    vm_compute in Hrun. injection Hrun as <- _.
    apply Hhealthy; reflexivity.
  - destruct (health_overall_status off) as [_ Hgate].
    apply Hgate. reflexivity.
Defined.

(** C5 as stated fails: with the metadata store not configured,
    GET /health answers 503 with a detail and no overall status, where the
    claim has an overall status of degraded. *)
Lemma health_unconfigured_answers_503 :
  let off := Memory.env Memory.unconfigured false [] (true, true, true) in
  status (fst (GET_health off (Memory.start [] []))) = 503
  /\ (forall hs, fst (GET_health off (Memory.start [] [])) <> Returned hs).
Proof.
  intros off. split; [reflexivity|]. intros hs. discriminate.
Qed.

(** Besides: with both stores healthy and no AI client at all, the answer
    reports the AI services unhealthy and an overall status of healthy;
    the other unhealthy paths of the handler all set degraded. *)
Remark health_no_ai_client_not_degraded :
  let env := Memory.env Memory.configured false [] (false, false, false) in
  exists hs s',
    health_check env (Some (Memory.cosmos false)) (Memory.azure [])
      (Memory.start [] []) = (Ok hs, s')
    /\ service_status hs "ai_services" = Some (PStr "unhealthy")
    /\ HealthStatus.overall_status hs = "healthy".
Proof.
  intros env. do 2 eexists. split; [reflexivity|]. split; reflexivity.
Qed.

(* ===================================================================== *)
(** ** Further properties: strings *)
(* ===================================================================== *)

Module StrMore.

Lemma app_nil_l b : EmptyString +:+ b = b.
Proof. reflexivity. Qed.

Lemma app_cons c a b : String c a +:+ b = String c (a +:+ b).
Proof. reflexivity. Qed.

(** [simpl] leaves string concatenation alone; these two equations unfold
    it. *)
Ltac app_simpl := repeat (progress (simpl; rewrite ?app_nil_l, ?app_cons)).

Lemma app_assoc a b c : a +:+ (b +:+ c) = (a +:+ b) +:+ c.
Proof. induction a; app_simpl; congruence. Qed.

Lemma app_empty_r a : a +:+ EmptyString = a.
Proof. induction a; app_simpl; congruence. Qed.

Lemma rev_app_spec a b : String.rev_app a b = String.rev a +:+ b.
Proof.
  unfold String.rev. revert b.
  induction a as [|c a IH]; intros b; simpl; auto.
  rewrite IH, (IH (String c EmptyString)).
  now rewrite <- app_assoc.
Qed.

Lemma rev_cons c a :
  String.rev (String c a) = String.rev a +:+ String c EmptyString.
Proof. unfold String.rev at 1. simpl. apply rev_app_spec. Qed.

Lemma rev_app a b : String.rev (a +:+ b) = String.rev b +:+ String.rev a.
Proof.
  induction a as [|c a IH]; app_simpl.
  - now rewrite app_empty_r.
  - now rewrite !rev_cons, IH, app_assoc.
Qed.

Lemma rev_involutive a : String.rev (String.rev a) = a.
Proof.
  induction a as [|c a IH]; auto.
  now rewrite rev_cons, rev_app, IH.
Qed.

Lemma lower_app a b : Str.lower (a +:+ b) = Str.lower a +:+ Str.lower b.
Proof. induction a; app_simpl; congruence. Qed.

Lemma startswith_app p s : Str.startswith (p +:+ s) p = true.
Proof.
  induction p as [|c p IH]; app_simpl.
  - now destruct s.
  - now rewrite Ascii.eqb_refl.
Qed.

Lemma endswith_app s suffix : Str.endswith (s +:+ suffix) suffix = true.
Proof. unfold Str.endswith. rewrite rev_app. apply startswith_app. Qed.

Lemma occurs_app c a b :
  Str.occurs c (a +:+ b) = Str.occurs c a || Str.occurs c b.
Proof.
  induction a as [|x a IH]; app_simpl; auto.
  now rewrite IH, orb_assoc.
Qed.

Lemma occurs_before_first c s : Str.occurs c (Str.before_first c s) = false.
Proof.
  induction s as [|x s IH]; simpl; auto.
  destruct (Ascii.eqb x c) eqn:E; simpl; auto. now rewrite E.
Qed.

(** What is after the last separator is a piece of the string. *)
Lemma occurs_after_last c d s :
  Str.occurs d (Str.after_last c s) = true -> Str.occurs d s = true.
Proof.
  induction s as [|x s IH]; simpl; auto.
  destruct (Str.occurs c s).
  - intros Hd. rewrite (IH Hd). apply orb_true_r.
  - destruct (Ascii.eqb x c); simpl; auto.
    intros ->. apply orb_true_r.
Qed.

Lemma occurs_after_last_same c s : Str.occurs c (Str.after_last c s) = false.
Proof.
  induction s as [|x s IH]; simpl; auto.
  destruct (Str.occurs c s) eqn:Ho; auto.
  destruct (Ascii.eqb x c) eqn:E; simpl; auto. now rewrite E.
Qed.

Lemma before_first_app c a b :
  Str.occurs c a = false ->
  Str.before_first c (a +:+ String c b) = a.
Proof.
  induction a as [|x a IH]; app_simpl.
  - now rewrite Ascii.eqb_refl.
  - intros Ho. apply orb_false_iff in Ho as [E Ho].
    now rewrite E, IH.
Qed.

Lemma after_last_app c a b :
  Str.occurs c b = false ->
  Str.after_last c (a +:+ String c b) = b.
Proof.
  intros Hb. induction a as [|x a IH]; app_simpl.
  - now rewrite Hb, Ascii.eqb_refl.
  - rewrite occurs_app. simpl. rewrite Ascii.eqb_refl, orb_true_r. exact IH.
Qed.

End StrMore.

Section AssetIdentifier.

(** X1. The identifier [delete_asset] sends to the metadata store never
    holds a dot or a slash, whatever the blob name. *)
Theorem asset_id_has_no_dot_no_slash blob_name :
  Str.occurs "." (asset_id_of blob_name) = false
  /\ Str.occurs "/" (asset_id_of blob_name) = false.
Proof.
  unfold asset_id_of.
  rewrite StrFacts.final_split, StrFacts.first_split. split.
  - destruct (Str.occurs "." (Str.after_last "/" _)) eqn:Ho; auto.
    apply StrMore.occurs_after_last in Ho.
    now rewrite StrMore.occurs_before_first in Ho.
  - apply StrMore.occurs_after_last_same.
Qed.

(** X2. For a blob name of the form folder/stem.ext, with no dot in the
    folder and neither dot nor slash in the stem, the identifier is the
    stem alone: blobs that differ in folder or extension only are sent to
    the metadata store under the same identifier. *)
Theorem asset_id_ignores_folder_and_extension folder stem ext :
  Str.occurs "." folder = false ->
  Str.occurs "." stem = false ->
  Str.occurs "/" stem = false ->
  asset_id_of (folder +:+ "/" +:+ stem +:+ "." +:+ ext) = stem.
Proof.
  intros Hfolder Hstem Hslash. unfold asset_id_of.
  rewrite StrFacts.final_split, StrFacts.first_split.
  replace (folder +:+ "/" +:+ stem +:+ "." +:+ ext)
    with ((folder +:+ "/" +:+ stem) +:+ String "." ext)
    by (now rewrite <- !StrMore.app_assoc).
  rewrite StrMore.before_first_app.
  - apply (StrMore.after_last_app "/" folder stem Hslash).
  - rewrite !StrMore.occurs_app. simpl. now rewrite Hfolder, Hstem.
Qed.

End AssetIdentifier.

(** Two blobs in different folders and with different extensions, one
    identifier. *)
Lemma asset_id_collision_sample :
  asset_id_of ("summer" +:+ "/" +:+ "beach" +:+ "." +:+ "png") = "beach"
  /\ asset_id_of ("winter" +:+ "/" +:+ "beach" +:+ "." +:+ "jpg") = "beach".
Proof.
  split.
  - apply (asset_id_ignores_folder_and_extension "summer" "beach" "png");
      reflexivity.
  - apply (asset_id_ignores_folder_and_extension "winter" "beach" "jpg");
      reflexivity.
Defined.

(* ===================================================================== *)
(** ** Further properties: upload validation *)
(* ===================================================================== *)

Section Extensions.

(** X3. A file name is accepted for a media type whenever it ends, in
    any mix of upper and lower case, in one of the extensions listed for
    that type: the test is made on the lower-cased name. *)
Theorem listed_extension_is_accepted media_type stem suffix :
  In (Str.lower suffix) (valid_types media_type) ->
  has_valid_extension media_type (Str.lower (stem +:+ suffix)) = true.
Proof.
  intros Hin. unfold has_valid_extension.
  apply existsb_exists. exists (Str.lower suffix). split; [assumption|].
  rewrite StrMore.lower_app. apply StrMore.endswith_app.
Qed.

(** Case analysis on the last characters of a name. *)
Ltac settled := solve [intros; first [reflexivity | discriminate]].

Ltac last_chars r :=
  destruct r as [|?c1 [|?c2 [|?c3 [|?c4 [|?c5 ?r]]]]];
  cbn [Str.startswith andb orb]; try settled;
  repeat (match goal with
          | |- context [Ascii.eqb ?a ?b] =>
              is_var b; destruct (Ascii.eqb_spec a b); [subst b|]
          | |- context [Ascii.eqb ?a ?b] =>
              let v := eval vm_compute in (Ascii.eqb a b) in
              change (Ascii.eqb a b) with v
          end; cbn [andb orb]; try settled).

(** X4. No file name is accepted both as an image and as a video: the two
    extension lists exclude each other on every name. *)
Theorem image_and_video_extensions_exclude name :
  has_valid_extension IMAGE name = true ->
  has_valid_extension VIDEO name = false.
Proof.
  unfold has_valid_extension, valid_types, Str.endswith.
  generalize (String.rev name). intros r.
  cbn [existsb].
  change (String.rev ".jpg") with "gpj.".
  change (String.rev ".jpeg") with "gepj.".
  change (String.rev ".png") with "gnp.".
  change (String.rev ".gif") with "fig.".
  change (String.rev ".webp") with "pbew.".
  change (String.rev ".svg") with "gvs.".
  change (String.rev ".bmp") with "pmb.".
  change (String.rev ".mp4") with "4pm.".
  change (String.rev ".mov") with "vom.".
  change (String.rev ".avi") with "iva.".
  change (String.rev ".wmv") with "vmw.".
  change (String.rev ".webm") with "mbew.".
  change (String.rev ".mkv") with "vkm.".
  last_chars r.
Qed.

End Extensions.

(** An upper-case image extension passes as an image. *)
Lemma extension_sample :
  has_valid_extension IMAGE (Str.lower ("Holiday" +:+ ".PNG")) = true.
Proof.
  apply (listed_extension_is_accepted IMAGE "Holiday" ".PNG").
  simpl. tauto.
Defined.

(** A name that passes as an image does not pass as a video. *)
Lemma extension_exclusive_sample :
  has_valid_extension VIDEO "holiday.jpeg" = false.
Proof.
  apply (image_and_video_extensions_exclude "holiday.jpeg"). reflexivity.
Defined.

(* ===================================================================== *)
(** ** Further properties: the tags filter *)
(* ===================================================================== *)

Section Tags.

Lemma lstrip_head s :
  match Str.lstrip s with
  | EmptyString => True
  | String c _ => Str.isspace c = false
  end.
Proof.
  induction s as [|c r IH]; simpl; auto.
  destruct (Str.isspace c) eqn:E; auto.
Qed.

Lemma lstrip_fixed s :
  match s with
  | EmptyString => True
  | String c _ => Str.isspace c = false
  end ->
  Str.lstrip s = s.
Proof. destruct s as [|c r]; simpl; auto. now intros ->. Qed.

Lemma lstrip_idempotent s : Str.lstrip (Str.lstrip s) = Str.lstrip s.
Proof. apply lstrip_fixed, lstrip_head. Qed.

(** What [lstrip] removes is a prefix. *)
Lemma lstrip_suffix s : exists ws, s = ws +:+ Str.lstrip s.
Proof.
  induction s as [|c r [ws IH]]; simpl.
  - now exists EmptyString.
  - destruct (Str.isspace c).
    + exists (String c ws). rewrite StrMore.app_cons. congruence.
    + now exists EmptyString.
Qed.

(** A stripped string has no white space at either end. *)
Lemma strip_trimmed s :
  Str.lstrip (Str.strip s) = Str.strip s
  /\ Str.lstrip (String.rev (Str.strip s)) = String.rev (Str.strip s).
Proof.
  unfold Str.strip.
  set (a := Str.lstrip s). set (b := Str.lstrip (String.rev a)).
  split.
  - destruct (lstrip_suffix (String.rev a)) as [ws Hws]. fold b in Hws.
    assert (Ha : a = String.rev b +:+ String.rev ws).
    { rewrite <- StrMore.rev_app, <- Hws. now rewrite StrMore.rev_involutive. }
    apply lstrip_fixed.
    destruct (String.rev b) as [|c r'] eqn:Hb; auto.
    pose proof (lstrip_head s) as Hhead. fold a in Hhead.
    rewrite Ha, StrMore.app_cons in Hhead. exact Hhead.
  - rewrite StrMore.rev_involutive. apply lstrip_idempotent.
Qed.

(** X5. The tags a listing passes to the metadata store: none when the
    parameter is missing or empty; otherwise a list (possibly empty, as for
    a parameter made of commas and blanks) of at most as many tags as the
    parameter has comma-separated pieces, none of them empty and none with
    white space at either end. *)
Theorem parsed_tags_are_trimmed_and_nonempty tags :
  parse_tags None = None
  /\ (parse_tags (Some tags) = None <-> tags = EmptyString)
  /\ forall l,
       parse_tags (Some tags) = Some l ->
       (length l <= length (Str.split tags ","))%nat
       /\ Forall (fun t => t <> EmptyString
                           /\ Str.lstrip t = t
                           /\ Str.lstrip (String.rev t) = String.rev t) l.
Proof.
  split; [reflexivity|]. split.
  - unfold parse_tags. destruct tags; simpl; split; congruence.
  - intros l. unfold parse_tags.
    destruct (Str.nonempty tags); [|discriminate].
    intros [= <-]. split.
    + rewrite length_map.
      rewrite <- (filter_length
                    (fun tag => Str.nonempty (Str.strip tag))
                    (Str.split tags ",")).
      lia.
    + apply Forall_forall. intros t Hin.
      apply list_elem_of_In in Hin.
      apply in_map_iff in Hin as (x & <- & Hx).
      apply filter_In in Hx as [_ Hx].
      split; [|apply strip_trimmed].
      intros Hempty. rewrite Hempty in Hx. discriminate.
Qed.

End Tags.

(* ===================================================================== *)
(** ** Further properties: upload *)
(* ===================================================================== *)

Module DictMore.

Lemma lookup_app (a b : dict) k :
  Dict.lookup (a ++ b) k =
  match Dict.lookup a k with
  | Some v => Some v
  | None => Dict.lookup b k
  end.
Proof.
  induction a as [|[k' v'] r IH]; simpl; auto.
  destruct (String.eqb k' k); auto.
Qed.

Lemma del_fresh (d : dict) k : Dict.lookup d k = None -> Dict.del d k = d.
Proof.
  induction d as [|[k' v'] r IH]; simpl; auto.
  destruct (String.eqb k' k); [discriminate|].
  intros Hk. now rewrite IH.
Qed.

Lemma del_here (p r : dict) k v :
  Dict.lookup p k = None -> Dict.lookup r k = None ->
  Dict.del (p ++ (k, v) :: r) k = p ++ r.
Proof.
  intros Hp Hr. induction p as [|[k' v'] p IH]; simpl in *.
  - rewrite String.eqb_refl. now apply del_fresh.
  - destruct (String.eqb k' k); [discriminate|]. now rewrite IH.
Qed.

Lemma set_here (p r : dict) k v v' :
  Dict.lookup p k = None ->
  Dict.set (p ++ (k, v) :: r) k v' = p ++ (k, v') :: r.
Proof.
  intros Hp. induction p as [|[k0 v0] p IH]; simpl in *.
  - now rewrite String.eqb_refl.
  - destruct (String.eqb k0 k); [discriminate|]. now rewrite IH.
Qed.

End DictMore.

Section UploadMore.

Context {W : Type} `{PyLib} (env : Env W).

(** The loop, started on what is already settled followed by what is still
    to walk. *)
Lemma sanitize_fold_order (l p : dict) :
  DictFacts.wf l ->
  (forall k, k ∈ List.map fst l -> Dict.lookup p k = None) ->
  fold_left sanitize_step l (p ++ l)
  = p ++ List.map stored (List.filter kept l).
Proof.
  unfold DictFacts.wf. revert p.
  induction l as [|[k v] r IH]; intros p Hwf Hp.
  - reflexivity.
  - apply NoDup_cons in Hwf as [Hk Hr].
    assert (Hpk : Dict.lookup p k = None)
      by (apply Hp; simpl; apply elem_of_cons; now left).
    assert (Hrk : Dict.lookup r k = None)
      by now apply DictFacts.lookup_None_notin.
    assert (Hnext : forall v', forall k0, k0 ∈ List.map fst r ->
                      Dict.lookup (p ++ [(k, v')]) k0 = None).
    { intros v' k0 Hk0. rewrite DictMore.lookup_app.
      rewrite Hp by (simpl; apply elem_of_cons; now right).
      simpl. destruct (String.eqb_spec k k0); [|reflexivity].
      subst k0. now destruct Hk. }
    cbn [fold_left].
    assert (Hkeep : forall v',
              fold_left sanitize_step r (p ++ (k, v') :: r)
              = p ++ (k, v') :: List.map stored (List.filter kept r)).
    { intros v'.
      replace (p ++ (k, v') :: r) with ((p ++ [(k, v')]) ++ r)
        by now rewrite <- app_assoc.
      rewrite IH by auto. now rewrite <- app_assoc. }
    destruct v; cbn [sanitize_step List.filter kept snd List.map stored fst
                     is_dict_or_list];
      rewrite ?DictMore.del_here, ?DictMore.set_here by assumption;
      auto.
    apply IH; [exact Hr|].
    intros k0 Hk0. apply Hp. simpl. apply elem_of_cons. now right.
Qed.

(** X6. On a dictionary (no key twice) the metadata loop of
    [upload_asset] yields exactly the entries whose value is not [None],
    in their original order, with each dict or list value replaced by its
    [json.dumps] text. *)
Theorem sanitize_keeps_the_order (d : dict) :
  DictFacts.wf d ->
  sanitize d = List.map stored (List.filter kept d).
Proof.
  intros Hwf. unfold sanitize.
  apply (sanitize_fold_order d [] Hwf). reflexivity.
Qed.

End UploadMore.

(** Three entries, the middle one null: two are left, in order. *)
Lemma sanitize_order_sample :
  sanitize [ ("crop", PList [PInt 1]); ("note", PNone); ("by", PStr "ann") ]
  = List.map stored
      (List.filter kept
         [ ("crop", PList [PInt 1]); ("note", PNone); ("by", PStr "ann") ]).
Proof.
  apply (sanitize_keeps_the_order
           [ ("crop", PList [PInt 1]); ("note", PNone); ("by", PStr "ann") ]).
  distinct_keys.
Defined.

Section UploadEdges.

Context {W : Type} `{PyLib} (env : Env W).

(** X7. Metadata that is valid JSON but not an object.  A value Python
    takes for false (null, 0, an empty string, array or object) is passed
    on to the blob store as it is, unsanitized.  Any other value that is
    not an object stops the upload with a 500 (the loop calls [items] on
    it) before either store is asked anything. *)
Theorem upload_metadata_not_an_object text v :
  text <> EmptyString ->
  json_loads text = Some v ->
  (truthy v = false -> parse_metadata (Some text) = Ok v)
  /\ (truthy v = true -> (forall d, v <> PDict d) ->
      forall file media_type folder_path
             (azure : AzureBlobStorageService.t W)
             (cosmos_service : option (CosmosDBService.t W))
             (s : state W) name,
        filename file = Some name ->
        has_valid_extension media_type (Str.lower name) = true ->
        exists detail evs,
          upload_asset env file media_type (Some text) folder_path azure
            cosmos_service s
          = (Raise (HTTPException 500 detail),
             mkState (world s) (trace s ++ evs))
          /\ Forall (fun ev => is_blob_call ev = false
                               /\ is_metadata_call ev = false) evs).
Proof.
  intros Htext Hloads.
  assert (Ht : truthy_opt (Some text) = true)
    by (destruct text; [congruence | reflexivity]).
  split.
  - intros Hfalse. unfold parse_metadata.
    rewrite Ht. simpl. now rewrite Hloads, Hfalse.
  - intros Htrue Hnot file media_type folder_path azure cosmos_service s
      name Hname Hext.
    assert (Hparse : exists e, parse_metadata (Some text) = Raise e
                               /\ forall c d, e <> HTTPException c d).
    { unfold parse_metadata. rewrite Ht. simpl. rewrite Hloads, Htrue.
      destruct v; try (eexists; split; [reflexivity | discriminate]).
      now destruct (Hnot items). }
    destruct Hparse as (e & Hparse & _).
    unfold upload_asset. run. rewrite Hname. simpl. rewrite Hext. simpl.
    rewrite Hparse. simpl.
    eexists. eexists. split.
    + rewrite <- app_assoc. reflexivity.
    + repeat constructor.
Qed.

(** X8. An upload the blob store refuses: the answer is 500 with the text
    of the blob store's exception (also when that exception is an
    [HTTPException] of another status), and the metadata store is never
    asked to create a record. *)
Theorem upload_blob_failure_creates_no_record
    file media_type metadata folder_path
    (azure : AzureBlobStorageService.t W)
    (cosmos_service : option (CosmosDBService.t W))
    (s : state W) name metadata_dict e w1 :
  filename file = Some name ->
  has_valid_extension media_type (Str.lower name) = true ->
  parse_metadata metadata = Ok metadata_dict ->
  AzureBlobStorageService.upload_asset azure file (value media_type)
    metadata_dict folder_path (world s) = (Raise e, w1) ->
  upload_asset env file media_type metadata folder_path azure
    cosmos_service s
  = (Raise (HTTPException 500 (str_exn e)),
     mkState w1
       (trace s ++ [ EUploadAsset (filename file) (value media_type)
                       metadata_dict folder_path;
                     EPrint ("Upload error: " +:+ str_exn e);
                     EPrint ("Error trace: " +:+ format_exc e) ])).
Proof.
  intros Hname Hext Hparse Hup.
  unfold upload_asset. run. rewrite Hname in *. simpl. rewrite Hext. simpl.
  rewrite Hparse, Hup. simpl. rewrite <- !app_assoc. reflexivity.
Qed.

End UploadEdges.

(** An empty array goes through to the blob store; a non-empty one stops
    the upload. *)
Lemma upload_metadata_array_sample :
  let env := Memory.env Memory.configured false [] (true, true, true) in
  let file := {| filename := Some "cat.png"; content := "abc" |} in
  @parse_metadata memory_lib_arrays (Some "[]") = Ok (PList [])
  /\ exists detail evs,
       @upload_asset _ memory_lib_arrays env file IMAGE (Some "[1, 2]") None
         (Memory.azure []) (Some (Memory.cosmos false)) (Memory.start [] [])
       = (Raise (HTTPException 500 detail),
          mkState (world (Memory.start [] []))
            (trace (Memory.start [] []) ++ evs))
       /\ Forall (fun ev => is_blob_call ev = false
                            /\ is_metadata_call ev = false) evs.
Proof.
  intros env file. split.
  - assert (Hne : "[]" <> EmptyString) by discriminate.
    destruct (@upload_metadata_not_an_object _ memory_lib_arrays env
                "[]" (PList []) Hne eq_refl) as [Hfalse _].
    now apply Hfalse.
  - assert (Hne : "[1, 2]" <> EmptyString) by discriminate.
    destruct (@upload_metadata_not_an_object _ memory_lib_arrays env
                "[1, 2]" (PList [PInt 1; PInt 2]) Hne eq_refl)
      as [_ Htrue].
    apply (Htrue eq_refl) with (name := "cat.png");
      try reflexivity.
    discriminate.
Defined.

(** An upload to a blob store that is down. *)
Lemma upload_blob_failure_sample :
  let env := Memory.env Memory.configured false [] (true, true, true) in
  let file := {| filename := Some "cat.png"; content := "abc" |} in
  upload_asset env file IMAGE None None memory_azure_down
    (Some (Memory.cosmos false)) (Memory.start [] [])
  = (Raise (HTTPException 500 "connection refused"),
     mkState {| Memory.blobs := []; Memory.docs := []; Memory.clock := 1000 |}
       ([] ++ [ EUploadAsset (Some "cat.png") "image" PNone None;
                EPrint ("Upload error: " +:+ "connection refused");
                EPrint ("Error trace: "
                        +:+ "Traceback: connection refused") ])).
Proof.
  intros env file.
  exact (upload_blob_failure_creates_no_record env file IMAGE None None
           memory_azure_down (Some (Memory.cosmos false))
           (Memory.start [] []) "cat.png" PNone
           (PyError "ServiceRequestError" "connection refused")
           {| Memory.blobs := []; Memory.docs := []; Memory.clock := 1000 |}
           eq_refl eq_refl eq_refl eq_refl).
Defined.

(* ===================================================================== *)
(** ** Further properties: delete and raw read *)
(* ===================================================================== *)

Section DeleteEdges.

Context {W : Type} `{PyLib} (env : Env W).

(** X9. DELETE /delete with no container (or an empty one) and no media
    type is answered 400, and here the 400 reaches the client: nothing is
    asked of either store and nothing is logged.  A container that is
    given and not empty is the one used, whatever the media type says. *)
Theorem delete_needs_container_or_media_type :
  (forall blob_name container (azure : AzureBlobStorageService.t W)
          (cosmos_service : option (CosmosDBService.t W)) (s : state W),
     truthy_opt container = false ->
     delete_asset env blob_name None container azure cosmos_service s
     = (Raise (HTTPException 400
                 "Either media_type or container must be specified"), s))
  /\
  (forall container_name media_type,
     container_name <> EmptyString ->
     resolve_container env (Some container_name) media_type
     = Ok container_name).
Proof.
  split.
  - intros blob_name container azure cosmos_service s Hc.
    unfold delete_asset, resolve_container. run. rewrite Hc.
    destruct s. reflexivity.
  - intros container_name media_type Hne. unfold resolve_container.
    destruct container_name; [congruence | reflexivity].
Qed.

(** X10. A delete whose blob call raises: the answer is 500 with the text
    of the exception, except that an [HTTPException] of the blob service
    goes through with its own status.  By then the metadata deletion has
    been placed. *)
Theorem delete_blob_failure blob_name media_type container
    (azure : AzureBlobStorageService.t W) (cosmos : CosmosDBService.t W)
    (s : state W) cn r1 w1 e w2 :
  resolve_container env container media_type = Ok cn ->
  CosmosDBService.delete_asset_metadata cosmos (asset_id_of blob_name)
    (media_type_str_of env cn) (world s) = (r1, w1) ->
  AzureBlobStorageService.delete_asset azure blob_name cn w1
  = (Raise e, w2) ->
  exists logged,
    delete_asset env blob_name media_type container azure (Some cosmos) s
    = (Raise (match e with
              | HTTPException c d => HTTPException c d
              | _ => HTTPException 500 (str_exn e)
              end),
       mkState w2
         (trace s ++ EDeleteAssetMetadata (asset_id_of blob_name)
                       (media_type_str_of env cn)
                  :: logged ++ [EDeleteBlob blob_name cn]))
    /\ Forall (fun ev => is_blob_call ev = false
                         /\ is_metadata_call ev = false) logged.
Proof.
  intros Hcn Hmeta Hblob.
  pose proof (delete_asset_run env blob_name media_type container azure
                cosmos s cn Hcn) as Hrun.
  simpl in Hrun. rewrite Hmeta, Hblob in Hrun.
  eexists. split.
  - rewrite Hrun. destruct e; reflexivity.
  - destruct r1; repeat constructor.
Qed.

(** X11. A raw read of a blob that is there answers with the bytes and
    the content type the blob store gave, under a file name that is the
    part of the blob name after its last slash; the blob store is asked
    once, for the container of the media type, and nothing else is done. *)
Theorem asset_content_streamed media_type blob_name
    (azure : AzureBlobStorageService.t W) (s : state W)
    bytes content_type w1 :
  bytes <> EmptyString ->
  AzureBlobStorageService.get_asset_content azure blob_name
    (container_of env media_type) (world s)
  = (Ok (Some bytes, content_type), w1) ->
  get_asset_content env media_type blob_name azure s
  = (Ok {| StreamingResponse.content := bytes;
           StreamingResponse.media_type := content_type;
           StreamingResponse.headers :=
             [("Content-Disposition",
               "inline; filename=" +:+ Str.after_last "/" blob_name)] |},
     mkState w1 (trace s ++ [EGetAssetContent blob_name
                               (container_of env media_type)])).
Proof.
  intros Hbytes Hget. unfold get_asset_content. run. rewrite Hget.
  destruct bytes as [|c r]; [congruence|]. simpl.
  destruct (Str.occurs "/" blob_name) eqn:Ho.
  - now rewrite StrFacts.final_split.
  - now rewrite (StrFacts.after_last_absent blob_name "/" Ho).
Qed.

(** X12. The raw read never answers 404.  When the blob store has no
    content for the name (none, or empty bytes) the handler raises a 404
    that its own [except Exception] turns into a 500 carrying the text of
    the 404; when the blob store raises, the answer is 500 as well. *)
Theorem asset_content_absent_is_500 media_type blob_name
    (azure : AzureBlobStorageService.t W) (s : state W) :
  (forall content content_type w1,
     truthy_opt content = false ->
     AzureBlobStorageService.get_asset_content azure blob_name
       (container_of env media_type) (world s)
     = (Ok (content, content_type), w1) ->
     fst (get_asset_content env media_type blob_name azure s)
     = Raise (HTTPException 500
                (str_exn (HTTPException 404
                            ("Asset not found: " +:+ blob_name)))))
  /\ (forall e w1,
        AzureBlobStorageService.get_asset_content azure blob_name
          (container_of env media_type) (world s) = (Raise e, w1) ->
        fst (get_asset_content env media_type blob_name azure s)
        = Raise (HTTPException 500 (str_exn e)))
  /\ (forall c d,
        fst (get_asset_content env media_type blob_name azure s)
        = Raise (HTTPException c d) -> c = 500).
Proof.
  unfold get_asset_content. run.
  destruct (AzureBlobStorageService.get_asset_content azure blob_name
              (container_of env media_type) (world s))
    as [[[content content_type]|e] w1]; simpl.
  - split; [|split].
    + intros content0 ct0 w0 Hfalse [= <- <- <-].
      now rewrite Hfalse.
    + intros e w0 [=].
    + intros c d. destruct (truthy_opt content); simpl; congruence.
  - split; [|split].
    + intros content0 ct0 w0 _ [=].
    + now intros e0 w0 [= <- <-].
    + intros c d. congruence.
Qed.

End DeleteEdges.

(** A delete against a blob store that is down, after the record was
    removed. *)
Lemma delete_blob_failure_sample :
  let env := Memory.env Memory.configured false [] (true, true, true) in
  let s := Memory.start [] [Memory.image_doc "a" "a.png"] in
  exists logged,
    delete_asset env "a.png" (Some IMAGE) None memory_azure_down
      (Some (Memory.cosmos false)) s
    = (Raise (HTTPException 500 "connection refused"),
       mkState {| Memory.blobs := []; Memory.docs := [];
                  Memory.clock := 1000 |}
         ([] ++ EDeleteAssetMetadata (asset_id_of "a.png")
                  (media_type_str_of env "images")
              :: logged ++ [EDeleteBlob "a.png" "images"]))
    /\ Forall (fun ev => is_blob_call ev = false
                         /\ is_metadata_call ev = false) logged.
Proof.
  intros env s.
  exact (delete_blob_failure env "a.png" (Some IMAGE) None memory_azure_down
           (Memory.cosmos false) s "images" (Ok tt)
           {| Memory.blobs := []; Memory.docs := []; Memory.clock := 1000 |}
           (PyError "ServiceRequestError" "connection refused")
           {| Memory.blobs := []; Memory.docs := []; Memory.clock := 1000 |}
           eq_refl eq_refl eq_refl).
Defined.

(** A raw read of a blob in a folder. *)
Lemma asset_content_sample :
  let env := Memory.env Memory.configured false [] (true, true, true) in
  let s := Memory.start [("images", "trips/rome/a.png", "xyz")] [] in
  get_asset_content env IMAGE "trips/rome/a.png" (Memory.azure []) s
  = (Ok {| StreamingResponse.content := "xyz";
           StreamingResponse.media_type := "application/octet-stream";
           StreamingResponse.headers :=
             [("Content-Disposition",
               "inline; filename=" +:+ Str.after_last "/" "trips/rome/a.png")] |},
     mkState (world s)
       (trace s ++ [EGetAssetContent "trips/rome/a.png"
                      (container_of env IMAGE)])).
Proof.
  intros env s.
  assert (Hne : "xyz" <> EmptyString) by discriminate.
  exact (asset_content_streamed env IMAGE "trips/rome/a.png"
           (Memory.azure []) s "xyz" "application/octet-stream" (world s)
           Hne eq_refl).
Defined.

(* ===================================================================== *)
(** ** Further properties: the listings *)
(* ===================================================================== *)

Section ListingMore.

Context {W : Type} `{PyLib}.

(** What a listing does, read off [listing]: the query, then the loop,
    then the envelope or the 500. *)
Lemma listing_run media_type item noun log_prefix on_error limit offset
    folder_path tags (cosmos : CosmosDBService.t W)
    (azure : AzureBlobStorageService.t W) (s : state W) :
  let query := EQueryAssets media_type folder_path (parse_tags tags) limit
                 offset "created_at" true in
  listing media_type item noun log_prefix on_error limit offset folder_path
    tags cosmos azure s
  = let (r, w1) := CosmosDBService.query_assets cosmos media_type
                     folder_path (parse_tags tags) limit offset
                     "created_at" true (world s) in
    match r with
    | Raise e =>
        (Raise (HTTPException 500 (on_error e)),
         mkState w1 (trace s ++ [query;
                                 ELog ERROR (log_prefix +:+ str_exn e)]))
    | Ok page =>
        let (r2, s2) := for_each (CosmosDBService.items page)
                          (project azure item)
                          (mkState w1 (trace s ++ [query])) in
        match r2 with
        | Ok gallery_items =>
            (Ok {| GalleryResponse.success := true;
                   GalleryResponse.message :=
                     "Retrieved "
                     +:+ pretty (Z.of_nat (length gallery_items))
                     +:+ " " +:+ noun +:+ " from Cosmos DB";
                   GalleryResponse.total := CosmosDBService.total page;
                   GalleryResponse.limit := limit;
                   GalleryResponse.offset := offset;
                   GalleryResponse.items := gallery_items |}, s2)
        | Raise e =>
            (Raise (HTTPException 500 (on_error e)),
             mkState (world s2)
               (trace s2 ++ [ELog ERROR (log_prefix +:+ str_exn e)]))
        end
    end.
Proof.
  intros query. unfold listing, try_except, bind at 1, call.
  destruct (CosmosDBService.query_assets cosmos _ _ _ _ _ _ _ (world s))
    as [[page|e] w1].
  - unfold bind at 1. fold query.
    destruct (for_each _ _ _) as [[ys|e] s2]; reflexivity.
  - unfold logger_error, emit, bind, raise. cbn [world trace].
    now rewrite <- app_assoc.
Qed.

(** A loop that ends has asked for one URL per record and done nothing
    else. *)
Lemma for_each_project_calls azure item (l : list dict) :
  forall (st st' : state W) ys,
    for_each l (project azure item) st = (Ok ys, st') ->
    exists urls,
      trace st' = trace st ++ urls
      /\ length urls = length l
      /\ length ys = length l
      /\ Forall (fun ev => exists b c, ev = EGenerateBlobSasUrl b c 24) urls.
Proof.
  induction l as [|m r IH]; intros st st' ys; cbn [for_each].
  - unfold ret. intros [= <- <-]. exists []. rewrite app_nil_r.
    repeat split; constructor.
  - unfold bind at 1.
    destruct (project azure item m st) as [[y|e] st1] eqn:Hy;
      [|discriminate].
    unfold bind at 1.
    destruct (for_each r (project azure item) st1) as [[ys'|e] st2] eqn:Hr;
      [|discriminate].
    unfold ret. intros [= <- <-].
    destruct (IH st1 st2 ys' Hr) as (urls & Htr & Hlen & Hys & Hall).
    unfold project, bind, lift, sas_url_of, call in Hy.
    destruct (getitem m "blob_name") as [b|e]; [|discriminate].
    destruct (getitem m "container") as [c|e]; [|discriminate].
    cbn in Hy.
    destruct (AzureBlobStorageService.generate_blob_sas_url azure b c 24
                (world st)) as [[u|e] w0]; [|discriminate].
    destruct (item m u); [|discriminate].
    injection Hy as <- <-. cbn [trace] in Htr.
    exists (EGenerateBlobSasUrl b c 24 :: urls).
    rewrite Htr, <- app_assoc. simpl.
    repeat split; auto. constructor; eauto.
Qed.

(** X13. A listing whose metadata query raises answers 500 with the text
    of the exception, logs the error, and never asks the blob store for a
    URL: the state holds the query and the log line, nothing more. *)
Theorem listing_query_failure_is_500 limit offset folder_path tags
    media_type (cosmos : CosmosDBService.t W)
    (azure : AzureBlobStorageService.t W) (s : state W) :
  let tag_list := parse_tags tags in
  let asked mt := EQueryAssets mt folder_path tag_list limit offset
                    "created_at" true in
  let answer mt := CosmosDBService.query_assets cosmos mt folder_path
                     tag_list limit offset "created_at" true (world s) in
  (forall e w1,
     answer (Some "image") = (Raise e, w1) ->
     get_gallery_images limit offset folder_path tags cosmos azure s
     = (Raise (HTTPException 500
                 ("Failed to retrieve images: " +:+ str_exn e)),
        mkState w1
          (trace s ++ [asked (Some "image");
                       ELog ERROR ("Error retrieving images: "
                                   +:+ str_exn e)])))
  /\ (forall e w1,
        answer (Some "video") = (Raise e, w1) ->
        get_gallery_videos limit offset folder_path tags cosmos azure s
        = (Raise (HTTPException 500
                    ("Failed to retrieve videos: " +:+ str_exn e)),
           mkState w1
             (trace s ++ [asked (Some "video");
                          ELog ERROR ("Error retrieving videos: "
                                      +:+ str_exn e)])))
  /\ (forall e w1,
        answer media_type = (Raise e, w1) ->
        get_gallery_items limit offset folder_path tags media_type
          cosmos azure s
        = (Raise (HTTPException 500 (str_exn e)),
           mkState w1
             (trace s ++ [asked media_type;
                          ELog ERROR ("Error retrieving gallery items: "
                                      +:+ str_exn e)]))).
Proof.
  intros tag_list asked answer. subst tag_list asked answer.
  repeat split; intros e w1 Hq;
    unfold get_gallery_images, get_gallery_videos, get_gallery_items;
    rewrite listing_run; cbv zeta; rewrite Hq; reflexivity.
Qed.

(** X14. A listing that answers has asked the metadata store once, for
    its media type, newest first, with the parsed tags, and the blob store
    for exactly one 24 hour URL per record of the page, and nothing else;
    the envelope carries the store's total untouched, the limit and offset
    of the request, and as many items as the page has records. *)
Theorem listing_envelope limit offset folder_path tags media_type mt
    (cosmos : CosmosDBService.t W) (azure : AzureBlobStorageService.t W)
    (s s' : state W) resp :
  (get_gallery_images limit offset folder_path tags cosmos azure s
   = (Ok resp, s') /\ mt = Some "image")
  \/ (get_gallery_videos limit offset folder_path tags cosmos azure s
      = (Ok resp, s') /\ mt = Some "video")
  \/ (get_gallery_items limit offset folder_path tags media_type
        cosmos azure s = (Ok resp, s') /\ mt = media_type) ->
  exists page w1 urls,
    CosmosDBService.query_assets cosmos mt folder_path (parse_tags tags)
      limit offset "created_at" true (world s) = (Ok page, w1)
    /\ trace s'
       = trace s
         ++ EQueryAssets mt folder_path (parse_tags tags) limit offset
              "created_at" true :: urls
    /\ length urls = length (CosmosDBService.items page)
    /\ Forall (fun ev => exists b c, ev = EGenerateBlobSasUrl b c 24) urls
    /\ GalleryResponse.success resp = true
    /\ GalleryResponse.total resp = CosmosDBService.total page
    /\ GalleryResponse.limit resp = limit
    /\ GalleryResponse.offset resp = offset
    /\ length (GalleryResponse.items resp)
       = length (CosmosDBService.items page).
Proof.
  assert (Hgen : forall item noun log_prefix on_error,
            listing mt item noun log_prefix on_error limit offset
              folder_path tags cosmos azure s = (Ok resp, s') ->
            exists page w1 urls,
              CosmosDBService.query_assets cosmos mt folder_path
                (parse_tags tags) limit offset "created_at" true (world s)
              = (Ok page, w1)
              /\ trace s'
                 = trace s
                   ++ EQueryAssets mt folder_path (parse_tags tags) limit
                        offset "created_at" true :: urls
              /\ length urls = length (CosmosDBService.items page)
              /\ Forall (fun ev => exists b c,
                           ev = EGenerateBlobSasUrl b c 24) urls
              /\ GalleryResponse.success resp = true
              /\ GalleryResponse.total resp = CosmosDBService.total page
              /\ GalleryResponse.limit resp = limit
              /\ GalleryResponse.offset resp = offset
              /\ length (GalleryResponse.items resp)
                 = length (CosmosDBService.items page)).
  { intros item noun log_prefix on_error. rewrite listing_run. cbv zeta.
    destruct (CosmosDBService.query_assets cosmos _ _ _ _ _ _ _ (world s))
      as [[page|e] w1]; [|discriminate].
    destruct (for_each _ _ _) as [[ys|e] s2] eqn:Hloop; [|discriminate].
    intros [= <- <-].
    destruct (for_each_project_calls azure item _ _ _ _ Hloop)
      as (urls & Htr & Hlen & Hys & Hall).
    cbn [trace] in Htr.
    exists page, w1, urls. rewrite Htr, <- app_assoc.
    repeat split; auto. }
  intros [[Hrun ->]|[[Hrun ->]|[Hrun ->]]]; eapply Hgen; exact Hrun.
Qed.

End ListingMore.

(** The image listing over two records. *)
Lemma listing_envelope_sample :
  let s := Memory.start [] [ Memory.image_doc "a" "a.png";
                             Memory.image_doc "b" "b.png" ] in
  exists resp s',
    get_gallery_images 50 0 None (Some "sea, sun") (Memory.cosmos false)
      (Memory.azure []) s = (Ok resp, s')
    /\ exists page w1 urls,
         CosmosDBService.query_assets (Memory.cosmos false) (Some "image")
           None (parse_tags (Some "sea, sun")) 50 0 "created_at" true
           (world s) = (Ok page, w1)
         /\ trace s'
            = trace s
              ++ EQueryAssets (Some "image") None
                   (parse_tags (Some "sea, sun")) 50 0 "created_at" true
                 :: urls
         /\ length urls = length (CosmosDBService.items page)
         /\ Forall (fun ev => exists b c, ev = EGenerateBlobSasUrl b c 24)
              urls
         /\ GalleryResponse.success resp = true
         /\ GalleryResponse.total resp = CosmosDBService.total page
         /\ GalleryResponse.limit resp = 50
         /\ GalleryResponse.offset resp = 0
         /\ length (GalleryResponse.items resp)
            = length (CosmosDBService.items page).
Proof.
  intros s. eexists. eexists. split; [vm_compute; reflexivity|].
  apply (listing_envelope 50 0 None (Some "sea, sun") None (Some "image")
           (Memory.cosmos false) (Memory.azure []) s).
  left. split; reflexivity.
Defined.

Section ProjectionMore.

Context `{PyLib}.

(** The keys a record must hold to be projected. *)
Lemma getitem_missing (d : dict) k :
  Dict.lookup d k = None -> getitem d k = Raise (PyError "KeyError" k).
Proof. unfold getitem. now intros ->. Qed.

Lemma getitem_ok (d : dict) k v :
  getitem d k = Ok v -> Dict.lookup d k = Some v.
Proof.
  unfold getitem. destruct (Dict.lookup d k); [|discriminate].
  now intros [= ->].
Qed.

(** X15. The two typed listings project a record only if it holds id,
    blob_name, container, size, created_at and updated_at: a record that
    lacks one of them raises KeyError.  In a projected item these six are
    the record's values, the URL is the signed one, the media type is the
    listing's own (the record's media_type field is not read), and
    content_type and folder_path default to [None] and to the empty
    string. *)
Theorem typed_item_requires_six_keys media_type item_meta metadata sas_url :
  (forall k,
     In k ["id"; "blob_name"; "container"; "size"; "created_at";
           "updated_at"] ->
     Dict.lookup metadata k = None ->
     exists k', typed_item media_type item_meta metadata sas_url
                = Raise (PyError "KeyError" k'))
  /\ (forall it,
        typed_item media_type item_meta metadata sas_url = Ok it ->
        Dict.lookup metadata "id" = Some (GalleryItem.id it)
        /\ Dict.lookup metadata "blob_name" = Some (GalleryItem.name it)
        /\ Dict.lookup metadata "container"
           = Some (GalleryItem.container it)
        /\ Dict.lookup metadata "size" = Some (GalleryItem.size it)
        /\ Dict.lookup metadata "created_at"
           = Some (GalleryItem.creation_time it)
        /\ Dict.lookup metadata "updated_at"
           = Some (GalleryItem.last_modified it)
        /\ GalleryItem.url it = sas_url
        /\ GalleryItem.media_type it = media_type
        /\ GalleryItem.content_type it
           = Dict.get metadata "content_type" PNone
        /\ GalleryItem.folder_path it
           = Dict.get metadata "folder_path" (PStr EmptyString)
        /\ item_meta metadata = Ok (GalleryItem.metadata it)).
Proof.
  split.
  - intros k Hin Habs. unfold typed_item, rbind, getitem.
    simpl in Hin.
    repeat match goal with
      | |- context [Dict.lookup metadata ?key] =>
          lazymatch goal with
          | Hk : Dict.lookup metadata key = _ |- _ => fail
          | _ => idtac
          end;
          destruct (Dict.lookup metadata key) eqn:?; [|eauto]
      end.
    intuition (subst; congruence).
  - intros it. unfold typed_item, rbind.
    destruct (getitem metadata "id") eqn:H1; [|discriminate].
    destruct (getitem metadata "blob_name") eqn:H2; [|discriminate].
    destruct (getitem metadata "container") eqn:H3; [|discriminate].
    destruct (getitem metadata "size") eqn:H4; [|discriminate].
    destruct (getitem metadata "created_at") eqn:H5; [|discriminate].
    destruct (getitem metadata "updated_at") eqn:H6; [|discriminate].
    destruct (item_meta metadata) eqn:H7; [|discriminate].
    intros [= <-]. cbn.
    repeat split; auto using getitem_ok.
Qed.

(** [MediaType(v)] succeeds on the two names only. *)
Lemma MediaType_of_ok v m : MediaType_of v = Ok m -> v = PStr (value m).
Proof.
  unfold MediaType_of.
  destruct v as [| | | |str| |]; try discriminate.
  repeat (destruct str as [|[[] [] [] [] [] [] [] []] str];
          try discriminate);
    intros [= <-]; reflexivity.
Qed.

(** X16. The mixed listing takes the media type from the record: a record
    is projected only if its media_type is the string image or video, and
    the item then carries that type; any other value, or none, fails the
    projection. *)
Theorem mixed_item_media_type_from_record metadata sas_url :
  (forall it,
     mixed_item metadata sas_url = Ok it ->
     Dict.lookup metadata "media_type"
     = Some (PStr (value (GalleryItem.media_type it))))
  /\ ((forall m, Dict.lookup metadata "media_type" <> Some (PStr (value m)))
      -> exists e, mixed_item metadata sas_url = Raise e).
Proof.
  split.
  - intros it. unfold mixed_item, rbind.
    destruct (item_metadata metadata); [|discriminate].
    destruct (getitem metadata "id"); [|discriminate].
    destruct (getitem metadata "blob_name"); [|discriminate].
    destruct (getitem metadata "media_type") as [mt|] eqn:Hmt;
      [|discriminate].
    apply getitem_ok in Hmt.
    destruct (MediaType_of mt) as [m|] eqn:Hm; [|discriminate].
    destruct (getitem metadata "container"); [|discriminate].
    destruct (getitem metadata "size"); [|discriminate].
    destruct (getitem metadata "created_at"); [|discriminate].
    destruct (getitem metadata "updated_at"); [|discriminate].
    intros [= <-]. cbn. rewrite Hmt.
    now rewrite (MediaType_of_ok mt m Hm).
  - intros Hnot. unfold mixed_item, rbind.
    destruct (item_metadata metadata); [|eauto].
    destruct (getitem metadata "id"); [|eauto].
    destruct (getitem metadata "blob_name"); [|eauto].
    destruct (getitem metadata "media_type") as [mt|] eqn:Hmt; [|eauto].
    apply getitem_ok in Hmt.
    destruct (MediaType_of mt) as [m|] eqn:Hm; [|eauto].
    exfalso. apply (Hnot m). rewrite Hmt.
    now rewrite (MediaType_of_ok mt m Hm).
Qed.

End ProjectionMore.

Section CustomMetadataShape.

Context `{PyLib}.

(** X17. A record whose custom_metadata is present and is not a
    dictionary (null, for one) cannot be projected by the image and video
    listings: building the item's metadata raises TypeError.  The record
    fields [upload_asset] hands to the metadata store after an upload
    without metadata carry exactly such a value, custom_metadata = None. *)
Theorem custom_metadata_must_be_a_dict :
  (forall metadata v,
     Dict.lookup metadata "custom_metadata" = Some v ->
     (forall d, v <> PDict d) ->
     (exists msg, image_metadata metadata = Raise (PyError "TypeError" msg))
     /\ (exists msg,
           video_metadata metadata = Raise (PyError "TypeError" msg)))
  /\ (forall media_type res fields,
        parse_metadata None = Ok PNone
        /\ (cosmos_metadata_fields media_type res PNone = Ok fields ->
            Dict.lookup fields "custom_metadata" = Some PNone)).
Proof.
  split.
  - intros metadata v Hv Hnot.
    assert (Hmap : exists msg, mapping v = Raise (PyError "TypeError" msg)).
    { destruct v; simpl; eauto. now destruct (Hnot items). }
    destruct Hmap as [msg Hmap].
    assert (Hjoin : forall r : result string,
              r = join_value "," (Dict.get metadata "tags" (PList [])) ->
              (exists tags, r = Ok tags)
              \/ (exists m, r = Raise (PyError "TypeError" m))).
    { intros r ->. unfold join_value.
      destruct (Dict.get metadata "tags" (PList [])); eauto.
      destruct (all_str l); eauto. }
    unfold image_metadata, video_metadata, rbind, Dict.get at 2 4.
    rewrite Hv, Hmap.
    destruct (Hjoin _ eq_refl) as [[tags ->]|[m ->]]; eauto.
  - intros media_type res fields. split; [reflexivity|].
    unfold cosmos_metadata_fields, rbind.
    repeat match goal with
      | |- context [getitem res ?k] => destruct (getitem res k);
                                       [|discriminate]
      end.
    now intros [= <-].
Qed.

End CustomMetadataShape.

(* ===================================================================== *)
(** ** Further properties: tokens *)
(* ===================================================================== *)

Section TokensMore.

Context {W : Type} `{PyLib} (env : Env W).

(** X18. The expiry GET /sas-tokens reports is not the expiry of either
    token: it comes from a third reading of the clock, taken after both
    tokens were signed.  With a clock that never runs backwards the
    reported expiry is never before the expiry of the image token, which is
    never before that of the video token. *)
Theorem reported_expiry_is_not_before_tokens (s s' : state W) resp :
  (forall w, fst (datetime_now env w)
             <= fst (datetime_now env (snd (datetime_now env w)))) ->
  get_sas_tokens env s = (Ok resp, s') ->
  exists video_expiry image_expiry,
    generate_container_sas env (AZURE_STORAGE_ACCOUNT_NAME (settings env))
      (AZURE_BLOB_VIDEO_CONTAINER (settings env))
      (AZURE_STORAGE_ACCOUNT_KEY (settings env)) ["read"] video_expiry
    = Ok (SasTokenResponse.video_sas_token resp)
    /\ generate_container_sas env
         (AZURE_STORAGE_ACCOUNT_NAME (settings env))
         (AZURE_BLOB_IMAGE_CONTAINER (settings env))
         (AZURE_STORAGE_ACCOUNT_KEY (settings env)) ["read"] image_expiry
       = Ok (SasTokenResponse.image_sas_token resp)
    /\ video_expiry <= image_expiry <= SasTokenResponse.expiry resp.
Proof.
  intros Hclock.
  unfold get_sas_tokens, container_token, now, try_except, bind, call, ret,
    raise, hours.
  pose proof (Hclock (world s)) as H12.
  destruct (datetime_now env (world s)) as [t1 w1]. cbn [world trace].
  destruct (generate_container_sas env _
              (AZURE_BLOB_VIDEO_CONTAINER (settings env)) _ _ _)
    as [video_token|e] eqn:Hvideo; [|discriminate].
  pose proof (Hclock w1) as H23. cbn [fst snd] in H12.
  destruct (datetime_now env w1) as [t2 w2]. cbn [world trace].
  destruct (generate_container_sas env _
              (AZURE_BLOB_IMAGE_CONTAINER (settings env)) _ _ _)
    as [image_token|e] eqn:Himage; [|discriminate].
  cbn [fst snd] in H12, H23.
  destruct (datetime_now env w2) as [t3 w3]. cbn [world trace].
  intros [= <- <-]. cbn [fst snd] in H23. cbn.
  exists (t1 + 1 * 3600 * 1000000), (t2 + 1 * 3600 * 1000000).
  repeat split; auto; lia.
Qed.

(** X19. When the signer refuses the video token the answer is 500 with
    the text of its exception and the image token is never asked for;
    when it refuses the image token the answer is 500 as well. *)
Theorem sas_signer_failure_is_500 (s : state W) :
  let (t1, w1) := datetime_now env (world s) in
  let sign container t :=
    generate_container_sas env (AZURE_STORAGE_ACCOUNT_NAME (settings env))
      container (AZURE_STORAGE_ACCOUNT_KEY (settings env)) ["read"]
      (t + hours 1) in
  (forall e,
     sign (AZURE_BLOB_VIDEO_CONTAINER (settings env)) t1 = Raise e ->
     get_sas_tokens env s
     = (Raise (HTTPException 500 (str_exn e)),
        mkState w1
          (trace s ++ [ENow t1;
                       EGenerateContainerSas
                         (AZURE_BLOB_VIDEO_CONTAINER (settings env))
                         ["read"] (t1 + hours 1)])))
  /\ (forall token e,
        sign (AZURE_BLOB_VIDEO_CONTAINER (settings env)) t1 = Ok token ->
        sign (AZURE_BLOB_IMAGE_CONTAINER (settings env))
          (fst (datetime_now env w1)) = Raise e ->
        fst (get_sas_tokens env s)
        = Raise (HTTPException 500 (str_exn e))).
Proof.
  unfold get_sas_tokens, container_token, now, try_except, bind, call, ret,
    raise.
  destruct (datetime_now env (world s)) as [t1 w1]. cbn [world trace].
  split.
  - intros e ->. now rewrite <- app_assoc.
  - intros token e -> Himage.
    destruct (datetime_now env w1) as [t2 w2]. cbn [world trace fst] in *.
    now rewrite Himage.
Qed.

End TokensMore.

(** The in-memory clock ticks forward, so the reported expiry is the
    latest of the three. *)
Lemma reported_expiry_sample :
  let env := Memory.env Memory.configured false [] (true, true, true) in
  exists video_expiry image_expiry,
    Memory.sign "acct" "videos" "secret" ["read"] video_expiry
    = Ok "sv=1&sr=c&sp=read&se=3600001000&c=videos"
    /\ Memory.sign "acct" "images" "secret" ["read"] image_expiry
       = Ok "sv=1&sr=c&sp=read&se=3600001001&c=images"
    /\ video_expiry <= image_expiry <= 3600001002.
Proof.
  intros env.
  assert (Hclock : forall w,
            fst (datetime_now env w)
            <= fst (datetime_now env (snd (datetime_now env w))))
    by (intros w; simpl; lia).
  exact (reported_expiry_is_not_before_tokens env (Memory.start [] [])
           (snd (get_sas_tokens env (Memory.start [] [])))
           {| SasTokenResponse.success := true;
              SasTokenResponse.message := "SAS tokens generated successfully";
              SasTokenResponse.video_sas_token :=
                "sv=1&sr=c&sp=read&se=3600001000&c=videos";
              SasTokenResponse.image_sas_token :=
                "sv=1&sr=c&sp=read&se=3600001001&c=images";
              SasTokenResponse.video_container_url :=
                "https://acct.blob.core.windows.net/videos";
              SasTokenResponse.image_container_url :=
                "https://acct.blob.core.windows.net/images";
              SasTokenResponse.expiry := 3600001002 |}
           Hclock eq_refl).
Defined.

(* ===================================================================== *)
(** ** Further properties: health *)
(* ===================================================================== *)

Section HealthMore.

Context {W : Type} `{PyLib} (env : Env W).

(** X20. The AI block of the health check: when the clients can be
    imported, the entry reports healthy exactly when at least one of the
    three clients is there, and its message counts the clients that are;
    the overall status is left as the two stores set it. *)
Theorem ai_services_healthy_iff_one_client services overall (s : state W)
    sora_client dalle_client llm_client :
  import_ai_clients env = Ok (sora_client, dalle_client, llm_client) ->
  exists entry,
    check_ai_services env services overall s
    = (Ok (Dict.set services "ai_services" (PDict entry), overall), s)
    /\ (Dict.lookup entry "status" = Some (PStr "healthy")
        <-> sora_client || dalle_client || llm_client = true)
    /\ (Dict.lookup entry "status" = Some (PStr "unhealthy")
        <-> sora_client || dalle_client || llm_client = false)
    /\ Dict.lookup entry "message"
       = Some (PStr (pretty (Z.of_nat (length (filter (fun b => b = true)
                                         [sora_client; dalle_client;
                                          llm_client])))
                     +:+ " AI services available")).
Proof.
  intros Himport.
  unfold check_ai_services, try_except, bind, lift, ret.
  rewrite Himport. eexists. split; [destruct s; reflexivity|].
  destruct sora_client, dalle_client, llm_client; cbn;
    repeat split; intros; congruence.
Qed.

(** X21. The blob block of the health check asks the blob store to make
    sure the image container exists, then the video container, and stops
    at the first refusal: a refused image container means the video
    container is never asked for, the entry reports unhealthy with the
    text of the exception, and the overall status is degraded. *)
Theorem blob_check_stops_at_first_refusal
    (azure : AzureBlobStorageService.t W) services overall (s : state W)
    e w1 :
  AzureBlobStorageService._ensure_container_exists azure
    (AZURE_BLOB_IMAGE_CONTAINER (settings env)) (world s) = (Raise e, w1) ->
  check_blob_storage env azure services overall s
  = (Ok (Dict.set services "azure_blob_storage"
           (PDict [ ("status", PStr "unhealthy");
                    ("error", PStr (str_exn e)) ]),
         "degraded"),
     mkState w1
       (trace s ++ [EEnsureContainerExists
                      (AZURE_BLOB_IMAGE_CONTAINER (settings env))])).
Proof.
  intros Hensure.
  unfold check_blob_storage, try_except, bind. cbn [for_each].
  unfold bind, call, ret. now rewrite Hensure.
Qed.

End HealthMore.

(** One client out of three; and a blob store that is down. *)
Lemma ai_services_sample :
  let env := Memory.env Memory.configured false [] (false, true, false) in
  exists entry,
    check_ai_services env [] "healthy" (Memory.start [] [])
    = (Ok (Dict.set [] "ai_services" (PDict entry), "healthy"),
       Memory.start [] [])
    /\ (Dict.lookup entry "status" = Some (PStr "healthy")
        <-> false || true || false = true)
    /\ (Dict.lookup entry "status" = Some (PStr "unhealthy")
        <-> false || true || false = false)
    /\ Dict.lookup entry "message"
       = Some (PStr (pretty (Z.of_nat (length (filter (fun b => b = true)
                                         [false; true; false])))
                     +:+ " AI services available")).
Proof.
  intros env.
  exact (ai_services_healthy_iff_one_client env [] "healthy"
           (Memory.start [] []) false true false eq_refl).
Defined.

Lemma blob_check_sample :
  let env := Memory.env Memory.configured false [] (true, true, true) in
  check_blob_storage env memory_azure_down [] "healthy" (Memory.start [] [])
  = (Ok (Dict.set [] "azure_blob_storage"
           (PDict [ ("status", PStr "unhealthy");
                    ("error", PStr "connection refused") ]),
         "degraded"),
     mkState (world (Memory.start [] []))
       (trace (Memory.start [] []) ++ [EEnsureContainerExists "images"])).
Proof.
  intros env.
  exact (blob_check_stops_at_first_refusal env memory_azure_down []
           "healthy" (Memory.start [] [])
           (PyError "ServiceRequestError" "connection refused")
           (world (Memory.start [] [])) eq_refl).
Defined.

(* ===================================================================== *)
(** ** Further properties: folders and metadata status *)
(* ===================================================================== *)

Section Folders.

Context {W : Type} `{PyLib}.

Lemma by_path_trans a b c : by_path a b -> by_path b c -> by_path a c.
Proof.
  unfold by_path. intros Hab Hbc.
  apply Is_true_true. apply Is_true_true in Hab, Hbc.
  exact (transitivity (R := String.le) Hab Hbc).
Qed.

Lemma by_path_total a b : by_path a b \/ by_path b a.
Proof. apply String.leb_total. Qed.

Lemma insert_folder_perm x l : insert_folder x l ≡ₚ x :: l.
Proof.
  induction l as [|y r IH]; simpl; [reflexivity|].
  destruct (String.leb (Folder.path x) (Folder.path y)); [reflexivity|].
  rewrite IH. apply Permutation_swap.
Qed.

Lemma sort_folders_perm l : sort_folders l ≡ₚ l.
Proof.
  induction l as [|x r IH]; simpl; [reflexivity|].
  now rewrite insert_folder_perm, IH.
Qed.

Lemma insert_folder_sorted x l :
  StronglySorted by_path l -> StronglySorted by_path (insert_folder x l).
Proof.
  induction l as [|y r IH]; intros Hs; simpl.
  - repeat constructor.
  - apply StronglySorted_inv in Hs as [Hr Hy].
    destruct (String.leb (Folder.path x) (Folder.path y)) eqn:Hxy.
    + constructor; [now constructor|].
      constructor; [exact Hxy|].
      eapply Forall_impl; [exact Hy|].
      intros z Hz. now apply (by_path_trans x y z).
    + constructor; [now apply IH|].
      rewrite insert_folder_perm. constructor; [|exact Hy].
      destruct (by_path_total x y) as [Hle|Hle]; [|exact Hle].
      unfold by_path in Hle. congruence.
Qed.

Lemma sort_folders_sorted l : StronglySorted by_path (sort_folders l).
Proof.
  induction l as [|x r IH]; simpl; [constructor|].
  now apply insert_folder_sorted.
Qed.

(** The entries of the loop: one per statistic with a true path. *)
Lemma folder_entries_spec stats f :
  f ∈ folder_entries stats <->
  exists stat,
    stat ∈ stats
    /\ CosmosDBCatalog.folder_path stat = Some (Folder.path f)
    /\ Folder.path f <> EmptyString
    /\ CosmosDBCatalog.count stat = Folder.count f.
Proof.
  induction stats as [|stat r IH]; simpl.
  - split; [intros Hin; inversion Hin|].
    intros (stat & Hin & _). inversion Hin.
  - destruct (CosmosDBCatalog.folder_path stat) as [[|c p]|] eqn:Hp; simpl.
    + rewrite IH. split; intros (st & Hin & Hrest).
      * exists st. split; [apply elem_of_cons; now right | exact Hrest].
      * apply elem_of_cons in Hin as [->|Hin]; [|eauto].
        destruct Hrest as (Hpath & Hne & _).
        rewrite Hp in Hpath. injection Hpath as Hpath. congruence.
    + rewrite elem_of_cons, IH. split.
      * intros [->|(st & Hin & Hrest)].
        -- exists stat. simpl. rewrite Hp.
           repeat split; [apply elem_of_cons; now left | discriminate].
        -- exists st. split; [apply elem_of_cons; now right | exact Hrest].
      * intros (st & Hin & Hpath & Hne & Hcount).
        apply elem_of_cons in Hin as [->|Hin]; [|right; eauto].
        left. destruct f as [fp fc]. simpl in *.
        rewrite Hp in Hpath. injection Hpath as <-. now subst fc.
    + rewrite IH. split; intros (st & Hin & Hrest).
      * exists st. split; [apply elem_of_cons; now right | exact Hrest].
      * apply elem_of_cons in Hin as [->|Hin]; [|eauto].
        destruct Hrest as (Hpath & _). rewrite Hp in Hpath. discriminate.
Qed.

(** X22. When the metadata store answers, GET /folders returns the
    folders sorted by path (code point order); they are exactly the
    statistics whose path is neither missing nor empty, each once, with
    its count; the message counts the folders listed, while total_folders
    is the store's own figure, passed on untouched. *)
Theorem folders_sorted_without_root media_type
    (cosmos : CosmosDBCatalog.t W) (s : state W) stats w1 :
  CosmosDBCatalog.get_folder_stats cosmos media_type (world s)
  = (Ok stats, w1) ->
  exists resp,
    get_folders media_type cosmos s = (Ok resp, mkState w1 (trace s))
    /\ StronglySorted by_path (FoldersResponse.folders resp)
    /\ FoldersResponse.folders resp
       ≡ₚ folder_entries (CosmosDBCatalog.folder_stats stats)
    /\ (forall f,
          f ∈ FoldersResponse.folders resp <->
          exists stat,
            stat ∈ CosmosDBCatalog.folder_stats stats
            /\ CosmosDBCatalog.folder_path stat = Some (Folder.path f)
            /\ Folder.path f <> EmptyString
            /\ CosmosDBCatalog.count stat = Folder.count f)
    /\ FoldersResponse.total_folders resp
       = CosmosDBCatalog.total_folders stats
    /\ FoldersResponse.message resp
       = "Retrieved "
         +:+ pretty (Z.of_nat (length (FoldersResponse.folders resp)))
         +:+ " folders from Cosmos DB".
Proof.
  intros Hstats.
  unfold get_folders, try_except, bind, consult, ret. rewrite Hstats.
  eexists. split; [reflexivity|]. cbn.
  split; [apply sort_folders_sorted|].
  split; [apply sort_folders_perm|].
  split; [|split; reflexivity].
  intros f. rewrite sort_folders_perm. apply folder_entries_spec.
Qed.

(** X23. When the metadata store refuses the statistics, GET /folders
    answers 500 with the text of the exception and logs the error. *)
Theorem folders_failure_is_500 media_type
    (cosmos : CosmosDBCatalog.t W) (s : state W) e w1 :
  CosmosDBCatalog.get_folder_stats cosmos media_type (world s)
  = (Raise e, w1) ->
  get_folders media_type cosmos s
  = (Raise (HTTPException 500
              ("Failed to retrieve folders: " +:+ str_exn e)),
     mkState w1
       (trace s ++ [ELog ERROR ("Error getting folders from Cosmos DB: "
                                +:+ str_exn e)])).
Proof.
  intros Hstats.
  unfold get_folders, try_except, bind, consult, ret, logger_error, emit,
    raise.
  now rewrite Hstats.
Qed.

End Folders.

(** Four statistics, of which one has no path and one the empty path: two
    folders are listed, in order, and the total stays four. *)
Lemma folders_sample :
  let stats :=
    [ {| CosmosDBCatalog.folder_path := Some "zoo";
         CosmosDBCatalog.count := PInt 2 |};
      {| CosmosDBCatalog.folder_path := None;
         CosmosDBCatalog.count := PInt 1 |};
      {| CosmosDBCatalog.folder_path := Some EmptyString;
         CosmosDBCatalog.count := PInt 3 |};
      {| CosmosDBCatalog.folder_path := Some "art";
         CosmosDBCatalog.count := PInt 5 |} ] in
  let s := Memory.start [] [] in
  exists resp,
    get_folders None (memory_catalog false true stats) s
    = (Ok resp, mkState (world s) (trace s))
    /\ FoldersResponse.folders resp
       = [ {| Folder.path := "art"; Folder.count := PInt 5 |};
           {| Folder.path := "zoo"; Folder.count := PInt 2 |} ]
    /\ FoldersResponse.total_folders resp = PInt 4
    /\ StronglySorted by_path (FoldersResponse.folders resp).
Proof.
  intros stats s.
  destruct (folders_sorted_without_root None
              (memory_catalog false true stats) s
              {| CosmosDBCatalog.folder_stats := stats;
                 CosmosDBCatalog.total_folders := PInt 4 |}
              (world s) eq_refl)
    as (resp & Hrun & Hsorted & _ & _ & Htotal & _).
  exists resp. split; [exact Hrun|].
  split; [|split; [exact Htotal | exact Hsorted]].
  vm_compute in Hrun. now injection Hrun as <-.
Defined.

Lemma folders_failure_sample :
  let s := Memory.start [] [] in
  get_folders None (memory_catalog true true []) s
  = (Raise (HTTPException 500
              ("Failed to retrieve folders: " +:+ "connection refused")),
     mkState (world s)
       (trace s ++ [ELog ERROR ("Error getting folders from Cosmos DB: "
                                +:+ "connection refused")])).
Proof.
  intros s.
  exact (folders_failure_is_500 None (memory_catalog true true []) s
           (PyError "ServiceRequestError" "connection refused") (world s)
           eq_refl).
Defined.

Section StatusAndDependency.

Context {W : Type} `{PyLib} (env : Env W).

(** X24. GET /metadata/status always answers.  With a metadata service,
    its status is available and every capability but the search is on
    exactly when the health check and the test query (limit 1, offset 0)
    both return; otherwise the status is error and every capability is
    off.  The search capability is on exactly when, besides, the probe
    search returns. *)
Theorem status_capabilities_follow_the_probes
    (cosmos : CosmosDBCatalog.t W) (s : state W) :
  let (t, w0) := datetime_now env (world s) in
  let (health, w1) :=
    CosmosDBService.health_check (CosmosDBCatalog.service cosmos) w0 in
  let (page, w2) :=
    CosmosDBService.query_assets (CosmosDBCatalog.service cosmos)
      (CosmosDBCatalog.default_media_type cosmos)
      (CosmosDBCatalog.default_folder_path cosmos)
      (CosmosDBCatalog.default_tags cosmos) 1 0
      (CosmosDBCatalog.default_order_by cosmos)
      (CosmosDBCatalog.default_order_desc cosmos) w1 in
  let (hits, w3) := CosmosDBCatalog.search_assets cosmos "test" 1 w2 in
  let up := returned health && returned page in
  exists st s',
    metadata_service_status env (Some cosmos) s = (Ok st, s')
    /\ Dict.lookup (MetadataStatus.metadata_service st) "status"
       = Some (PStr (if up then "available" else "error"))
    /\ MetadataStatus.capabilities st
       = capabilities_of up (up && returned hits) up up up up up.
Proof.
  unfold metadata_service_status, now, test_query, search_probe, try_except,
    bind, call, consult, ret.
  destruct (datetime_now env (world s)) as [t w0]. cbn [world trace].
  destruct (CosmosDBService.health_check _ w0) as [[health|e1] w1];
    cbn [world trace returned andb].
  - destruct (CosmosDBService.query_assets _ _ _ _ _ _ _ _ w1)
      as [[page|e2] w2]; cbn [world trace returned andb].
    + destruct (CosmosDBCatalog.search_assets cosmos "test" 1 w2)
        as [[hits|e3] w3]; cbn [world trace returned andb];
        do 2 eexists; (split; [reflexivity|]); split; reflexivity.
    + destruct (CosmosDBCatalog.search_assets cosmos "test" 1 w2)
        as [hits w3].
      do 2 eexists. split; [reflexivity|]. split; reflexivity.
  - destruct (CosmosDBService.query_assets _ _ _ _ _ _ _ _ w1)
      as [page w2].
    destruct (CosmosDBCatalog.search_assets cosmos "test" 1 w2)
      as [hits w3].
    do 2 eexists. split; [reflexivity|]. split; reflexivity.
Qed.

(** X25. The metadata-store dependency either hands over the service the
    constructor built, leaving the state as it was, or raises an
    [HTTPException]; no other exception leaves it.  The status is 503
    unless the constructor itself raised an [HTTPException], which goes
    through as it is; the world is never changed. *)
Theorem cosmos_dependency_hands_over_or_raises_http (s : state W) :
  (exists cosmos,
     get_cosmos_service env s = (Ok cosmos, s)
     /\ cosmos_configured (settings env) = true
     /\ new_CosmosDBService env = Ok cosmos)
  \/ (exists code detail s',
        get_cosmos_service env s = (Raise (HTTPException code detail), s')
        /\ world s' = world s
        /\ (code = 503
            \/ new_CosmosDBService env
               = Raise (HTTPException code detail))).
Proof.
  unfold get_cosmos_service, cosmos_configured. run.
  destruct (truthy_opt (AZURE_COSMOS_DB_ENDPOINT (settings env))); simpl.
  - destruct (truthy_opt (AZURE_COSMOS_DB_KEY (settings env))
              || USE_MANAGED_IDENTITY (settings env)); simpl.
    + destruct (new_CosmosDBService env) as [cosmos|[c d|m|cls m]]; simpl.
      * left. exists cosmos. destruct s. auto.
      * right. do 3 eexists. split; [reflexivity|]. auto.
      * right. do 3 eexists. split; [reflexivity|]. auto.
      * right. do 3 eexists. split; [reflexivity|]. auto.
    + right. do 3 eexists. split; [reflexivity|]. auto.
  - right. do 3 eexists. split; [reflexivity|]. auto.
Qed.

(** X26. With the metadata store not configured the three listing routes
    answer 503 and leave the state as it was, whatever the blob service
    constructor would have done: the metadata dependency is resolved
    first. *)
Theorem listing_routes_answer_503_unconfigured limit offset folder_path
    tags media_type (s : state W) :
  cosmos_configured (settings env) = false ->
  exists detail,
    GET_images env limit offset folder_path tags s = (HTTPError 503 detail, s)
    /\ GET_videos env limit offset folder_path tags s
       = (HTTPError 503 detail, s)
    /\ GET_items env limit offset folder_path tags media_type s
       = (HTTPError 503 detail, s).
Proof.
  intros Hconf.
  destruct (get_cosmos_service_unconfigured env s Hconf) as [detail Hdep].
  exists detail.
  unfold GET_images, GET_videos, GET_items, route, bind.
  rewrite Hdep. auto.
Qed.

End StatusAndDependency.

(** The listing routes on an environment with no metadata store and a
    blob service that cannot even be built. *)
Lemma listing_routes_sample :
  let env :=
    {| settings := Memory.unconfigured;
       new_AzureBlobStorageService :=
         Raise (PyError "ValueError" "no connection string");
       new_CosmosDBService := Ok (Memory.cosmos false);
       datetime_now := Memory.tick;
       generate_container_sas := Memory.sign;
       import_ai_clients := Ok (true, true, true);
       AssetMetadataCreateRequest := fun fields => Ok fields |} in
  let s := Memory.start [] [] in
  exists detail,
    GET_images env 50 0 None None s = (HTTPError 503 detail, s)
    /\ GET_videos env 50 0 None None s = (HTTPError 503 detail, s)
    /\ GET_items env 50 0 None None None s = (HTTPError 503 detail, s).
Proof.
  intros env s.
  exact (listing_routes_answer_503_unconfigured env 50 0 None None None s
           eq_refl).
Defined.

Section LimitBounds.

Context {W : Type} `{PyLib} (env : Env W).

(** X27.  With both dependencies resolved, the three listing routes
    answer 422 for a limit below 1 or above 100, without calling the
    handler: the state is as it was, and neither store was asked.  For a
    limit from 1 to 100 the route answers what the handler does with the
    two services. *)
Theorem listing_routes_bound_the_limit limit offset folder_path tags
    media_type cosmos azure (s : state W) :
  cosmos_configured (settings env) = true ->
  new_CosmosDBService env = Ok cosmos ->
  new_AzureBlobStorageService env = Ok azure ->
  (limit < 1 \/ 100 < limit ->
   exists detail,
     GET_images env limit offset folder_path tags s
     = (HTTPError 422 detail, s)
     /\ GET_videos env limit offset folder_path tags s
        = (HTTPError 422 detail, s)
     /\ GET_items env limit offset folder_path tags media_type s
        = (HTTPError 422 detail, s))
  /\
  (1 <= limit <= 100 ->
   GET_images env limit offset folder_path tags s
   = route (get_gallery_images limit offset folder_path tags cosmos azure) s
   /\ GET_videos env limit offset folder_path tags s
      = route (get_gallery_videos limit offset folder_path tags cosmos azure)
          s
   /\ GET_items env limit offset folder_path tags media_type s
      = route (get_gallery_items limit offset folder_path tags media_type
                 cosmos azure) s).
Proof.
  intros Hconf Hcosmos Hazure.
  pose proof (get_cosmos_service_configured env s cosmos Hconf Hcosmos)
    as Hdep.
  unfold GET_images, GET_videos, GET_items, route, bind, get_azure_service,
    lift, checked, limit_in_bounds.
  rewrite Hdep, Hazure. split.
  - intros Hout.
    assert (Hb : (1 <=? limit) && (limit <=? 100) = false).
    { apply andb_false_iff. destruct Hout as [Hlow|Hhigh].
      - left. now apply Z.leb_gt.
      - right. now apply Z.leb_gt. }
    rewrite Hb. eexists. repeat split.
  - intros [Hlow Hhigh].
    assert (Hb : (1 <=? limit) && (limit <=? 100) = true).
    { apply andb_true_iff. split; now apply Z.leb_le. }
    rewrite Hb. repeat split.
Qed.

End LimitBounds.

(** The image listing on the in-memory instance with one record: limit 0
    and limit 101 are answered 422 with nothing asked of the stores; limit
    100 is answered with the record. *)
Lemma listing_limit_sample :
  let env := Memory.env Memory.configured false [] (true, true, true) in
  let s := Memory.start [] [Memory.image_doc "a" "a.png"] in
  (exists detail, GET_images env 0 0 None None s = (HTTPError 422 detail, s))
  /\ (exists detail,
        GET_images env 101 0 None None s = (HTTPError 422 detail, s))
  /\ status (fst (GET_images env 100 0 None None s)) = 200.
Proof.
  intros env s.
  destruct (listing_routes_bound_the_limit env 0 0 None None None
              (Memory.cosmos false) (Memory.azure []) s
              eq_refl eq_refl eq_refl) as [Hlow _].
  destruct (listing_routes_bound_the_limit env 101 0 None None None
              (Memory.cosmos false) (Memory.azure []) s
              eq_refl eq_refl eq_refl) as [Hhigh _].
  destruct (listing_routes_bound_the_limit env 100 0 None None None
              (Memory.cosmos false) (Memory.azure []) s
              eq_refl eq_refl eq_refl) as [_ Hin].
  split; [|split].
  - destruct Hlow as (detail & Himg & _); [lia|]. now exists detail.
  - destruct Hhigh as (detail & Himg & _); [lia|]. now exists detail.
  - destruct Hin as (Himg & _); [lia|]. rewrite Himg. reflexivity.
Defined.
